(** * fuse-med-ml: the OAI downstream segmentation entry point

    A shallow embedding of
    [fuse_examples/imaging/oai_example/downstream/segmentation.py].

    The script is orchestration code: it reads a configuration, touches the
    file system, talks to ClearML, builds framework objects and finally hands
    them to a trainer.  The embedding therefore has three layers:

    - the Python string, path and dictionary operations the script uses,
      as executable functions;
    - the outside world: a small file system, the checkpoints and CSV files
      that can be read, the ClearML service and the devices;
    - [main] itself, written in a state-and-exception monad whose state is the
      file system together with the log of calls made into the frameworks.

    Framework objects (modules, data loaders, losses, ...) are records of the
    arguments they were constructed with. *)

From Stdlib Require Import Ascii String QArith.
From stdpp Require Import gmap strings list pretty functions.

Local Close Scope Q_scope.
Local Open Scope string_scope.
Local Open Scope list_scope.

(** ** Python string operations *)

(** [s[len(p):]] when [s.startswith(p)], nothing otherwise. *)
Fixpoint str_drop_prefix (p s : string) : option string :=
  match p, s with
  | EmptyString, _ => Some s
  | String _ _, EmptyString => None
  | String a p', String b s' =>
      if Ascii.eqb a b then str_drop_prefix p' s' else None
  end.

(** [s.startswith(p)] *)
Definition str_startswith (p s : string) : bool :=
  match str_drop_prefix p s with Some _ => true | None => false end.

(** [s.endswith(suf)] *)
Fixpoint str_endswith (suf s : string) : bool :=
  String.eqb s suf ||
  match s with
  | EmptyString => false
  | String _ s' => str_endswith suf s'
  end.

(** [sub in s] *)
Fixpoint str_contains (sub s : string) : bool :=
  str_startswith sub s ||
  match s with
  | EmptyString => false
  | String _ s' => str_contains sub s'
  end.

(** [s.replace(old, new)] for a non-empty [old]: occurrences are found from
    the left and do not overlap.  [skip] counts the characters of the
    occurrence just replaced that are still to be dropped. *)
Fixpoint str_replace_go (old new : string) (skip : nat) (s : string) : string :=
  match s with
  | EmptyString => EmptyString
  | String c s' =>
      match skip with
      | S k => str_replace_go old new k s'
      | O =>
          if str_startswith old s
          then new +:+ str_replace_go old new (String.length old - 1) s'
          else String c (str_replace_go old new 0 s')
      end
  end.

(** [s.replace("", new)] puts [new] before every character and at the end. *)
Fixpoint str_intersperse (new s : string) : string :=
  match s with
  | EmptyString => new
  | String c s' => new +:+ String c (str_intersperse new s')
  end.

Definition str_replace (old new s : string) : string :=
  match old with
  | EmptyString => str_intersperse new s
  | String _ _ => str_replace_go old new 0 s
  end.

(** [s.split(sep)] for a one-character separator; never the empty list. *)
Fixpoint str_split (sep : Ascii.ascii) (s : string) : list string :=
  match s with
  | EmptyString => [EmptyString]
  | String c s' =>
      if Ascii.eqb c sep then EmptyString :: str_split sep s'
      else match str_split sep s' with
           | h :: t => String c h :: t
           | [] => [String c EmptyString]
           end
  end.

(** [sep.join(l)] *)
Definition str_join (sep : string) (l : list string) : string :=
  String.concat sep l.

(** [str(x)] of an [int]. *)
Definition str_of_int (x : Z) : string := pretty x.

(** [os.path.join(a, b)] on POSIX. *)
Definition os_path_join (a b : string) : string :=
  if str_startswith "/" b then b
  else if String.eqb a "" || str_endswith "/" a then a +:+ b
  else a +:+ "/" +:+ b.

(** [glob.has_magic(s)]: [s] has one of the characters [*], [?] and [[],
    which [glob] reads as a pattern. *)
Definition has_magic (s : string) : bool :=
  str_contains "*" s || str_contains "?" s || str_contains "[" s.

(** ** Dictionaries kept in insertion order

    A Python [dict] whose order of items matters is a list of pairs;
    [dict_set] is [d[k] = v]: an existing key keeps its place. *)

Fixpoint dict_get {V} (k : string) (d : list (string * V)) : option V :=
  match d with
  | [] => None
  | (k', v) :: d' => if String.eqb k' k then Some v else dict_get k d'
  end.

Fixpoint dict_set {V} (k : string) (v : V) (d : list (string * V)) : list (string * V) :=
  match d with
  | [] => [(k, v)]
  | (k', v') :: d' =>
      if String.eqb k' k then (k, v) :: d' else (k', v') :: dict_set k v d'
  end.

(** [{f(k): v for k, v in items if p(k)}]: the items are visited in order
    and each one is stored under its new key, so a later item overwrites an
    earlier one with the same new key. *)
Definition dict_comprehension {V} (f : string → string) (p : string → bool)
    (items : list (string * V)) : gmap string V :=
  foldl (λ m kv, <[f kv.1 := kv.2]> m) ∅ (filter (λ kv, p kv.1 = true) items).

(** ** Exceptions and the monad of [main] *)

Inductive exn :=
  | AssertionError (msg : string)
  | IndexError
  | KeyError (key : string)
  | UnboundLocalError (name : string)
  | FileNotFoundError (path : string).

Inductive outcome (A : Type) :=
  | Ok (a : A)
  | Raise (e : exn).
Arguments Ok {A} a.
Arguments Raise {A} e.

(** [l[0]] and [l[-1]] *)
Definition index_first {A} (l : list A) : outcome A :=
  match l with
  | x :: _ => Ok x
  | [] => Raise IndexError
  end.

Fixpoint index_last {A} (l : list A) : outcome A :=
  match l with
  | [] => Raise IndexError
  | [x] => Ok x
  | _ :: l' => index_last l'
  end.

(** A computation over a state [S] that may raise: the state reached when the
    exception is raised is kept, as the effects before it have happened. *)
Definition StateExn (S A : Type) : Type := S → outcome A * S.

Definition ret {S A} (a : A) : StateExn S A := λ s, (Ok a, s).

Definition raise {S A} (e : exn) : StateExn S A := λ s, (Raise e, s).

Definition bind {S A B} (m : StateExn S A) (k : A → StateExn S B) : StateExn S B :=
  λ s, match m s with
       | (Ok a, s') => k a s'
       | (Raise e, s') => (Raise e, s')
       end.

Definition lift {S A} (o : outcome A) : StateExn S A := λ s, (o, s).

Notation "x <- m ;; k" := (bind m (λ x, k))
  (at level 100, m at next level, right associativity).
Notation "m ;; k" := (bind m (λ _, k))
  (at level 100, right associativity).

(** [d[k]] on a dictionary: [KeyError] when the key is missing. *)
Definition dict_getitem {V} (k : string) (d : list (string * V)) : outcome V :=
  match dict_get k d with
  | Some v => Ok v
  | None => Raise (KeyError k)
  end.

(** ** The configuration

    [cfg] after [hydra.utils.instantiate]: one field per key the script
    reads.  The four weight and checkpoint paths and [ckpt_path] may be
    [None]. *)
Record Config := {
  results_dir : string;
  cuda_devices : list Z;
  suprem_weights : option string;
  dino_weights : option string;
  resume_training_from : option string;
  test_ckpt : option string;
  ckpt_path : option string;
  experiment : string;
  tags : list string;
  backbone : string;
  clearml : bool;
  clearml_project_name : string;
  num_classes : Z;
  csv_path : string;
  train_folds : list Z;
  val_folds : list Z;
  test_folds : list Z;
  aug : bool;
  resize_to : list Z;
  batch_size : Z;
  n_workers : Z;
  include_background : bool;
  sigmoid : bool;
  softmax : bool;
  learning_rate : Q;
  weight_decay : Q;
  n_epochs : Z;
  grad_clip : option Q;
  accumulate_grad_batches : Z;
  precision : string
}.

(** [cfg[key]] for the keys the script computes: [f"{_set}_folds"]. *)
Definition cfg_folds (cfg : Config) (key : string) : outcome (list Z) :=
  if String.eqb key "train_folds" then Ok (train_folds cfg)
  else if String.eqb key "val_folds" then Ok (val_folds cfg)
  else if String.eqb key "test_folds" then Ok (test_folds cfg)
  else Raise (KeyError key).

Definition is_not_none {A} (x : option A) : bool :=
  match x with Some _ => true | None => false end.

(** [sum] of a sequence of booleans. *)
Definition sum_bools (l : list bool) : nat :=
  foldr (λ (b : bool) n, (if b then 1 else 0) + n) 0 l.

(** A row of the CSV file: its [fold] column and the other columns. *)
Record CsvRow := { fold : Z; other_columns : list string }.

(** [df[df.fold.isin(folds)]]: the rows whose fold is listed, in order. *)
Definition df_fold_isin (folds : list Z) (df : list CsvRow) : list CsvRow :=
  filter (λ r, fold r ∈ folds) df.

(** ** Framework objects that hold no tensor *)

Record Conv3d := { in_channels : Z; out_channels : Z; kernel_size : Z }.

Record HeadDenseSegmentation := {
  head_name : string;
  head_conv_inputs : list (string * Z);
  shared_classifier_head : Conv3d
}.

Record SegOAIDataset := {
  ds_df : list CsvRow;
  ds_validation : bool;
  ds_resize_to : list Z
}.

Inductive Collate := CollateDefault.

(** The generator [Seed.set_seed(seed, deterministic_mode)] returns. *)
Record Generator := { gen_seed : Z; gen_deterministic_mode : bool }.

Record DataLoader := {
  dl_dataset : SegOAIDataset;
  dl_shuffle : bool;
  dl_drop_last : bool;
  dl_batch_sampler : option unit;
  dl_batch_size : Z;
  dl_collate_fn : Collate;
  dl_num_workers : Z;
  dl_generator : option Generator
}.

Record GeneralizedDiceLoss := {
  gdl_include_background : bool;
  gdl_sigmoid : bool;
  gdl_softmax : bool
}.

Record LossDefault := {
  loss_pred : string;
  loss_target : string;
  loss_callable : GeneralizedDiceLoss;
  loss_weight : Q
}.

Inductive Callback := LearningRateMonitor (logging_interval : string).

Record Trainer := {
  tr_default_root_dir : string;
  tr_max_epochs : Z;
  tr_accelerator : string;
  tr_devices : Z;
  tr_strategy : string;
  tr_num_sanity_val_steps : Z;
  tr_gradient_clip_val : option Q;
  tr_deterministic : bool;
  tr_accumulate_grad_batches : Z;
  tr_precision : string
}.

(** ** Tensors, modules and samples

    Tensors are opaque: the script only moves them around, except for
    [argmax(axis=0)], which is taken as a function on them. *)
Section Segmentation.
Context {tensor : Type}.
Variable argmax0 : tensor → tensor.

(** A [UNet3D] backbone: its constructor argument and its parameters by name
    (what [state_dict()] returns). *)
Record UNet3D := { for_cls : bool; unet_state_dict : gmap string tensor }.

Record ModelMultiHead := {
  mmh_conv_inputs : list (string * Z);
  mmh_backbone : UNet3D;
  mmh_heads : list HeadDenseSegmentation
}.

(** [module.load_state_dict(sd, strict=False)] of [torch.nn.Module]: every
    parameter of the module that [sd] names takes the value [sd] gives it;
    parameters [sd] does not name keep theirs and keys of [sd] the module
    does not have are ignored. *)
Definition load_state_dict_nonstrict (own sd : gmap string tensor) : gmap string tensor :=
  map_imap (λ k v, Some (default v (sd !! k))) own.

(** Modelled from the spec: [NDict], the sample dictionary of
    [fuse.utils.ndict], whose source is not in the repository files at hand.
    It is a dictionary from (dotted) key strings to values; [sample[key]]
    raises [KeyError] on a missing key and [sample[key] = v] stores [v].
    Samples are mutable objects, so they live in a store and are passed
    around by their address. *)
Definition ndict_getitem (sample : nat) (key : string) :
    StateExn (nat → gmap string tensor) tensor :=
  λ h, match h sample !! key with
       | Some v => (Ok v, h)
       | None => (Raise (KeyError key), h)
       end.

Definition ndict_setitem (sample : nat) (key : string) (v : tensor) :
    StateExn (nat → gmap string tensor) unit :=
  λ h, (Ok tt, <[sample := <[key := v]> (h sample)]> h).

(** [pre_process_for_dice], the closure [main] hands to the Dice metric. *)
Definition pre_process_for_dice (sample : nat) :
    StateExn (nat → gmap string tensor) nat :=
  v <- ndict_getitem sample "model.logits.head_seg" ;;
  ndict_setitem sample "model.logits.head_seg" (argmax0 v) ;;
  v <- ndict_getitem sample "seg" ;;
  ndict_setitem sample "seg" (argmax0 v) ;;
  ret sample.

Record MetricDice := {
  metric_pred : string;
  metric_target : string;
  pre_collect_process_func : nat → StateExn (nat → gmap string tensor) nat
}.

(** [optim.Adam(model.parameters(), lr, weight_decay)]: [adam_params] is the
    model whose [parameters()] are optimised. *)
Record Adam := {
  adam_params : ModelMultiHead;
  adam_lr : Q;
  adam_weight_decay : Q
}.

Record CosineAnnealingLR := { cos_optimizer : Adam; T_max : Z }.

(** The values of the [optimizers_and_lr_schs] dictionary. *)
Inductive OptimizerEntry :=
  | AnOptimizer (o : Adam)
  | ASchedulerConfig (d : list (string * CosineAnnealingLR)).

Record LightningModuleDefault := {
  lm_model_dir : string;
  lm_model : ModelMultiHead;
  lm_losses : list (string * LossDefault);
  lm_train_metrics : list (string * MetricDice);
  lm_validation_metrics : list (string * MetricDice);
  lm_test_metrics : list (string * MetricDice);
  lm_optimizers_and_lr_schs : list (string * OptimizerEntry);
  lm_callbacks : list Callback;
  lm_save_model : bool;
  lm_log_unit : string
}.

(** ** The calls [main] makes, in the order it makes them *)
Inductive event :=
  | EvSetEnv (name value : string)
  | EvPrint (line : string)
  | EvMakedirs (path : string)
  | EvTaskCreate (project_name task_name : string)
  | EvOpenWrite (path : string)
  | EvTaskInit (project_name task_name reuse_last_task_id : string)
               (continue_last_task : Z) (task_tags : list string)
  | EvTaskConnect (cfg : Config)
  | EvTaskAddTags (task_tags : list string)
  | EvUNet3D (for_cls : bool)
  | EvTorchLoad (path : string)
  | EvLoadStateDict (state_dict : gmap string tensor) (strict : bool)
  | EvConv3d (c : Conv3d)
  | EvHeadDenseSegmentation (h : HeadDenseSegmentation)
  | EvModelMultiHead (m : ModelMultiHead)
  | EvFuseLoggerStart (output_path : string) (console_verbose_level : Z)
  | EvSetSeed (seed : Z) (deterministic_mode : bool)
  | EvReadCsv (path : string)
  | EvSegOAIDataset (d : SegOAIDataset)
  | EvCollateDefault
  | EvDataLoader (dl : DataLoader)
  | EvGeneralizedDiceLoss (l : GeneralizedDiceLoss)
  | EvLossDefault (l : LossDefault)
  | EvMetricDice (m : MetricDice)
  | EvAdam (o : Adam)
  | EvCosineAnnealingLR (s : CosineAnnealingLR)
  | EvLearningRateMonitor (logging_interval : string)
  | EvLightningModuleDefault (m : LightningModuleDefault)
  | EvTrainer (t : Trainer)
  | EvValidate (m : LightningModuleDefault) (dl : DataLoader) (ckpt : option string)
  | EvFit (m : LightningModuleDefault) (train_dl val_dl : DataLoader)
          (ckpt : option string).

(** ** The outside world

    What the script can read: the checkpoints [torch.load] finds (a
    dictionary of named dictionaries of tensors), the CSV files
    [pd.read_csv] finds, the id ClearML gives to the next task it creates,
    the parameters a fresh [UNet3D] starts with and the number of CUDA
    devices.

    [glob] reads the directory part of its pattern as a pattern too.  What
    it lists for [dir + "/*.cmlid"] when [dir] has a pattern character
    depends on every directory whose path matches [dir]; that matching is
    not modelled, and [glob_in_pattern_dir] is what [glob] returns then, on
    the file system it is given. *)
Record Env := {
  checkpoints : string → option (list (string * list (string * tensor)));
  csv_files : string → option (list CsvRow);
  clearml_new_task_id : string;
  unet3d_initial_state : bool → gmap string tensor;
  cuda_device_count : Z;
  glob_in_pattern_dir : gmap string (list (string * string)) → string → list string
}.

(** What the script changes: the file system and the log of its calls.  The
    file system maps the path of a directory, as the script writes it, to
    the files in it (name and content) in the order a listing gives them. *)
Record State := {
  st_fs : gmap string (list (string * string));
  st_calls : list event
}.

Definition call (e : event) : StateExn State unit :=
  λ s, (Ok tt, {| st_fs := st_fs s; st_calls := st_calls s ++ [e] |}).

(** [os.path.isdir(path)] *)
Definition isdir (path : string) : StateExn State bool :=
  λ s, (Ok (is_not_none (st_fs s !! path)), s).

(** [os.makedirs(path)]: the new directory is empty. *)
Definition makedirs (path : string) : StateExn State unit :=
  λ s, (Ok tt, {| st_fs := <[path := []]> (st_fs s);
                  st_calls := st_calls s ++ [EvMakedirs path] |}).

(** What [glob] does with the pattern ["*.cmlid"] on a file name: names that
    start with a dot are skipped, the others must end in [.cmlid]. *)
Definition fnmatch_cmlid (name : string) : bool :=
  negb (str_startswith "." name) && str_endswith ".cmlid" name.

(** The files of the one directory [dir] that match ["*.cmlid"], each as
    [dir + "/" + name]; nothing when [dir] is no directory. *)
Definition glob1_cmlid (fs : gmap string (list (string * string))) (dir : string) :
    list string :=
  match fs !! dir with
  | Some files =>
      map (λ f, dir +:+ "/" +:+ f.1) (filter (λ f, fnmatch_cmlid f.1 = true) files)
  | None => []
  end.

Variable env : Env.

(** [glob(dir + "/*.cmlid")].  When [dir] has no pattern character it names
    one directory, whose matching files are listed.  When it has one, [dir]
    is a pattern: the directory named [dir] itself need not match it (the
    pattern [run[1]] matches [run1] only) and other directories can. *)
Definition fs_glob_cmlid (fs : gmap string (list (string * string))) (dir : string) :
    list string :=
  if has_magic dir then glob_in_pattern_dir env fs dir else glob1_cmlid fs dir.

Definition glob_cmlid (dir : string) : StateExn State (list string) :=
  λ s, (Ok (fs_glob_cmlid (st_fs s) dir), s).

(** [with open(os.path.join(dir, name), "w"): pass] for a plain file [name]:
    the file is created empty in [dir], or emptied when it exists. *)
Definition open_w_pass (dir name : string) : StateExn State unit :=
  λ s, match st_fs s !! dir with
       | Some files =>
           (Ok tt, {| st_fs := <[dir := dict_set name "" files]> (st_fs s);
                      st_calls := st_calls s ++ [EvOpenWrite (os_path_join dir name)] |})
       | None => (Raise (FileNotFoundError (os_path_join dir name)), s)
       end.

(** [assert cond, msg] *)
Definition py_assert (cond : bool) (msg : string) : StateExn State unit :=
  if cond then ret tt else raise (AssertionError msg).

(** Reading a local variable that may not have been bound. *)
Definition read_local {A} (name : string) (v : option A) : StateExn State A :=
  match v with
  | Some a => ret a
  | None => raise (UnboundLocalError name)
  end.

(** [open(path, "rb")] of a checkpoint file. *)
Definition open_rb (path : string) : StateExn State unit :=
  match checkpoints env path with
  | Some _ => ret tt
  | None => raise (FileNotFoundError path)
  end.

(** [torch.load] of a checkpoint file, or of one that is open. *)
Definition torch_load (path : string) :
    StateExn State (list (string * list (string * tensor))) :=
  call (EvTorchLoad path) ;;
  match checkpoints env path with
  | Some ckpt => ret ckpt
  | None => raise (FileNotFoundError path)
  end.

(** [pd.read_csv] *)
Definition read_csv (path : string) : StateExn State (list CsvRow) :=
  call (EvReadCsv path) ;;
  match csv_files env path with
  | Some df => ret df
  | None => raise (FileNotFoundError path)
  end.

(** The loop [for _set in sets: dfs[_set] = df_all[df_all.fold.isin(cfg[f"{_set}_folds"])]]. *)
Fixpoint split_by_folds (cfg : Config) (df_all : list CsvRow) (sets : list string)
    (dfs : list (string * list CsvRow)) : StateExn State (list (string * list CsvRow)) :=
  match sets with
  | [] => ret dfs
  | _set :: sets' =>
      folds <- lift (cfg_folds cfg (_set +:+ "_folds")) ;;
      split_by_folds cfg df_all sets' (dict_set _set (df_fold_isin folds df_all) dfs)
  end.

(** The body of [if cfg.clearml:] (lines 60-77). *)
Definition clearml_setup (cfg : Config) (model_dir : string) (all_tags : list string) :
    StateExn State unit :=
  found <- glob_cmlid model_dir ;;
  (if (length found =? 0)%nat then
     call (EvTaskCreate (clearml_project_name cfg) (experiment cfg)) ;;
     open_w_pass model_dir (clearml_new_task_id env +:+ ".cmlid")
   else ret tt) ;;
  found <- glob_cmlid model_dir ;;
  first <- lift (index_first found) ;;
  name <- lift (index_last (str_split "/" first)) ;;
  clearml_task_id <- lift (index_first (str_split "." name)) ;;
  call (EvTaskInit (clearml_project_name cfg) (experiment cfg)
          clearml_task_id 0 all_tags) ;;
  call (EvTaskConnect cfg) ;;
  call (EvTaskAddTags (tags cfg)).

(** The body of [if cfg.backbone == "unet3d":] (lines 81-105); it returns the
    two variables it binds, [backbone] and [conv_inputs]. *)
Definition unet3d_backbone (cfg : Config) :
    StateExn State (UNet3D * list (string * Z)) :=
  call (EvUNet3D false) ;;
  let backbone0 :=
    {| for_cls := false; unet_state_dict := unet3d_initial_state env false |} in
  state_dict <-
    match dino_weights cfg with
    | Some path =>
        call (EvPrint ("LOADING ckpt from " +:+ path)) ;;
        open_rb path ;;
        ckpt <- torch_load path ;;
        items <- lift (dict_getitem "state_dict" ckpt) ;;
        ret (dict_comprehension (str_replace "teacher_backbone." "")
               (str_contains "teacher_backbone.") items)
    | None =>
        match suprem_weights cfg with
        | Some path =>
            ckpt <- torch_load path ;;
            items <- lift (dict_getitem "net" ckpt) ;;
            ret (dict_comprehension (str_replace "module.backbone." "")
                   (λ _, true) items)
        | None => ret (unet_state_dict backbone0)
        end
    end ;;
  call (EvLoadStateDict state_dict false) ;;
  let backbone1 :=
    {| for_cls := for_cls backbone0;
       unet_state_dict :=
         load_state_dict_nonstrict (unet_state_dict backbone0) state_dict |} in
  ret (backbone1, [("model.backbone_features", 512%Z)]).

(** ** [main], in the phases its banners mark

    [main] is one function in the source; its comment banners split it into
    the set-up, the model definition, the dataset preparation and the
    training, and each phase is a definition here.  A phase returns the local
    variables later phases read. *)

(** Lines 36-77: the configuration, the weights check, the model directory
    and the ClearML task.  [cfg] is the configuration as
    [hydra.utils.instantiate] returns it. *)
Definition setup (cfg : Config) : StateExn State string :=
  let results_path := results_dir cfg in
  call (EvSetEnv "CUDA_VISIBLE_DEVICES"
          (str_join "," (map str_of_int (cuda_devices cfg)))) ;;
  py_assert
    (sum_bools (map is_not_none
       [suprem_weights cfg; dino_weights cfg; resume_training_from cfg; test_ckpt cfg])
     <=? 1)%nat
    "only one weights/ckpt path can be used at a time" ;;
  let model_dir := os_path_join results_path (experiment cfg) in
  is_dir <- isdir model_dir ;;
  (if negb is_dir then makedirs model_dir else ret tt) ;;
  let all_tags := tags cfg ++ [backbone cfg] in
  call (EvPrint ("EXPERIMENT : " +:+ experiment cfg)) ;;
  (if clearml cfg then clearml_setup cfg model_dir all_tags else ret tt) ;;
  ret model_dir.

(** Lines 78-115, "Model definition".  The variables [backbone] and
    [conv_inputs] are bound only when [cfg.backbone == "unet3d"]; the
    arguments of a call are evaluated from left to right, so [conv_inputs] is
    read before [nn.Conv3d] is called. *)
Definition model_definition (cfg : Config) : StateExn State ModelMultiHead :=
  bound <-
    (if String.eqb (backbone cfg) "unet3d"
     then b <- unet3d_backbone cfg ;; ret (Some b)
     else ret None) ;;
  conv_inputs <- read_local "conv_inputs" (snd <$> bound) ;;
  let classifier :=
    {| in_channels := 64; out_channels := num_classes cfg; kernel_size := 1 |} in
  call (EvConv3d classifier) ;;
  let head :=
    {| head_name := "head_seg"; head_conv_inputs := conv_inputs;
       shared_classifier_head := classifier |} in
  call (EvHeadDenseSegmentation head) ;;
  let heads := [head] in
  backbone_obj <- read_local "backbone" (fst <$> bound) ;;
  let model :=
    {| mmh_conv_inputs := [("img", 1%Z)]; mmh_backbone := backbone_obj;
       mmh_heads := heads |} in
  call (EvModelMultiHead model) ;;
  ret model.

(** Lines 117-177: the logger, the seed, the three datasets and their data
    loaders. *)
Definition dataset_preparation (cfg : Config) (model_dir : string) :
    StateExn State (DataLoader * DataLoader * DataLoader) :=
  call (EvFuseLoggerStart model_dir 20) ;;
  call (EvPrint "Done") ;;
  call (EvSetEnv "CUBLAS_WORKSPACE_CONFIG" ":4096:8") ;;
  call (EvSetSeed 1234 true) ;;
  let rand_gen := {| gen_seed := 1234; gen_deterministic_mode := true |} in
  df_all <- read_csv (csv_path cfg) ;;
  dfs <- split_by_folds cfg df_all ["train"; "val"; "test"] [] ;;
  train_df <- lift (dict_getitem "train" dfs) ;;
  let train_ds :=
    {| ds_df := train_df; ds_validation := negb (aug cfg);
       ds_resize_to := resize_to cfg |} in
  call (EvSegOAIDataset train_ds) ;;
  val_df <- lift (dict_getitem "val" dfs) ;;
  let val_ds :=
    {| ds_df := val_df; ds_validation := true; ds_resize_to := resize_to cfg |} in
  call (EvSegOAIDataset val_ds) ;;
  test_df <- lift (dict_getitem "test" dfs) ;;
  let test_ds :=
    {| ds_df := test_df; ds_validation := true; ds_resize_to := resize_to cfg |} in
  call (EvSegOAIDataset test_ds) ;;
  call EvCollateDefault ;;
  let train_dl :=
    {| dl_dataset := train_ds; dl_shuffle := true; dl_drop_last := false;
       dl_batch_sampler := None; dl_batch_size := batch_size cfg;
       dl_collate_fn := CollateDefault; dl_num_workers := n_workers cfg;
       dl_generator := None |} in
  call (EvDataLoader train_dl) ;;
  call EvCollateDefault ;;
  let val_dl :=
    {| dl_dataset := val_ds; dl_shuffle := false; dl_drop_last := false;
       dl_batch_sampler := None; dl_batch_size := 1;
       dl_collate_fn := CollateDefault; dl_num_workers := n_workers cfg;
       dl_generator := Some rand_gen |} in
  call (EvDataLoader val_dl) ;;
  call EvCollateDefault ;;
  let test_dl :=
    {| dl_dataset := test_ds; dl_shuffle := false; dl_drop_last := false;
       dl_batch_sampler := None; dl_batch_size := 1;
       dl_collate_fn := CollateDefault; dl_num_workers := n_workers cfg;
       dl_generator := Some rand_gen |} in
  call (EvDataLoader test_dl) ;;
  ret (train_dl, val_dl, test_dl).

(** Lines 179-279: the loss, the metrics, the optimizer and its scheduler,
    the callbacks, the Lightning module, the trainer and its run. *)
Definition training (cfg : Config) (model_dir : string) (model : ModelMultiHead)
    (train_dl val_dl test_dl : DataLoader) : StateExn State unit :=
  let callable_loss :=
    {| gdl_include_background := include_background cfg;
       gdl_sigmoid := sigmoid cfg; gdl_softmax := softmax cfg |} in
  call (EvGeneralizedDiceLoss callable_loss) ;;
  let loss :=
    {| loss_pred := "model.logits.head_seg"; loss_target := "seg";
       loss_callable := callable_loss; loss_weight := 1%Q |} in
  call (EvLossDefault loss) ;;
  let losses := [("generalized_dice_loss", loss)] in
  let train_metrics : list (string * MetricDice) := [] in
  let dice :=
    {| metric_pred := "model.logits.head_seg"; metric_target := "seg";
       pre_collect_process_func := pre_process_for_dice |} in
  call (EvMetricDice dice) ;;
  let val_metrics := [("dice", dice)] in
  let optimizer :=
    {| adam_params := model; adam_lr := learning_rate cfg;
       adam_weight_decay := weight_decay cfg |} in
  call (EvAdam optimizer) ;;
  let lr_scheduler := {| cos_optimizer := optimizer; T_max := n_epochs cfg |} in
  call (EvCosineAnnealingLR lr_scheduler) ;;
  let lr_sch_config := [("scheduler", lr_scheduler)] in
  let optimizers_and_lr_schs := [("optimizer", AnOptimizer optimizer)] in
  let optimizers_and_lr_schs :=
    dict_set "lr_scheduler" (ASchedulerConfig lr_sch_config) optimizers_and_lr_schs in
  call (EvLearningRateMonitor "epoch") ;;
  let callbacks := [LearningRateMonitor "epoch"] in
  let ckpt :=
    match resume_training_from cfg with
    | Some _ => ckpt_path cfg
    | None => None
    end in
  let pl_module :=
    {| lm_model_dir := model_dir; lm_model := model; lm_losses := losses;
       lm_train_metrics := train_metrics; lm_validation_metrics := val_metrics;
       lm_test_metrics := val_metrics;
       lm_optimizers_and_lr_schs := optimizers_and_lr_schs;
       lm_callbacks := callbacks; lm_save_model := false; lm_log_unit := "epoch" |} in
  call (EvLightningModuleDefault pl_module) ;;
  let devices := cuda_device_count env in
  let pl_trainer :=
    {| tr_default_root_dir := model_dir; tr_max_epochs := n_epochs cfg;
       tr_accelerator := "gpu"; tr_devices := devices;
       tr_strategy := if (1 <? devices)%Z then "ddp" else "auto";
       tr_num_sanity_val_steps := 0;
       tr_gradient_clip_val := grad_clip cfg; tr_deterministic := false;
       tr_accumulate_grad_batches := accumulate_grad_batches cfg;
       tr_precision := precision cfg |} in
  call (EvTrainer pl_trainer) ;;
  match test_ckpt cfg with
  | Some path =>
      call (EvPrint ("Test using ckpt: " +:+ path)) ;;
      call (EvValidate pl_module test_dl (test_ckpt cfg))
  | None => call (EvFit pl_module train_dl val_dl ckpt)
  end.

Definition main (cfg : Config) : StateExn State unit :=
  model_dir <- setup cfg ;;
  model <- model_definition cfg ;;
  loaders <- dataset_preparation cfg model_dir ;;
  training cfg model_dir model loaders.1.1 loaders.1.2 loaders.2.

End Segmentation.

(** ** Observing a run

    A run of [main] starts from a file system and an empty log.  The
    functions below select from the log the calls a property speaks about. *)
Section Observations.
Context {tensor : Type}.

Definition initial (fs : gmap string (list (string * string))) : @State tensor :=
  {| st_fs := fs; st_calls := [] |}.

(** The arguments of every [load_state_dict] call. *)
Definition loaded_state_dicts (calls : list (@event tensor)) :
    list (gmap string tensor * bool) :=
  omap (λ e, match e with EvLoadStateDict sd strict => Some (sd, strict) | _ => None end)
       calls.

(** Constructions of a backbone, a layer, a head or a model. *)
Definition is_model_construction (e : @event tensor) : bool :=
  match e with
  | EvUNet3D _ | EvConv3d _ | EvHeadDenseSegmentation _ | EvModelMultiHead _ => true
  | _ => false
  end.

Definition models_built (calls : list (@event tensor)) : list (@ModelMultiHead tensor) :=
  omap (λ e, match e with EvModelMultiHead m => Some m | _ => None end) calls.

Definition backbones_constructed (calls : list (@event tensor)) : list bool :=
  omap (λ e, match e with EvUNet3D b => Some b | _ => None end) calls.

Definition directories_created (calls : list (@event tensor)) : list string :=
  omap (λ e, match e with EvMakedirs p => Some p | _ => None end) calls.

Definition files_written (calls : list (@event tensor)) : list string :=
  omap (λ e, match e with EvOpenWrite p => Some p | _ => None end) calls.

(** Calls into ClearML. *)
Definition is_clearml_call (e : @event tensor) : bool :=
  match e with
  | EvTaskCreate _ _ | EvTaskInit _ _ _ _ _ | EvTaskConnect _ | EvTaskAddTags _ => true
  | _ => false
  end.

Definition clearml_calls (calls : list (@event tensor)) : list (@event tensor) :=
  filter (λ e, is_clearml_call e = true) calls.

Definition dataloaders_built (calls : list (@event tensor)) : list DataLoader :=
  omap (λ e, match e with EvDataLoader dl => Some dl | _ => None end) calls.

Definition datasets_built (calls : list (@event tensor)) : list SegOAIDataset :=
  omap (λ e, match e with EvSegOAIDataset d => Some d | _ => None end) calls.

Definition lightning_modules (calls : list (@event tensor)) :
    list (@LightningModuleDefault tensor) :=
  omap (λ e, match e with EvLightningModuleDefault m => Some m | _ => None end) calls.

(** [pl_trainer.validate] and [pl_trainer.fit]. *)
Definition is_trainer_run (e : @event tensor) : bool :=
  match e with
  | EvValidate _ _ _ | EvFit _ _ _ _ => true
  | _ => false
  end.

Definition trainer_runs (calls : list (@event tensor)) : list (@event tensor) :=
  filter (λ e, is_trainer_run e = true) calls.

(** Everything the trainer is given: its construction and its runs. *)
Definition is_trainer_call (e : @event tensor) : bool :=
  match e with
  | EvTrainer _ | EvValidate _ _ _ | EvFit _ _ _ _ => true
  | _ => false
  end.

Definition trainer_calls (calls : list (@event tensor)) : list (@event tensor) :=
  filter (λ e, is_trainer_call e = true) calls.

End Observations.

(** The task id the script reads off a marker file's path:
    [path.split("/")[-1].split(".")[0]]. *)
Definition parsed_task_id (path : string) : string :=
  match index_last (str_split "/" path) with
  | Ok name =>
      match index_first (str_split "." name) with
      | Ok id => id
      | Raise _ => ""
      end
  | Raise _ => ""
  end.


(** The flag [validation] of [SegOAI.dataset] switches augmentation off
    ([fuse_examples.imaging.oai_example.data.seg_ds] is not among the
    files at hand; this is the reading of the flag the script relies on). *)
Definition augmentation_enabled (d : SegOAIDataset) : bool := negb (ds_validation d).

(** [cfg] with another value of [resume_training_from]. *)
Definition with_resume_training_from (v : option string) (cfg : Config) : Config :=
  {| results_dir := results_dir cfg; cuda_devices := cuda_devices cfg;
     suprem_weights := suprem_weights cfg; dino_weights := dino_weights cfg;
     resume_training_from := v; test_ckpt := test_ckpt cfg;
     ckpt_path := ckpt_path cfg; experiment := experiment cfg; tags := tags cfg;
     backbone := backbone cfg; clearml := clearml cfg;
     clearml_project_name := clearml_project_name cfg;
     num_classes := num_classes cfg; csv_path := csv_path cfg;
     train_folds := train_folds cfg; val_folds := val_folds cfg;
     test_folds := test_folds cfg; aug := aug cfg; resize_to := resize_to cfg;
     batch_size := batch_size cfg; n_workers := n_workers cfg;
     include_background := include_background cfg; sigmoid := sigmoid cfg;
     softmax := softmax cfg; learning_rate := learning_rate cfg;
     weight_decay := weight_decay cfg; n_epochs := n_epochs cfg;
     grad_clip := grad_clip cfg;
     accumulate_grad_batches := accumulate_grad_batches cfg;
     precision := precision cfg |}.

(** [cfg] with another value of [experiment]. *)
Definition with_experiment (v : string) (cfg : Config) : Config :=
  {| results_dir := results_dir cfg; cuda_devices := cuda_devices cfg;
     suprem_weights := suprem_weights cfg; dino_weights := dino_weights cfg;
     resume_training_from := resume_training_from cfg; test_ckpt := test_ckpt cfg;
     ckpt_path := ckpt_path cfg; experiment := v; tags := tags cfg;
     backbone := backbone cfg; clearml := clearml cfg;
     clearml_project_name := clearml_project_name cfg;
     num_classes := num_classes cfg; csv_path := csv_path cfg;
     train_folds := train_folds cfg; val_folds := val_folds cfg;
     test_folds := test_folds cfg; aug := aug cfg; resize_to := resize_to cfg;
     batch_size := batch_size cfg; n_workers := n_workers cfg;
     include_background := include_background cfg; sigmoid := sigmoid cfg;
     softmax := softmax cfg; learning_rate := learning_rate cfg;
     weight_decay := weight_decay cfg; n_epochs := n_epochs cfg;
     grad_clip := grad_clip cfg;
     accumulate_grad_batches := accumulate_grad_batches cfg;
     precision := precision cfg |}.

(** ** Two readings of "the state dict consists of the renamed entries"

    [f] renames a key and [p] selects the keys that are kept. *)
Section Renaming.
Context {V : Type}.
Variables (f : string → string) (p : string → bool).

(** The entries of [sd] are exactly the selected items, renamed. *)
Definition renamed_entries (items : list (string * V)) (sd : gmap string V) : Prop :=
  ∀ k' v, sd !! k' = Some v ↔ ∃ k, (k, v) ∈ items ∧ p k = true ∧ f k = k'.

(** The same, except that of the selected items renamed to one key only the
    last one is kept. *)
Definition renamed_entries_last_wins (items : list (string * V)) (sd : gmap string V) :
    Prop :=
  ∀ k' v, sd !! k' = Some v ↔
    ∃ i k, items !! i = Some (k, v) ∧ p k = true ∧ f k = k' ∧
      ∀ j k2 v2, (i < j)%nat → items !! j = Some (k2, v2) → p k2 = true → f k2 ≠ k'.

End Renaming.

(** ** A concrete world, for examples

    Tensors are vectors of integers and [argmax] gives the index of the first
    largest entry.  The one directory path of the examples that [glob]
    reads as a pattern is [/results/run[1]]: it matches the directory
    [/results/run1] and no other, so for it [glob] lists the marker files of
    [/results/run1]. *)
Fixpoint argmax_from (best_i best i : Z) (l : list Z) : Z :=
  match l with
  | [] => best_i
  | x :: l' =>
      if (best <? x)%Z then argmax_from i x (i + 1)%Z l'
      else argmax_from best_i best (i + 1)%Z l'
  end.

Definition example_argmax (t : list Z) : list Z :=
  match t with
  | [] => []
  | x :: l => [argmax_from 0 x 1 l]
  end.

Definition example_cfg (suprem dino resume test : option string) (use_clearml : bool)
    (bb : string) : Config :=
  {| results_dir := "/results"; cuda_devices := [0; 1]%Z;
     suprem_weights := suprem; dino_weights := dino;
     resume_training_from := resume; test_ckpt := test;
     ckpt_path := Some "/results/seg/last.ckpt"; experiment := "seg";
     tags := ["oai"]; backbone := bb; clearml := use_clearml;
     clearml_project_name := "OAI"; num_classes := 7; csv_path := "folds.csv";
     train_folds := [0; 1; 2]%Z; val_folds := [3]%Z; test_folds := [4]%Z;
     aug := true; resize_to := [40; 224; 224]%Z; batch_size := 2; n_workers := 8;
     include_background := false; sigmoid := false; softmax := true;
     learning_rate := (1 # 1000)%Q; weight_decay := 0%Q; n_epochs := 100;
     grad_clip := None; accumulate_grad_batches := 1; precision := "16-mixed" |}.

(** What [glob] returns in the example world for a model directory with a
    pattern character.  The one such directory used is [/results/run[1]]:
    as a pattern it matches the directory [/results/run1] and no other. *)
Definition example_glob_in_pattern_dir (fs : gmap string (list (string * string)))
    (dir : string) : list string :=
  if String.eqb dir "/results/run[1]" then glob1_cmlid fs "/results/run1" else [].

(** The items of a DINO checkpoint's ["state_dict"], of a SuPreM
    checkpoint's ["net"], and of a ["net"] that was saved both with and
    without the [module.backbone.] prefix. *)
Definition example_dino_items : list (string * list Z) :=
  [("teacher_backbone.w", [1; 2]%Z); ("teacher_backbone.b", [3]%Z);
   ("student_backbone.w", [4; 5]%Z)].

Definition example_suprem_items : list (string * list Z) :=
  [("module.backbone.w", [7; 8]%Z); ("module.head.b", [9]%Z)].

Definition example_suprem_both_items : list (string * list Z) :=
  [("module.backbone.w", [7; 8]%Z); ("w", [6; 6]%Z)].

Definition example_env : @Env (list Z) :=
  {| checkpoints := λ path,
       if String.eqb path "dino.ckpt" then Some [("state_dict", example_dino_items)]
       else if String.eqb path "suprem.pth" then Some [("net", example_suprem_items)]
       else if String.eqb path "suprem_both.pth"
       then Some [("net", example_suprem_both_items)]
       else None;
     csv_files := λ path,
       if String.eqb path "folds.csv"
       then Some [ {| fold := 0; other_columns := ["9000099"] |};
                   {| fold := 3; other_columns := ["9000296"] |};
                   {| fold := 4; other_columns := ["9000622"] |};
                   {| fold := 9; other_columns := ["9000798"] |} ]
       else None;
     clearml_new_task_id := "4f2a";
     unet3d_initial_state := λ _, {[ "w" := [0; 0]%Z; "b" := [5]%Z ]};
     cuda_device_count := 2;
     glob_in_pattern_dir := example_glob_in_pattern_dir |}.

(** A results directory that already holds a marker file. *)
Definition example_fs : gmap string (list (string * string)) :=
  {[ "/results/seg" := [("log.txt", "started"); ("77aa.cmlid", "")] ]}.

(** The directory of another experiment, [run1], with its marker file. *)
Definition example_fs_run1 : gmap string (list (string * string)) :=
  {[ "/results/run1" := [("77aa.cmlid", "")] ]}.

Definition example_run (cfg : Config) (fs : gmap string (list (string * string))) :
    outcome unit * @State (list Z) :=
  main example_argmax example_env cfg (initial fs).

(** ** Runs of a phase

    Every computation of the script only appends to the log, and what it
    appends does not depend on what the log held before. *)
Section Runs.
Context {tensor : Type}.

(** Started on the file system [fs], [m] ends with [out] on the file system
    [fs'] after making the calls [new]. *)
Definition runs {A} (m : StateExn (@State tensor) A)
    (fs : gmap string (list (string * string))) (out : outcome A)
    (fs' : gmap string (list (string * string))) (new : list (@event tensor)) : Prop :=
  ∀ calls, m {| st_fs := fs; st_calls := calls |} =
           (out, {| st_fs := fs'; st_calls := calls ++ new |}).

(** [m] has a run from every file system, and all its calls satisfy [P]. *)
Definition traced (P : @event tensor → bool) {A} (m : StateExn (@State tensor) A) : Prop :=
  ∀ fs, ∃ out fs' new, forallb P new = true ∧ runs m fs out fs' new.

(** [m] leaves the file system as it found it. *)
Definition keeps_fs {A} (m : StateExn (@State tensor) A) : Prop :=
  ∀ s, st_fs (m s).2 = st_fs s.

(** The calls each phase may make. *)
Definition is_setup_call (e : @event tensor) : bool :=
  match e with
  | EvSetEnv _ _ | EvPrint _ | EvMakedirs _ | EvTaskCreate _ _ | EvOpenWrite _
  | EvTaskInit _ _ _ _ _ | EvTaskConnect _ | EvTaskAddTags _ => true
  | _ => false
  end.

Definition is_model_definition_call (e : @event tensor) : bool :=
  match e with
  | EvUNet3D _ | EvPrint _ | EvTorchLoad _ | EvLoadStateDict _ _ | EvConv3d _
  | EvHeadDenseSegmentation _ | EvModelMultiHead _ => true
  | _ => false
  end.

Definition is_dataset_preparation_call (e : @event tensor) : bool :=
  match e with
  | EvFuseLoggerStart _ _ | EvPrint _ | EvSetEnv _ _ | EvSetSeed _ _ | EvReadCsv _
  | EvSegOAIDataset _ | EvCollateDefault | EvDataLoader _ => true
  | _ => false
  end.

Definition is_training_call (e : @event tensor) : bool :=
  match e with
  | EvGeneralizedDiceLoss _ | EvLossDefault _ | EvMetricDice _ | EvAdam _
  | EvCosineAnnealingLR _ | EvLearningRateMonitor _ | EvLightningModuleDefault _
  | EvTrainer _ | EvPrint _ | EvValidate _ _ _ | EvFit _ _ _ _ => true
  | _ => false
  end.

End Runs.

(** What the state dict loaded into the backbone is, by configuration: the
    renamed entries of the DINO checkpoint's ["state_dict"], else those of
    the SuPreM checkpoint's ["net"], else the backbone's own state dict. *)
Definition state_dict_source {tensor} (env : @Env tensor) (cfg : Config)
    (sd : gmap string tensor) : Prop :=
  match dino_weights cfg, suprem_weights cfg with
  | Some path, _ =>
      ∃ ckpt items,
        checkpoints env path = Some ckpt ∧ dict_get "state_dict" ckpt = Some items ∧
        renamed_entries_last_wins (str_replace "teacher_backbone." "")
          (str_contains "teacher_backbone.") items sd
  | None, Some path =>
      ∃ ckpt items,
        checkpoints env path = Some ckpt ∧ dict_get "net" ckpt = Some items ∧
        renamed_entries_last_wins (str_replace "module.backbone." "") (λ _, true) items sd
  | None, None => sd = unet3d_initial_state env false
  end.

(** The checkpoint the configuration names, if any, can be read and has
    the dictionary the script takes from it. *)
Definition weights_loadable {tensor} (env : @Env tensor) (cfg : Config) : Prop :=
  match dino_weights cfg, suprem_weights cfg with
  | Some path, _ =>
      ∃ ckpt, checkpoints env path = Some ckpt ∧ is_Some (dict_get "state_dict" ckpt)
  | None, Some path =>
      ∃ ckpt, checkpoints env path = Some ckpt ∧ is_Some (dict_get "net" ckpt)
  | None, None => True
  end.

(** A run of [main], by the phase that ends it: each phase starts on the
    file system the one before it left and adds its calls to the log. *)
Section MainRun.
Context {tensor : Type}.
Variable argmax0 : tensor → tensor.
Variable env : @Env tensor.
Variable cfg : Config.
Variable fs : gmap string (list (string * string)).

Inductive main_run : outcome unit → @State tensor → Prop :=
  | main_run_setup e f1 n1 :
      runs (setup env cfg) fs (Raise e) f1 n1 →
      forallb is_setup_call n1 = true →
      main_run (Raise e) {| st_fs := f1; st_calls := n1 |}
  | main_run_model_definition model_dir f1 n1 e f2 n2 :
      runs (setup env cfg) fs (Ok model_dir) f1 n1 →
      forallb is_setup_call n1 = true →
      runs (model_definition env cfg) f1 (Raise e) f2 n2 →
      forallb is_model_definition_call n2 = true →
      main_run (Raise e) {| st_fs := f2; st_calls := n1 ++ n2 |}
  | main_run_dataset_preparation model_dir f1 n1 model f2 n2 e f3 n3 :
      runs (setup env cfg) fs (Ok model_dir) f1 n1 →
      forallb is_setup_call n1 = true →
      runs (model_definition env cfg) f1 (Ok model) f2 n2 →
      forallb is_model_definition_call n2 = true →
      runs (dataset_preparation env cfg model_dir) f2 (Raise e) f3 n3 →
      forallb is_dataset_preparation_call n3 = true →
      main_run (Raise e) {| st_fs := f3; st_calls := n1 ++ n2 ++ n3 |}
  | main_run_training model_dir f1 n1 model f2 n2 train_dl val_dl test_dl f3 n3 out f4 n4 :
      runs (setup env cfg) fs (Ok model_dir) f1 n1 →
      forallb is_setup_call n1 = true →
      runs (model_definition env cfg) f1 (Ok model) f2 n2 →
      forallb is_model_definition_call n2 = true →
      runs (dataset_preparation env cfg model_dir) f2 (Ok (train_dl, val_dl, test_dl)) f3 n3 →
      forallb is_dataset_preparation_call n3 = true →
      runs (training argmax0 env cfg model_dir model train_dl val_dl test_dl) f3 out f4 n4 →
      forallb is_training_call n4 = true →
      main_run out {| st_fs := f4; st_calls := n1 ++ n2 ++ n3 ++ n4 |}.

End MainRun.

(** ** More observations of a run *)
Section MoreObservations.
Context {tensor : Type}.

(** The assignments to [os.environ], in order. *)
Definition env_vars_set (calls : list (@event tensor)) : list (string * string) :=
  omap (λ e, match e with EvSetEnv name value => Some (name, value) | _ => None end) calls.

(** The arguments of every [Seed.set_seed] call. *)
Definition seeds_set (calls : list (@event tensor)) : list (Z * bool) :=
  omap (λ e, match e with EvSetSeed seed mode => Some (seed, mode) | _ => None end) calls.

(** The lines printed. *)
Definition printed (calls : list (@event tensor)) : list string :=
  omap (λ e, match e with EvPrint line => Some line | _ => None end) calls.

(** The paths given to [torch.load] and to [pd.read_csv]. *)
Definition torch_loads (calls : list (@event tensor)) : list string :=
  omap (λ e, match e with EvTorchLoad path => Some path | _ => None end) calls.

Definition csv_reads (calls : list (@event tensor)) : list string :=
  omap (λ e, match e with EvReadCsv path => Some path | _ => None end) calls.

(** The arguments of every [fuse_logger_start] call. *)
Definition loggers_started (calls : list (@event tensor)) : list (string * Z) :=
  omap (λ e, match e with EvFuseLoggerStart path level => Some (path, level) | _ => None end)
       calls.

Definition trainers_built (calls : list (@event tensor)) : list Trainer :=
  omap (λ e, match e with EvTrainer t => Some t | _ => None end) calls.

(** The [reuse_last_task_id] of every [Task.init] call, and the
    [Task.create] calls. *)
Definition task_init_ids (calls : list (@event tensor)) : list string :=
  omap (λ e, match e with EvTaskInit _ _ id _ _ => Some id | _ => None end) calls.

Definition tasks_created (calls : list (@event tensor)) : list (string * string) :=
  omap (λ e, match e with EvTaskCreate project name => Some (project, name) | _ => None end)
       calls.

End MoreObservations.

(** The characters of [s] before the first [c]; all of [s] when it has no [c]. *)
Fixpoint str_before (c : Ascii.ascii) (s : string) : string :=
  match s with
  | EmptyString => EmptyString
  | String x s' => if Ascii.eqb x c then EmptyString else String x (str_before c s')
  end.

(** The weights check of [main] lets the configuration through. *)
Definition one_weights_path_at_most (cfg : Config) : Prop :=
  (length (filter is_Some
     [suprem_weights cfg; dino_weights cfg; resume_training_from cfg; test_ckpt cfg]) ≤ 1)%nat.

(** ** More of the example world

    Checkpoints of other shapes: a DINO checkpoint that holds student weights
    only, a SuPreM checkpoint saved without the [module.backbone.] prefix and
    a file that has no ["state_dict"].  ClearML hands out another id here,
    and there is one device. *)
Definition example_env_more : @Env (list Z) :=
  {| checkpoints := λ path,
       if String.eqb path "student.ckpt"
       then Some [("state_dict", [("student_backbone.w", [4; 5]%Z)])]
       else if String.eqb path "plain.pth"
       then Some [("net", [("w", [7; 8]%Z); ("head.b", [9]%Z)])]
       else if String.eqb path "weights_only.ckpt"
       then Some [("model", [("w", [1; 1]%Z)])]
       else None;
     csv_files := csv_files example_env;
     clearml_new_task_id := "9c1e";
     unet3d_initial_state := unet3d_initial_state example_env;
     cuda_device_count := 1;
     glob_in_pattern_dir := example_glob_in_pattern_dir |}.

(** The example world without its CSV file. *)
Definition example_env_no_csv : @Env (list Z) :=
  {| checkpoints := checkpoints example_env;
     csv_files := λ _, None;
     clearml_new_task_id := clearml_new_task_id example_env;
     unet3d_initial_state := unet3d_initial_state example_env;
     cuda_device_count := cuda_device_count example_env;
     glob_in_pattern_dir := example_glob_in_pattern_dir |}.

(** A results directory whose marker file has a second dot in its name. *)
Definition example_fs_dotted : gmap string (list (string * string)) :=
  {[ "/results/seg" := [("log.txt", "started"); ("9c1e.v2.cmlid", "")] ]}.

(** * Properties *)

(** ** Strings and paths *)

Lemma str_split_not_nil sep s : str_split sep s ≠ [].
Proof.
  destruct s as [|c s]; simpl; [done|].
  destruct (Ascii.eqb c sep); [done|].
  destruct (str_split sep s); done.
Qed.

Lemma str_split_app_sep sep a n :
  str_split sep (a +:+ String sep n) = (str_split sep a ++ str_split sep n)%list.
Proof.
  induction a as [|x a IH]; simpl.
  - by rewrite Ascii.eqb_refl.
  - destruct (Ascii.eqb x sep); [by rewrite IH|].
    rewrite IH. pose proof (str_split_not_nil sep a) as Hne.
    destruct (str_split sep a); done.
Qed.

Lemma str_contains_cons c x s :
  str_contains (String c "") (String x s) = Ascii.eqb c x || str_contains (String c "") s.
Proof.
  simpl. unfold str_startswith at 1. simpl.
  destruct (Ascii.eqb c x); [|done]. by destruct s.
Qed.

Lemma str_split_no_sep c s :
  str_contains (String c "") s = false → str_split c s = [s].
Proof.
  induction s as [|x s IH]; [done|].
  rewrite str_contains_cons. intros [Hx Hs]%orb_false_elim.
  simpl. rewrite Ascii.eqb_sym, Hx, IH; done.
Qed.

Lemma index_last_app {A} (l : list A) x : index_last (l ++ [x])%list = Ok x.
Proof.
  induction l as [|y l IH]; [done|].
  destruct l as [|z l]; [done|]. exact IH.
Qed.

Lemma index_last_ok {A} (l : list A) : l ≠ [] → ∃ x, index_last l = Ok x.
Proof.
  induction l as [|y l IH]; [done|]. intros _.
  destruct l as [|z l]; [by exists y|]. apply IH. done.
Qed.


Lemma parsed_task_id_ok path :
  ∃ name, index_last (str_split "/" path) = Ok name ∧
          index_first (str_split "." name) = Ok (parsed_task_id path).
Proof.
  destruct (index_last_ok (str_split "/" path)) as [name Hn];
    [apply str_split_not_nil|].
  exists name. split; [done|]. unfold parsed_task_id. rewrite Hn.
  pose proof (str_split_not_nil "." name).
  destruct (str_split "." name); done.
Qed.



(** [str_replace] does what [str.replace] does: at an occurrence of [old] it
    puts [new] and goes on after the occurrence; elsewhere it keeps the
    character. *)
Lemma str_replace_go_skip old new p s rest :
  str_drop_prefix p s = Some rest →
  str_replace_go old new (String.length p) s = str_replace_go old new 0 rest.
Proof.
  revert s. induction p as [|a p IH]; intros s H; simpl in H.
  - by simplify_eq.
  - destruct s as [|b s]; [done|]. destruct (Ascii.eqb a b); [|done].
    simpl. by apply IH.
Qed.

Lemma str_replace_match old new s rest :
  old ≠ "" → str_drop_prefix old s = Some rest →
  str_replace old new s = new +:+ str_replace old new rest.
Proof.
  intros Hne H. destruct old as [|a old]; [done|]. unfold str_replace.
  destruct s as [|b s]; [done|]. cbn [str_replace_go].
  unfold str_startswith. rewrite H. f_equal.
  simpl in H. destruct (Ascii.eqb a b); [|done].
  cbn [String.length]. rewrite Nat.sub_succ, Nat.sub_0_r. by apply str_replace_go_skip.
Qed.

Lemma str_replace_no_match old new c s :
  old ≠ "" → str_drop_prefix old (String c s) = None →
  str_replace old new (String c s) = String c (str_replace old new s).
Proof.
  intros Hne H. destruct old as [|a old]; [done|]. unfold str_replace.
  cbn [str_replace_go]. unfold str_startswith. by rewrite H.
Qed.

Lemma str_replace_not_contained old s :
  old ≠ "" → str_contains old s = false → str_replace old "" s = s.
Proof.
  intros Hne. induction s as [|c s IH]; intros H.
  - by destruct old.
  - simpl in H. apply orb_false_elim in H as [H1 H2].
    rewrite str_replace_no_match; [by rewrite IH|done|].
    unfold str_startswith in H1. by destruct (str_drop_prefix old (String c s)).
Qed.

Example str_replace_teacher :
  str_replace "teacher_backbone." "" "teacher_backbone.down.0.weight" = "down.0.weight".
Proof. reflexivity. Qed.

Example str_replace_all_occurrences :
  str_replace "aa" "X" "aaaaa" = "XXa".
Proof. reflexivity. Qed.

Example str_split_path :
  str_split "/" "/results/seg/4f2a.cmlid" = [""; "results"; "seg"; "4f2a.cmlid"].
Proof. reflexivity. Qed.

Example parsed_task_id_path :
  parsed_task_id "/results/seg/4f2a.cmlid" = "4f2a".
Proof. reflexivity. Qed.

Example os_path_join_cases :
  os_path_join "/results" "seg" = "/results/seg" ∧
  os_path_join "/results/" "seg" = "/results/seg" ∧
  os_path_join "/results" "/abs" = "/abs".
Proof. repeat split; reflexivity. Qed.

Example fnmatch_cmlid_cases :
  fnmatch_cmlid "4f2a.cmlid" = true ∧ fnmatch_cmlid ".cmlid" = false ∧
  fnmatch_cmlid "log.txt" = false.
Proof. repeat split; reflexivity. Qed.

Example str_join_devices :
  str_join "," (map str_of_int [0; 1; 3]%Z) = "0,1,3".
Proof. reflexivity. Qed.

Lemma filter_dict_set_fresh (Q : string → bool) name (files : list (string * string)) :
  filter (λ f, Q f.1 = true) files = [] →
  filter (λ f, Q f.1 = true) (dict_set name "" files) =
    if Q name then [(name, "")] else [].
Proof.
  induction files as [|[k v] files IH]; simpl.
  - intros _. rewrite filter_cons, filter_nil. simpl.
    destruct (Q name); by case_decide.
  - rewrite filter_cons. simpl. case_decide as Hk; [done|]. intros Hf.
    destruct (String.eqb_spec k name) as [->|Hne].
    + rewrite filter_cons. simpl. rewrite Hf.
      destruct (Q name); [done|]. by case_decide.
    + rewrite filter_cons. simpl. case_decide; [done|]. by apply IH.
Qed.

Section ClearMLSetup.
Context {tensor : Type}.
Variable argmax0 : tensor → tensor.
Variable env : @Env tensor.

(** For a directory without pattern characters, [glob] lists the matching
    files of that directory. *)
Lemma fs_glob_cmlid_files fs dir :
  has_magic dir = false →
  fs_glob_cmlid env fs dir =
    map (λ f, dir +:+ "/" +:+ f.1)
      (filter (λ f, fnmatch_cmlid f.1 = true) (default [] (fs !! dir))).
Proof. intros Hm. unfold fs_glob_cmlid, glob1_cmlid. rewrite Hm. by destruct (fs !! dir). Qed.

(** The ClearML block, whatever [glob] finds: with a marker found the task
    is reused; with none a task is created and its marker written, and
    [glob] is asked again. *)
Lemma clearml_setup_run cfg dir all_tags (s : @State tensor) files :
  st_fs s !! dir = Some files →
  let name := clearml_new_task_id env +:+ ".cmlid" in
  let fs2 := <[dir := dict_set name "" files]> (st_fs s) in
  let create :=
    [EvTaskCreate (clearml_project_name cfg) (experiment cfg);
     EvOpenWrite (os_path_join dir name)] in
  let init first :=
    [EvTaskInit (clearml_project_name cfg) (experiment cfg) (parsed_task_id first) 0 all_tags;
     EvTaskConnect cfg; EvTaskAddTags (tags cfg)] in
  clearml_setup env cfg dir all_tags s =
    match fs_glob_cmlid env (st_fs s) dir with
    | first :: _ =>
        (Ok tt, {| st_fs := st_fs s; st_calls := st_calls s ++ init first |})
    | [] =>
        match fs_glob_cmlid env fs2 dir with
        | first :: _ =>
            (Ok tt, {| st_fs := fs2; st_calls := st_calls s ++ create ++ init first |})
        | [] => (Raise IndexError, {| st_fs := fs2; st_calls := st_calls s ++ create |})
        end
    end.
Proof.
  intros Hd name fs2 create init. subst fs2 create init name.
  unfold clearml_setup. generalize (clearml_new_task_id env +:+ ".cmlid"). intros name.
  unfold bind, glob_cmlid, open_w_pass, call.
  destruct (fs_glob_cmlid env (st_fs s) dir) as [|first l] eqn:Hg;
    cbn -[str_split index_last index_first fs_glob_cmlid].
  - rewrite Hd. cbn -[str_split index_last index_first fs_glob_cmlid].
    destruct (fs_glob_cmlid env (<[dir:=dict_set name "" files]> (st_fs s)) dir)
      as [|first l]; cbn -[str_split index_last index_first].
    + by rewrite <- !app_assoc.
    + change (index_first (first :: l)) with (Ok first).
      cbn -[str_split index_last index_first].
      destruct (parsed_task_id_ok first) as (n & -> & ->).
      cbn. by rewrite <- !app_assoc.
  - rewrite Hg. change (index_first (first :: l)) with (Ok first).
    cbn -[str_split index_last index_first].
    destruct (parsed_task_id_ok first) as (n & -> & ->).
    cbn. by rewrite <- !app_assoc.
Qed.

Lemma clearml_setup_existing cfg dir all_tags (s : @State tensor) files f rest :
  has_magic dir = false →
  st_fs s !! dir = Some files →
  filter (λ f, fnmatch_cmlid f.1 = true) files = f :: rest →
  clearml_setup env cfg dir all_tags s =
    (Ok tt,
     {| st_fs := st_fs s;
        st_calls := st_calls s ++
          [EvTaskInit (clearml_project_name cfg) (experiment cfg)
             (parsed_task_id (dir +:+ "/" +:+ f.1)) 0 all_tags;
           EvTaskConnect cfg; EvTaskAddTags (tags cfg)] |}).
Proof.
  intros Hm Hd Hf. rewrite (clearml_setup_run cfg dir all_tags s files Hd).
  rewrite (fs_glob_cmlid_files _ _ Hm), Hd. cbn [default from_option id]. by rewrite Hf.
Qed.

Lemma clearml_setup_fresh cfg dir all_tags (s : @State tensor) files :
  has_magic dir = false →
  st_fs s !! dir = Some files →
  filter (λ f, fnmatch_cmlid f.1 = true) files = [] →
  let name := clearml_new_task_id env +:+ ".cmlid" in
  clearml_setup env cfg dir all_tags s =
    if fnmatch_cmlid name then
      (Ok tt,
       {| st_fs := <[dir := dict_set name "" files]> (st_fs s);
          st_calls := st_calls s ++
            [EvTaskCreate (clearml_project_name cfg) (experiment cfg);
             EvOpenWrite (os_path_join dir name);
             EvTaskInit (clearml_project_name cfg) (experiment cfg)
               (parsed_task_id (dir +:+ "/" +:+ name)) 0 all_tags;
             EvTaskConnect cfg; EvTaskAddTags (tags cfg)] |})
    else
      (Raise IndexError,
       {| st_fs := <[dir := dict_set name "" files]> (st_fs s);
          st_calls := st_calls s ++
            [EvTaskCreate (clearml_project_name cfg) (experiment cfg);
             EvOpenWrite (os_path_join dir name)] |}).
Proof.
  intros Hm Hd Hf name. subst name.
  rewrite (clearml_setup_run cfg dir all_tags s files Hd).
  rewrite !(fs_glob_cmlid_files _ _ Hm), Hd, lookup_insert_eq. cbn [default from_option id].
  rewrite Hf, (filter_dict_set_fresh fnmatch_cmlid) by done. cbn [map].
  by destruct (fnmatch_cmlid (clearml_new_task_id env +:+ ".cmlid")).
Qed.

End ClearMLSetup.

Section RunLemmas.
Context {tensor : Type}.
Implicit Types (fs : gmap string (list (string * string))) (P : @event tensor → bool).

Lemma runs_initial {A} (m : StateExn (@State tensor) A) fs out fs' new :
  runs m fs out fs' new → m (initial fs) = (out, {| st_fs := fs'; st_calls := new |}).
Proof. intros H. exact (H []). Qed.

Lemma runs_unique {A} (m : StateExn (@State tensor) A) fs o1 f1 n1 o2 f2 n2 :
  runs m fs o1 f1 n1 → runs m fs o2 f2 n2 → o1 = o2 ∧ f1 = f2 ∧ n1 = n2.
Proof.
  intros H1 H2. specialize (H1 []). specialize (H2 []). rewrite H1 in H2.
  by simplify_eq.
Qed.

Lemma traced_ret P {A} (a : A) : traced P (ret a).
Proof. intros fs. exists (Ok a), fs, []. split; [done|]. intros c. by rewrite app_nil_r. Qed.

Lemma traced_raise P {A} e : traced P (@raise State A e).
Proof. intros fs. exists (Raise e), fs, []. split; [done|]. intros c. by rewrite app_nil_r. Qed.

Lemma traced_lift P {A} (o : outcome A) : traced P (lift o).
Proof. intros fs. exists o, fs, []. split; [done|]. intros c. by rewrite app_nil_r. Qed.

Lemma traced_call P e : P e = true → traced P (call e).
Proof.
  intros He fs. exists (Ok tt), fs, [e]. split; [by simpl; rewrite He|]. by intros c.
Qed.

Lemma traced_bind P {A B} (m : StateExn State A) (k : A → StateExn State B) :
  traced P m → (∀ a, traced P (k a)) → traced P (bind m k).
Proof.
  intros Hm Hk fs. destruct (Hm fs) as (o1 & f1 & n1 & Hn1 & H1).
  destruct o1 as [a|e].
  - destruct (Hk a f1) as (o2 & f2 & n2 & Hn2 & H2).
    exists o2, f2, (n1 ++ n2). split; [by rewrite forallb_app, Hn1, Hn2|].
    intros c. unfold bind. by rewrite H1, H2, app_assoc.
  - exists (Raise e), f1, n1. split; [done|]. intros c. unfold bind. by rewrite H1.
Qed.

Lemma traced_isdir P path : traced P (isdir path).
Proof.
  intros fs. exists (Ok (is_not_none (fs !! path))), fs, []. split; [done|].
  intros c. unfold isdir. simpl. by rewrite app_nil_r.
Qed.

Lemma traced_makedirs P path : P (EvMakedirs path) = true → traced P (makedirs path).
Proof.
  intros He fs. exists (Ok tt), (<[path := []]> fs), [EvMakedirs path].
  split; [by simpl; rewrite He|]. by intros c.
Qed.

Lemma traced_glob_cmlid P (env : @Env tensor) dir : traced P (glob_cmlid env dir).
Proof.
  intros fs. exists (Ok (fs_glob_cmlid env fs dir)), fs, []. split; [done|].
  intros c. unfold glob_cmlid. simpl. by rewrite app_nil_r.
Qed.

Lemma traced_open_w_pass P dir name :
  P (EvOpenWrite (os_path_join dir name)) = true → traced P (open_w_pass dir name).
Proof.
  intros He fs. unfold runs, open_w_pass. simpl. destruct (fs !! dir) as [files|].
  - exists (Ok tt), (<[dir := dict_set name "" files]> fs), [EvOpenWrite (os_path_join dir name)].
    split; [by simpl; rewrite He|]. done.
  - exists (Raise (FileNotFoundError (os_path_join dir name))), fs, [].
    split; [done|]. intros c. by rewrite app_nil_r.
Qed.

Lemma traced_py_assert P cond msg : traced P (py_assert cond msg).
Proof. destruct cond; [apply traced_ret | apply traced_raise]. Qed.

Lemma traced_read_local P {A} name (v : option A) : traced P (read_local name v).
Proof. destruct v; [apply traced_ret | apply traced_raise]. Qed.

End RunLemmas.

Ltac traced_step :=
  first
    [ apply traced_bind; [|intros ?]
    | apply traced_ret
    | apply traced_raise
    | apply traced_lift
    | apply traced_call; reflexivity
    | apply traced_isdir
    | apply traced_makedirs; reflexivity
    | apply traced_glob_cmlid
    | apply traced_open_w_pass; reflexivity
    | apply traced_py_assert
    | apply traced_read_local
    | match goal with
      | |- traced _ (match ?x with _ => _ end) => destruct x
      end ].

Ltac traced_tac := repeat traced_step.

Section Phases.
Context {tensor : Type}.
Variable argmax0 : tensor → tensor.
Variable env : @Env tensor.

Lemma traced_clearml_setup cfg dir all_tags :
  traced is_setup_call (clearml_setup env cfg dir all_tags).
Proof. unfold clearml_setup. traced_tac. Qed.

Lemma traced_setup cfg : traced is_setup_call (setup env cfg).
Proof. unfold setup. traced_tac. Qed.

Lemma traced_unet3d_backbone cfg :
  traced is_model_definition_call (unet3d_backbone env cfg).
Proof. unfold unet3d_backbone, open_rb, torch_load. traced_tac. Qed.

Lemma traced_model_definition cfg :
  traced is_model_definition_call (model_definition env cfg).
Proof. unfold model_definition, unet3d_backbone, open_rb. traced_tac. Qed.

Lemma traced_dataset_preparation cfg model_dir :
  traced is_dataset_preparation_call (dataset_preparation env cfg model_dir).
Proof. unfold dataset_preparation, read_csv, split_by_folds. traced_tac. Qed.

Lemma traced_training cfg model_dir model dl1 dl2 dl3 :
  traced is_training_call (training argmax0 env cfg model_dir model dl1 dl2 dl3).
Proof. unfold training. traced_tac. Qed.

Lemma main_run_complete cfg fs out st :
  main argmax0 env cfg (initial fs) = (out, st) → main_run argmax0 env cfg fs out st.
Proof.
  destruct (traced_setup cfg fs) as (o1 & f1 & n1 & Hn1 & H1).
  unfold main, bind, initial. rewrite H1. simpl.
  destruct o1 as [model_dir|e]; [|intros [= <- <-]; by eapply main_run_setup].
  destruct (traced_model_definition cfg f1) as (o2 & f2 & n2 & Hn2 & H2).
  rewrite H2.
  destruct o2 as [model|e];
    [|intros [= <- <-]; by eapply main_run_model_definition].
  destruct (traced_dataset_preparation cfg model_dir f2) as (o3 & f3 & n3 & Hn3 & H3).
  rewrite H3, <- app_assoc.
  destruct o3 as [[[train_dl val_dl] test_dl]|e];
    [|intros [= <- <-]; by eapply main_run_dataset_preparation].
  destruct (traced_training cfg model_dir model train_dl val_dl test_dl f3)
    as (o4 & f4 & n4 & Hn4 & H4).
  simpl. rewrite H4, <- !app_assoc. intros [= <- <-]. by eapply main_run_training.
Qed.

End Phases.

Lemma omap_forallb_nil {A B} (P : A → bool) (f : A → option B) (l : list A) :
  (∀ e, P e = true → f e = None) → forallb P l = true → omap f l = [].
Proof.
  intros HP. induction l as [|e l IH]; [done|].
  intros [He Hl]%andb_prop.
  change (omap f (e :: l)) with
    (match f e with Some y => y :: omap f l | None => omap f l end).
  by rewrite (HP e He), IH.
Qed.

Lemma filter_forallb_nil {A} (P Q : A → bool) (l : list A) :
  (∀ e, P e = true → Q e = false) → forallb P l = true →
  filter (λ e, Q e = true) l = [].
Proof.
  intros HP. induction l as [|e l IH]; [done|].
  simpl. intros [He Hl]%andb_prop. rewrite filter_cons, (HP e He), IH by done.
  by case_decide.
Qed.

(** A phase makes no call that an observation of another phase selects. *)
Ltac clear_other_phases :=
  repeat match goal with
  | K : forallb ?P ?n = true |- context [omap ?f ?n] =>
      rewrite (omap_forallb_nil P f n) by (first [exact K | by intros []])
  | K : forallb ?P ?n = true |- context [filter ?Q ?n] =>
      rewrite (filter_forallb_nil P _ n) by (first [exact K | by intros []])
  end.

Ltac split_calls :=
  unfold loaded_state_dicts, models_built, backbones_constructed, directories_created,
    files_written, clearml_calls, dataloaders_built, datasets_built, lightning_modules,
    trainer_runs, trainer_calls;
  rewrite ?omap_app, ?list.filter_app;
  clear_other_phases;
  rewrite ?app_nil_l, ?app_nil_r.

Section SetupPhase.
Context {tensor : Type}.
Variable argmax0 : tensor → tensor.
Variable env : @Env tensor.
Implicit Types (cfg : Config) (fs : gmap string (list (string * string))).

(** *** The set-up phase *)

Lemma sum_bools_filter (l : list (option string)) :
  sum_bools (map is_not_none l) = length (filter is_Some l).
Proof.
  induction l as [|[x|] l IH]; [done| |].
  - rewrite filter_cons_True by done. simpl. by rewrite <- IH.
  - rewrite filter_cons_False by (by intros [? ?]). simpl. by rewrite <- IH.
Qed.

Lemma setup_rejects cfg fs :
  (2 ≤ length (filter is_Some
     [suprem_weights cfg; dino_weights cfg; resume_training_from cfg; test_ckpt cfg]))%nat →
  setup env cfg (initial fs) =
    (Raise (AssertionError "only one weights/ckpt path can be used at a time"),
     {| st_fs := fs;
        st_calls := [EvSetEnv "CUDA_VISIBLE_DEVICES"
                       (str_join "," (map str_of_int (cuda_devices cfg)))] |}).
Proof.
  intros Hn. unfold setup, bind, call, py_assert, raise, initial. cbn [st_fs st_calls app].
  rewrite sum_bools_filter. by rewrite (proj2 (Nat.leb_gt _ _)) by lia.
Qed.

(** What the set-up does once the weights check has passed. *)
Lemma setup_accepts cfg fs :
  (length (filter is_Some
     [suprem_weights cfg; dino_weights cfg; resume_training_from cfg; test_ckpt cfg]) ≤ 1)%nat →
  let dir := os_path_join (results_dir cfg) (experiment cfg) in
  let fs1 := if is_not_none (fs !! dir) then fs else <[dir := []]> fs in
  let calls1 :=
    EvSetEnv "CUDA_VISIBLE_DEVICES" (str_join "," (map str_of_int (cuda_devices cfg))) ::
    (if is_not_none (fs !! dir) then [] else [EvMakedirs dir]) ++
    [EvPrint ("EXPERIMENT : " +:+ experiment cfg)] in
  setup env cfg (initial fs) =
    if clearml cfg then
      match clearml_setup env cfg dir (tags cfg ++ [backbone cfg])
              {| st_fs := fs1; st_calls := calls1 |} with
      | (Ok _, s) => (Ok dir, s)
      | (Raise e, s) => (Raise e, s)
      end
    else (Ok dir, {| st_fs := fs1; st_calls := calls1 |}).
Proof.
  intros Hn dir fs1 calls1. subst fs1 calls1.
  unfold setup, bind, call, py_assert, isdir, makedirs, ret, initial.
  cbn [st_fs st_calls app]. fold dir.
  rewrite sum_bools_filter, (proj2 (Nat.leb_le _ _)) by done.
  cbn [st_fs st_calls app].
  destruct (is_not_none (fs !! dir)); cbn [negb st_fs st_calls app];
    destruct (clearml cfg); done.
Qed.

(** The later phases leave the file system alone. *)
Lemma keeps_fs_bind {A B} (m : StateExn (@State tensor) A)
    (k : A → StateExn (@State tensor) B) :
  keeps_fs m → (∀ a, keeps_fs (k a)) → keeps_fs (bind m k).
Proof.
  intros Hm Hk s. unfold bind. specialize (Hm s).
  destruct (m s) as [[a|e] s1]; [|done]. simpl in Hm. by rewrite Hk.
Qed.

Lemma keeps_fs_call (e : @event tensor) : keeps_fs (call e).
Proof. done. Qed.

Lemma keeps_fs_const {A} (o : outcome A) : keeps_fs (λ s : @State tensor, (o, s)).
Proof. done. Qed.

End SetupPhase.

Ltac keeps_fs_tac :=
  repeat first
    [ apply keeps_fs_bind; [|intros ?]
    | apply keeps_fs_call
    | apply keeps_fs_const
    | match goal with
      | |- keeps_fs (match ?x with _ => _ end) => destruct x
      end ].

Section AfterSetup.
Context {tensor : Type}.
Variable argmax0 : tensor → tensor.
Variable env : @Env tensor.
Implicit Types (cfg : Config) (fs : gmap string (list (string * string))).

Lemma keeps_fs_runs {A} (m : StateExn (@State tensor) A) fs out fs' new :
  keeps_fs m → runs m fs out fs' new → fs' = fs.
Proof. intros Hk H. specialize (Hk (initial fs)). by rewrite (runs_initial _ _ _ _ _ H) in Hk. Qed.

Lemma model_definition_keeps_fs cfg : keeps_fs (model_definition env cfg).
Proof.
  unfold model_definition, unet3d_backbone, open_rb, torch_load, read_local, lift, ret, raise.
  keeps_fs_tac.
Qed.

Lemma dataset_preparation_keeps_fs cfg model_dir :
  keeps_fs (dataset_preparation env cfg model_dir).
Proof.
  unfold dataset_preparation, read_csv, split_by_folds, lift, ret, raise.
  keeps_fs_tac.
Qed.

Lemma training_keeps_fs cfg model_dir model dl1 dl2 dl3 :
  keeps_fs (training argmax0 env cfg model_dir model dl1 dl2 dl3).
Proof. unfold training. keeps_fs_tac. Qed.

(** Where a run of [main] stands after the set-up: the rest of the run adds
    calls that are neither ClearML's nor touch the file system. *)
Lemma main_after_setup cfg fs :
  ∃ o1 f1 n1 rest,
    setup env cfg (initial fs) = (o1, {| st_fs := f1; st_calls := n1 |}) ∧
    st_calls (main argmax0 env cfg (initial fs)).2 = n1 ++ rest ∧
    st_fs (main argmax0 env cfg (initial fs)).2 = f1 ∧
    forallb is_setup_call n1 = true ∧
    clearml_calls rest = [] ∧ files_written rest = [] ∧ directories_created rest = [] ∧
    match o1 with
    | Raise e => (main argmax0 env cfg (initial fs)).1 = Raise e ∧ rest = []
    | Ok _ => True
    end.
Proof.
  destruct (main argmax0 env cfg (initial fs)) as [out st] eqn:Hrun.
  apply main_run_complete in Hrun.
  destruct Hrun as [e f1 n1 H1 K1|d f1 n1 e f2 n2 H1 K1 H2 K2
    |d f1 n1 m f2 n2 e f3 n3 H1 K1 H2 K2 H3 K3
    |d f1 n1 m f2 n2 dl1 dl2 dl3 f3 n3 o f4 n4 H1 K1 H2 K2 H3 K3 H4 K4]; simpl.
  - exists (Raise e), f1, n1, []. rewrite app_nil_r.
    by rewrite (runs_initial _ _ _ _ _ H1).
  - exists (Ok d), f1, n1, n2. rewrite (runs_initial _ _ _ _ _ H1).
    apply (keeps_fs_runs _ _ _ _ _ (model_definition_keeps_fs cfg)) in H2 as ->.
    repeat split; try done; split_calls; done.
  - exists (Ok d), f1, n1, (n2 ++ n3). rewrite (runs_initial _ _ _ _ _ H1).
    apply (keeps_fs_runs _ _ _ _ _ (dataset_preparation_keeps_fs cfg d)) in H3 as ->.
    apply (keeps_fs_runs _ _ _ _ _ (model_definition_keeps_fs cfg)) in H2 as ->.
    repeat split; try done; split_calls; done.
  - exists (Ok d), f1, n1, (n2 ++ n3 ++ n4). rewrite (runs_initial _ _ _ _ _ H1).
    apply (keeps_fs_runs _ _ _ _ _ (training_keeps_fs cfg d m dl1 dl2 dl3)) in H4 as ->.
    apply (keeps_fs_runs _ _ _ _ _ (dataset_preparation_keeps_fs cfg d)) in H3 as ->.
    apply (keeps_fs_runs _ _ _ _ _ (model_definition_keeps_fs cfg)) in H2 as ->.
    repeat split; try done; split_calls; done.
Qed.

End AfterSetup.

Section SetupClaims.
Context {tensor : Type}.
Variable argmax0 : tensor → tensor.
Variable env : @Env tensor.
Implicit Types (cfg : Config) (fs : gmap string (list (string * string))).

(** C3.  When two or more of [suprem_weights], [dino_weights],
    [resume_training_from] and [test_ckpt] are not [None], [main] raises
    [AssertionError] with the message "only one weights/ckpt path can be
    used at a time".  At that point the file system is as it was and the only
    call made is the one that sets [CUDA_VISIBLE_DEVICES]: no model has been
    constructed, no directory created and no file written. *)
Theorem weights_check_rejects cfg fs :
  (2 ≤ length (filter is_Some
     [suprem_weights cfg; dino_weights cfg; resume_training_from cfg; test_ckpt cfg]))%nat →
  let r := main argmax0 env cfg (initial fs) in
  r.1 = Raise (AssertionError "only one weights/ckpt path can be used at a time") ∧
  st_fs r.2 = fs ∧
  st_calls r.2 =
    [EvSetEnv "CUDA_VISIBLE_DEVICES" (str_join "," (map str_of_int (cuda_devices cfg)))] ∧
  filter (λ e, is_model_construction e = true) (st_calls r.2) = [] ∧
  directories_created (st_calls r.2) = [] ∧
  files_written (st_calls r.2) = [].
Proof.
  intros Hn r. subst r.
  destruct (main_after_setup argmax0 env cfg fs)
    as (o1 & f1 & n1 & rest & Hs & Hcalls & Hfs & _ & _ & _ & _ & Ho).
  rewrite (setup_rejects env cfg fs Hn) in Hs. injection Hs as <- <- <-.
  destruct Ho as [-> ->]. rewrite Hcalls, Hfs. done.
Qed.

(** The set-up with ClearML on, whatever [glob] finds. *)
Lemma setup_clearml_run cfg fs :
  (length (filter is_Some
     [suprem_weights cfg; dino_weights cfg; resume_training_from cfg; test_ckpt cfg]) ≤ 1)%nat →
  clearml cfg = true →
  let dir := os_path_join (results_dir cfg) (experiment cfg) in
  let name := clearml_new_task_id env +:+ ".cmlid" in
  let files := default [] (fs !! dir) in
  let fs1 := if is_not_none (fs !! dir) then fs else <[dir := []]> fs in
  let fs2 := <[dir := dict_set name "" files]> fs1 in
  let calls1 :=
    EvSetEnv "CUDA_VISIBLE_DEVICES" (str_join "," (map str_of_int (cuda_devices cfg))) ::
    (if is_not_none (fs !! dir) then [] else [EvMakedirs dir]) ++
    [EvPrint ("EXPERIMENT : " +:+ experiment cfg)] in
  let create :=
    [EvTaskCreate (clearml_project_name cfg) (experiment cfg);
     EvOpenWrite (os_path_join dir name)] in
  let init first :=
    [EvTaskInit (clearml_project_name cfg) (experiment cfg) (parsed_task_id first) 0
       (tags cfg ++ [backbone cfg]);
     EvTaskConnect cfg; EvTaskAddTags (tags cfg)] in
  setup env cfg (initial fs) =
    match fs_glob_cmlid env fs1 dir with
    | first :: _ => (Ok dir, {| st_fs := fs1; st_calls := calls1 ++ init first |})
    | [] =>
        match fs_glob_cmlid env fs2 dir with
        | first :: _ =>
            (Ok dir, {| st_fs := fs2; st_calls := calls1 ++ create ++ init first |})
        | [] => (Raise IndexError, {| st_fs := fs2; st_calls := calls1 ++ create |})
        end
    end.
Proof.
  intros Hn Hc dir name files fs1 fs2 calls1 create init.
  rewrite (setup_accepts env cfg fs Hn), Hc. fold dir. fold fs1. fold calls1.
  assert (fs1 !! dir = Some files) as Hd.
  { subst fs1 files. destruct (fs !! dir) eqn:E; simpl; [done|]. apply lookup_insert_eq. }
  rewrite (clearml_setup_run env cfg dir _ {| st_fs := fs1; st_calls := calls1 |} files Hd).
  cbn [st_fs st_calls]. fold name. fold fs2.
  destruct (fs_glob_cmlid env fs1 dir); [|done].
  by destruct (fs_glob_cmlid env fs2 dir).
Qed.

Lemma setup_clearml_on cfg fs :
  (length (filter is_Some
     [suprem_weights cfg; dino_weights cfg; resume_training_from cfg; test_ckpt cfg]) ≤ 1)%nat →
  clearml cfg = true →
  has_magic (os_path_join (results_dir cfg) (experiment cfg)) = false →
  let dir := os_path_join (results_dir cfg) (experiment cfg) in
  let name := clearml_new_task_id env +:+ ".cmlid" in
  let files := default [] (fs !! dir) in
  let fs1 := if is_not_none (fs !! dir) then fs else <[dir := []]> fs in
  let calls1 :=
    EvSetEnv "CUDA_VISIBLE_DEVICES" (str_join "," (map str_of_int (cuda_devices cfg))) ::
    (if is_not_none (fs !! dir) then [] else [EvMakedirs dir]) ++
    [EvPrint ("EXPERIMENT : " +:+ experiment cfg)] in
  setup env cfg (initial fs) =
    match filter (λ f, fnmatch_cmlid f.1 = true) files with
    | [] =>
        if fnmatch_cmlid name then
          (Ok dir,
           {| st_fs := <[dir := dict_set name "" files]> fs1;
              st_calls := calls1 ++
                [EvTaskCreate (clearml_project_name cfg) (experiment cfg);
                 EvOpenWrite (os_path_join dir name);
                 EvTaskInit (clearml_project_name cfg) (experiment cfg)
                   (parsed_task_id (dir +:+ "/" +:+ name)) 0 (tags cfg ++ [backbone cfg]);
                 EvTaskConnect cfg; EvTaskAddTags (tags cfg)] |})
        else
          (Raise IndexError,
           {| st_fs := <[dir := dict_set name "" files]> fs1;
              st_calls := calls1 ++
                [EvTaskCreate (clearml_project_name cfg) (experiment cfg);
                 EvOpenWrite (os_path_join dir name)] |})
    | f :: _ =>
        (Ok dir,
         {| st_fs := fs1;
            st_calls := calls1 ++
              [EvTaskInit (clearml_project_name cfg) (experiment cfg)
                 (parsed_task_id (dir +:+ "/" +:+ f.1)) 0 (tags cfg ++ [backbone cfg]);
               EvTaskConnect cfg; EvTaskAddTags (tags cfg)] |})
    end.
Proof.
  intros Hn Hc Hm dir name files fs1 calls1.
  rewrite (setup_accepts env cfg fs Hn), Hc. fold dir. fold fs1. fold calls1.
  assert (fs1 !! dir = Some files) as Hd.
  { subst fs1 files. destruct (fs !! dir) eqn:E; simpl; [done|]. apply lookup_insert_eq. }
  destruct (filter _ files) as [|f rest] eqn:Hf.
  - rewrite (clearml_setup_fresh env cfg dir _ {| st_fs := fs1; st_calls := calls1 |} files
               Hm Hd Hf).
    fold name. by destruct (fnmatch_cmlid name).
  - by rewrite (clearml_setup_existing env cfg dir _ {| st_fs := fs1; st_calls := calls1 |}
                  files f rest Hm Hd Hf).
Qed.



End SetupClaims.

(** *** Dictionary comprehensions *)
Section Comprehension.
Context {V : Type}.
Variables (f : string → string) (p : string → bool).

Lemma dict_comprehension_snoc (items : list (string * V)) k v :
  dict_comprehension f p (items ++ [(k, v)]) =
    if p k then <[f k := v]> (dict_comprehension f p items)
    else dict_comprehension f p items.
Proof.
  unfold dict_comprehension. rewrite list.filter_app, foldl_app.
  rewrite filter_cons, filter_nil. simpl.
  destruct (p k); by case_decide.
Qed.

Lemma dict_comprehension_last_wins (items : list (string * V)) :
  renamed_entries_last_wins f p items (dict_comprehension f p items).
Proof.
  induction items as [|[k v] items IH] using rev_ind; intros k' v'.
  - unfold dict_comprehension. simpl. rewrite lookup_empty. split; [done|].
    by intros (i & k & Hi & _).
  - rewrite dict_comprehension_snoc. specialize (IH k' v').
    destruct (p k) eqn:Hp; [destruct (decide (f k = k')) as [Hk|Hk]|].
    + rewrite Hk, lookup_insert_eq. split.
      * intros [= <-]. exists (length items), k.
        rewrite list_lookup_middle by done. repeat split; try done.
        intros j k2 v2 Hj Hl. apply lookup_lt_Some in Hl.
        rewrite length_app in Hl. simpl in Hl. lia.
      * intros (i & k1 & Hi & Hp1 & Hf1 & Hlast).
        destruct (decide (i = length items)) as [->|Hne].
        { rewrite list_lookup_middle in Hi by done. by simplify_eq. }
        exfalso. apply (Hlast (length items) k v); [|by apply list_lookup_middle|done|done].
        apply lookup_lt_Some in Hi. rewrite length_app in Hi. simpl in Hi. lia.
    + rewrite lookup_insert_ne by done. rewrite IH. split.
      * intros (i & k1 & Hi & Hp1 & Hf1 & Hlast). exists i, k1.
        rewrite lookup_app_l by (by eapply lookup_lt_Some). repeat split; try done.
        intros j k2 v2 Hj Hl Hp2.
        destruct (decide (j = length items)) as [->|Hne].
        { rewrite list_lookup_middle in Hl by done. by simplify_eq. }
        apply (Hlast j k2 v2); try done.
        rewrite lookup_app_l in Hl; [done|].
        apply lookup_lt_Some in Hl. rewrite length_app in Hl. simpl in Hl. lia.
      * intros (i & k1 & Hi & Hp1 & Hf1 & Hlast).
        assert (i < length items)%nat as Hlt.
        { destruct (decide (i = length items)) as [->|Hne].
          - rewrite list_lookup_middle in Hi by done. by simplify_eq.
          - apply lookup_lt_Some in Hi. rewrite length_app in Hi. simpl in Hi. lia. }
        rewrite lookup_app_l in Hi by done. exists i, k1. repeat split; try done.
        intros j k2 v2 Hj Hl. apply (Hlast j k2 v2); [done|].
        by rewrite lookup_app_l by (by eapply lookup_lt_Some).
    + rewrite IH. split.
      * intros (i & k1 & Hi & Hp1 & Hf1 & Hlast). exists i, k1.
        rewrite lookup_app_l by (by eapply lookup_lt_Some). repeat split; try done.
        intros j k2 v2 Hj Hl Hp2.
        destruct (decide (j = length items)) as [->|Hne].
        { rewrite list_lookup_middle in Hl by done. simplify_eq. congruence. }
        apply (Hlast j k2 v2); try done.
        rewrite lookup_app_l in Hl; [done|].
        apply lookup_lt_Some in Hl. rewrite length_app in Hl. simpl in Hl. lia.
      * intros (i & k1 & Hi & Hp1 & Hf1 & Hlast).
        assert (i < length items)%nat as Hlt.
        { destruct (decide (i = length items)) as [->|Hne].
          - rewrite list_lookup_middle in Hi by done. simplify_eq. congruence.
          - apply lookup_lt_Some in Hi. rewrite length_app in Hi. simpl in Hi. lia. }
        rewrite lookup_app_l in Hi by done. exists i, k1. repeat split; try done.
        intros j k2 v2 Hj Hl. apply (Hlast j k2 v2); [done|].
        by rewrite lookup_app_l by (by eapply lookup_lt_Some).
Qed.

(** When no two selected keys are renamed to the same key, nothing is
    overwritten and the two readings agree. *)
Lemma renamed_entries_no_collision (items : list (string * V)) sd :
  (∀ i j k1 v1 k2 v2,
     items !! i = Some (k1, v1) → items !! j = Some (k2, v2) →
     p k1 = true → p k2 = true → f k1 = f k2 → i = j) →
  renamed_entries_last_wins f p items sd → renamed_entries f p items sd.
Proof.
  intros Hinj H k' v. rewrite (H k' v). split.
  - intros (i & k & Hi & Hp & Hf & _). exists k. split; [|done].
    by eapply list_elem_of_lookup_2.
  - intros (k & [i Hi]%list_elem_of_lookup_1 & Hp & Hf). exists i, k.
    repeat split; try done. intros j k2 v2 Hj Hl Hp2 Hf2.
    assert (i = j) by (eapply Hinj; eauto; congruence). lia.
Qed.

End Comprehension.

Lemma load_state_dict_nonstrict_own {tensor} (own : gmap string tensor) :
  load_state_dict_nonstrict own own = own.
Proof.
  apply map_eq. intros k. unfold load_state_dict_nonstrict.
  rewrite map_lookup_imap. by destruct (own !! k).
Qed.

Section ModelDefinition.
Context {tensor : Type}.
Variable argmax0 : tensor → tensor.
Variable env : @Env tensor.
Implicit Types (cfg : Config) (fs : gmap string (list (string * string))).

(** *** The model definition *)

(** A run of the model definition either stops before anything is loaded
    into the backbone, or loads one state dict and builds one model. *)
Lemma model_definition_result cfg fs out fs' new :
  runs (model_definition env cfg) fs out fs' new →
  (backbone cfg ≠ "unet3d" ∧ out = Raise (UnboundLocalError "conv_inputs") ∧ new = []) ∨
  (backbone cfg = "unet3d" ∧ (∃ e, out = Raise e) ∧
   loaded_state_dicts new = [] ∧ models_built new = []) ∨
  (backbone cfg = "unet3d" ∧
   ∃ sd, state_dict_source env cfg sd ∧
     loaded_state_dicts new = [(sd, false)] ∧
     backbones_constructed new = [false] ∧
     let model :=
       {| mmh_conv_inputs := [("img", 1%Z)];
          mmh_backbone :=
            {| for_cls := false;
               unet_state_dict :=
                 load_state_dict_nonstrict (unet3d_initial_state env false) sd |};
          mmh_heads :=
            [{| head_name := "head_seg";
                head_conv_inputs := [("model.backbone_features", 512%Z)];
                shared_classifier_head :=
                  {| in_channels := 64; out_channels := num_classes cfg;
                     kernel_size := 1 |} |}] |} in
     models_built new = [model] ∧ out = Ok model).
Proof.
  intros H. apply runs_initial in H.
  unfold model_definition, unet3d_backbone, open_rb, torch_load, initial,
    state_dict_source in *.
  unfold bind, call, ret, raise, lift, read_local, dict_getitem in H.
  destruct (String.eqb_spec (backbone cfg) "unet3d") as [Hb|Hb].
  2:{ cbn in H. simplify_eq. by left. }
  right.
  destruct (dino_weights cfg) as [path|]; [|destruct (suprem_weights cfg) as [path|]];
    cbn in H; try destruct (checkpoints env path) as [ckpt|] eqn:Hck;
    cbn in H; try (simplify_eq; left; by eauto).
  - destruct (dict_get "state_dict" ckpt) as [items|] eqn:Hitems;
      cbn in H; simplify_eq; [right|left; by eauto].
    split; [done|]. eexists. split; [|done].
    exists ckpt, items. split; [done|]. split; [done|].
    apply dict_comprehension_last_wins.
  - destruct (dict_get "net" ckpt) as [items|] eqn:Hitems;
      cbn in H; simplify_eq; [right|left; by eauto].
    split; [done|]. eexists. split; [|done].
    exists ckpt, items. split; [done|]. split; [done|].
    apply dict_comprehension_last_wins.
  - simplify_eq. right. split; [done|]. by eexists.
Qed.

(** Where the calls of the model definition stand in a run of [main]. *)
Lemma main_model_phase cfg fs :
  let r := main argmax0 env cfg (initial fs) in
  (∃ e, (setup env cfg (initial fs)).1 = Raise e ∧ r.1 = Raise e ∧
        loaded_state_dicts (st_calls r.2) = [] ∧ models_built (st_calls r.2) = [] ∧
        backbones_constructed (st_calls r.2) = [] ∧
        filter (λ e, is_model_construction e = true) (st_calls r.2) = []) ∨
  (∃ model_dir f1 n1 o2 n2,
     runs (setup env cfg) fs (Ok model_dir) f1 n1 ∧
     runs (model_definition env cfg) f1 o2 f1 n2 ∧
     loaded_state_dicts (st_calls r.2) = loaded_state_dicts n2 ∧
     models_built (st_calls r.2) = models_built n2 ∧
     backbones_constructed (st_calls r.2) = backbones_constructed n2 ∧
     filter (λ e, is_model_construction e = true) (st_calls r.2) =
       filter (λ e, is_model_construction e = true) n2 ∧
     match o2 with Raise e => r.1 = Raise e | Ok _ => True end).
Proof.
  intros r. subst r.
  destruct (main argmax0 env cfg (initial fs)) as [out st] eqn:Hrun.
  apply main_run_complete in Hrun.
  destruct Hrun as [e f1 n1 H1 K1|d f1 n1 e f2 n2 H1 K1 H2 K2
    |d f1 n1 m f2 n2 e f3 n3 H1 K1 H2 K2 H3 K3
    |d f1 n1 m f2 n2 dl1 dl2 dl3 f3 n3 o f4 n4 H1 K1 H2 K2 H3 K3 H4 K4]; simpl.
  - left. exists e. rewrite (runs_initial _ _ _ _ _ H1). split_calls. done.
  - right. exists d, f1, n1, (Raise e), n2.
    pose proof (keeps_fs_runs _ _ _ _ _ (model_definition_keeps_fs env cfg) H2) as ->.
    split_calls. done.
  - right. exists d, f1, n1, (Ok m), n2.
    pose proof (keeps_fs_runs _ _ _ _ _ (model_definition_keeps_fs env cfg) H2) as ->.
    split_calls. done.
  - right. exists d, f1, n1, (Ok m), n2.
    pose proof (keeps_fs_runs _ _ _ _ _ (model_definition_keeps_fs env cfg) H2) as ->.
    split_calls. done.
Qed.


(** C1, amended.  A run of [main] that returns has loaded exactly one state
    dict into the backbone, and every state dict [main] loads is loaded with
    [strict=False] and is, by configuration: with [dino_weights], the entries
    of the checkpoint's ["state_dict"] whose key contains
    ["teacher_backbone."], under the key with that text removed; else with
    [suprem_weights], the entries of the checkpoint's ["net"] under the key
    with ["module.backbone."] removed; in both cases, of several entries that
    end up under one key only the last in the checkpoint's order is kept;
    with neither, the backbone's own state dict, and then the weights of the
    backbone in the model are the ones it started with. *)
Theorem pretrained_weights cfg fs :
  let r := main argmax0 env cfg (initial fs) in
  (r.1 = Ok tt → ∃ sd, loaded_state_dicts (st_calls r.2) = [(sd, false)]) ∧
  (∀ sd strict, (sd, strict) ∈ loaded_state_dicts (st_calls r.2) →
     strict = false ∧
     state_dict_source env cfg sd ∧
     (∀ m, m ∈ models_built (st_calls r.2) →
        unet_state_dict (mmh_backbone m) =
          load_state_dict_nonstrict (unet3d_initial_state env false) sd) ∧
     (dino_weights cfg = None → suprem_weights cfg = None →
      load_state_dict_nonstrict (unet3d_initial_state env false) sd =
        unet3d_initial_state env false)).
Proof.
  intros r. subst r.
  destruct (main_model_phase cfg fs)
    as [(e & Hs & Ho & Hl & Hm & Hb & Hc)
       |(d & f1 & n1 & o2 & n2 & H1 & H2 & Hl & Hm & Hb & Hc & Ho)].
  - rewrite Hl, Ho. split; [done|]. by intros sd strict ?%elem_of_nil.
  - rewrite Hl, Hm.
    destruct (model_definition_result cfg _ _ _ _ H2)
      as [(Hne & -> & ->)|[(Heq & [e ->] & Hln & Hmn)|(Heq & sd & Hsd & Hln & _ & Hmn & ->)]].
    + rewrite Ho. split; [done|]. by intros sd strict ?%elem_of_nil.
    + rewrite Ho, Hln. split; [done|]. by intros sd strict ?%elem_of_nil.
    + rewrite Hln, Hmn. split; [by eauto|].
      intros sd' strict [= -> ->]%list_elem_of_singleton.
      split; [done|]. split; [done|]. split.
      * by intros m ->%list_elem_of_singleton.
      * intros Hd Hsu. unfold state_dict_source in Hsd. rewrite Hd, Hsu in Hsd.
        rewrite Hsd. apply load_state_dict_nonstrict_own.
Qed.

End ModelDefinition.

Section LaterPhases.
Context {tensor : Type}.
Variable argmax0 : tensor → tensor.
Variable env : @Env tensor.
Implicit Types (cfg : Config) (fs : gmap string (list (string * string))).

(** *** The dataset preparation *)

Lemma dataset_preparation_result cfg model_dir fs out fs' new :
  runs (dataset_preparation env cfg model_dir) fs out fs' new →
  match csv_files env (csv_path cfg) with
  | None => (∃ e, out = Raise e) ∧ datasets_built new = [] ∧ dataloaders_built new = []
  | Some df_all =>
      ∃ train_dl val_dl test_dl,
        out = Ok (train_dl, val_dl, test_dl) ∧
        dataloaders_built new = [train_dl; val_dl; test_dl] ∧
        datasets_built new = [dl_dataset train_dl; dl_dataset val_dl; dl_dataset test_dl] ∧
        dl_dataset train_dl =
          {| ds_df := filter (λ r, fold r ∈ train_folds cfg) df_all;
             ds_validation := negb (aug cfg); ds_resize_to := resize_to cfg |} ∧
        dl_dataset val_dl =
          {| ds_df := filter (λ r, fold r ∈ val_folds cfg) df_all;
             ds_validation := true; ds_resize_to := resize_to cfg |} ∧
        dl_dataset test_dl =
          {| ds_df := filter (λ r, fold r ∈ test_folds cfg) df_all;
             ds_validation := true; ds_resize_to := resize_to cfg |}
  end.
Proof.
  intros H. apply runs_initial in H.
  unfold dataset_preparation, read_csv, split_by_folds, initial in H.
  change (cfg_folds cfg ("train" +:+ "_folds")) with (Ok (train_folds cfg)) in H.
  change (cfg_folds cfg ("val" +:+ "_folds")) with (Ok (val_folds cfg)) in H.
  change (cfg_folds cfg ("test" +:+ "_folds")) with (Ok (test_folds cfg)) in H.
  unfold bind, call, ret, raise, lift in H.
  destruct (csv_files env (csv_path cfg)) as [df_all|]; cbn in H; simplify_eq.
  - do 3 eexists. repeat split; reflexivity.
  - by eauto.
Qed.

(** *** The training phase *)

Lemma training_result cfg model_dir model train_dl val_dl test_dl fs out fs' new :
  runs (training argmax0 env cfg model_dir model train_dl val_dl test_dl) fs out fs' new →
  out = Ok tt ∧
  ∃ pl trainer,
    lightning_modules new = [pl] ∧
    trainer_calls new = EvTrainer trainer :: trainer_runs new ∧
    trainer_runs new =
      [match test_ckpt cfg with
       | Some path => EvValidate pl test_dl (Some path)
       | None =>
           EvFit pl train_dl val_dl
             (match resume_training_from cfg with
              | Some _ => ckpt_path cfg
              | None => None
              end)
       end] ∧
    lm_model pl = model ∧
    lm_losses pl =
      [("generalized_dice_loss",
        {| loss_pred := "model.logits.head_seg"; loss_target := "seg";
           loss_callable :=
             {| gdl_include_background := include_background cfg;
                gdl_sigmoid := sigmoid cfg; gdl_softmax := softmax cfg |};
           loss_weight := 1%Q |})] ∧
    lm_train_metrics pl = [] ∧
    (let dice :=
       {| metric_pred := "model.logits.head_seg"; metric_target := "seg";
          pre_collect_process_func := pre_process_for_dice argmax0 |} in
     lm_validation_metrics pl = [("dice", dice)] ∧
     lm_test_metrics pl = [("dice", dice)]) ∧
    (let adam :=
       {| adam_params := model; adam_lr := learning_rate cfg;
          adam_weight_decay := weight_decay cfg |} in
     lm_optimizers_and_lr_schs pl =
       [("optimizer", AnOptimizer adam);
        ("lr_scheduler",
         ASchedulerConfig [("scheduler", {| cos_optimizer := adam; T_max := n_epochs cfg |})])]).
Proof.
  intros H. apply runs_initial in H.
  unfold training, initial in H. unfold bind, call in H.
  destruct (test_ckpt cfg) as [path|]; cbn in H; simplify_eq;
    (split; [done|]); do 2 eexists; repeat split; reflexivity.
Qed.

End LaterPhases.

Section MainOutcome.
Context {tensor : Type}.
Variable argmax0 : tensor → tensor.
Variable env : @Env tensor.
Implicit Types (cfg : Config) (fs : gmap string (list (string * string))).

(** A run of [main] that raises has not reached the training phase; one that
    returns has built one model and three data loaders and has run the
    training phase on them. *)
Lemma main_outcome cfg fs :
  let r := main argmax0 env cfg (initial fs) in
  match r.1 with
  | Raise _ =>
      lightning_modules (st_calls r.2) = [] ∧ trainer_calls (st_calls r.2) = [] ∧
      trainer_runs (st_calls r.2) = []
  | Ok _ =>
      ∃ model_dir model train_dl val_dl test_dl f n4 df_all,
        runs (training argmax0 env cfg model_dir model train_dl val_dl test_dl) f (Ok tt) f n4 ∧
        lightning_modules (st_calls r.2) = lightning_modules n4 ∧
        trainer_calls (st_calls r.2) = trainer_calls n4 ∧
        trainer_runs (st_calls r.2) = trainer_runs n4 ∧
        models_built (st_calls r.2) = [model] ∧
        dataloaders_built (st_calls r.2) = [train_dl; val_dl; test_dl] ∧
        datasets_built (st_calls r.2) =
          [dl_dataset train_dl; dl_dataset val_dl; dl_dataset test_dl] ∧
        csv_files env (csv_path cfg) = Some df_all ∧
        dl_dataset train_dl =
          {| ds_df := filter (λ r, fold r ∈ train_folds cfg) df_all;
             ds_validation := negb (aug cfg); ds_resize_to := resize_to cfg |} ∧
        dl_dataset val_dl =
          {| ds_df := filter (λ r, fold r ∈ val_folds cfg) df_all;
             ds_validation := true; ds_resize_to := resize_to cfg |} ∧
        dl_dataset test_dl =
          {| ds_df := filter (λ r, fold r ∈ test_folds cfg) df_all;
             ds_validation := true; ds_resize_to := resize_to cfg |}
  end.
Proof.
  intros r. subst r.
  destruct (main argmax0 env cfg (initial fs)) as [out st] eqn:Hrun.
  apply main_run_complete in Hrun.
  destruct Hrun as [e f1 n1 H1 K1|d f1 n1 e f2 n2 H1 K1 H2 K2
    |d f1 n1 m f2 n2 e f3 n3 H1 K1 H2 K2 H3 K3
    |d f1 n1 m f2 n2 dl1 dl2 dl3 f3 n3 o f4 n4 H1 K1 H2 K2 H3 K3 H4 K4]; simpl.
  1-3: by split_calls.
  pose proof (keeps_fs_runs _ _ _ _ _ (training_keeps_fs argmax0 env cfg d m dl1 dl2 dl3) H4) as ->.
  destruct (training_result argmax0 env cfg _ _ _ _ _ _ _ _ _ H4) as [-> _].
  destruct (model_definition_result env cfg _ _ _ _ H2)
    as [(_ & ? & _)|[(_ & [e ?] & _)|(_ & sd & _ & _ & _ & Hm & ?)]]; [done|done|].
  simplify_eq.
  pose proof (dataset_preparation_result env cfg _ _ _ _ _ H3) as Hd.
  destruct (csv_files env (csv_path cfg)) as [df_all|];
    [|by destruct Hd as [[e ?] _]].
  destruct Hd as (dl1' & dl2' & dl3' & ? & Hdl & Hds & Htrain & Hval & Htest).
  simplify_eq.
  do 5 eexists. exists f3, n4, df_all.
  split; [exact H4|]. split_calls.
  unfold models_built, dataloaders_built, datasets_built in Hm, Hdl, Hds.
  by rewrite Hm, Hdl, Hds.
Qed.

End MainOutcome.

Section TrainingClaims.
Context {tensor : Type}.
Variable argmax0 : tensor → tensor.
Variable env : @Env tensor.
Implicit Types (cfg : Config) (fs : gmap string (list (string * string))).

Lemma model_definition_succeeds cfg fs :
  backbone cfg = "unet3d" → weights_loadable env cfg →
  ∃ model, (model_definition env cfg (initial fs)).1 = Ok model.
Proof.
  intros Hb Hw. unfold weights_loadable in Hw.
  unfold model_definition, unet3d_backbone, open_rb, torch_load, initial.
  unfold bind, call, ret, raise, lift, read_local, dict_getitem.
  rewrite Hb. cbn.
  destruct (dino_weights cfg) as [path|]; [|destruct (suprem_weights cfg) as [path|]].
  - destruct Hw as (ckpt & -> & [items ->]). cbn. by eexists.
  - destruct Hw as (ckpt & -> & [items ->]). cbn. by eexists.
  - cbn. by eexists.
Qed.


Lemma main_returns_module cfg fs :
  (main argmax0 env cfg (initial fs)).1 = Ok tt →
  ∃ pl, lightning_modules (st_calls (main argmax0 env cfg (initial fs)).2) = [pl].
Proof.
  intros Hok. pose proof (main_outcome argmax0 env cfg fs) as H. simpl in H.
  rewrite Hok in H.
  destruct H as (d & m & dl1 & dl2 & dl3 & f & n4 & df & H4 & -> & _).
  destruct (training_result argmax0 env cfg _ _ _ _ _ _ _ _ _ H4)
    as (_ & pl & tr & -> & _). by eauto.
Qed.

(** C7.  Every model [main] builds is a [ModelMultiHead] with the input
    [("img", 1)], a [UNet3D] backbone constructed with [for_cls=False], and
    the single head ["head_seg"] over the 512 channels of
    ["model.backbone_features"] with a [Conv3d(64, cfg.num_classes,
    kernel_size=1)] classifier.  A run that returns has built exactly one
    model, and one is built whenever the set-up phase returns, the backbone
    is ["unet3d"] and the checkpoint named by the configuration can be read.
    For any other value of [cfg.backbone], [main] raises before it
    constructs any part of a model; the exception is the [UnboundLocalError]
    for [conv_inputs] whenever the set-up phase returned. *)
Theorem model_assembly cfg fs :
  let dir := os_path_join (results_dir cfg) (experiment cfg) in
  let r := main argmax0 env cfg (initial fs) in
  (∀ m, m ∈ models_built (st_calls r.2) →
     mmh_conv_inputs m = [("img", 1%Z)] ∧
     for_cls (mmh_backbone m) = false ∧
     backbones_constructed (st_calls r.2) = [false] ∧
     mmh_heads m =
       [{| head_name := "head_seg";
           head_conv_inputs := [("model.backbone_features", 512%Z)];
           shared_classifier_head :=
             {| in_channels := 64; out_channels := num_classes cfg;
                kernel_size := 1 |} |}]) ∧
  (r.1 = Ok tt → ∃ m, models_built (st_calls r.2) = [m]) ∧
  ((setup env cfg (initial fs)).1 = Ok dir → backbone cfg = "unet3d" →
   weights_loadable env cfg →
   ∃ m, models_built (st_calls r.2) = [m]) ∧
  (backbone cfg ≠ "unet3d" →
     filter (λ e, is_model_construction e = true) (st_calls r.2) = [] ∧
     (∃ e, r.1 = Raise e) ∧
     ((setup env cfg (initial fs)).1 = Ok dir →
      r.1 = Raise (UnboundLocalError "conv_inputs"))).
Proof.
  intros dir r. subst r. split; [|split].
  - destruct (main_model_phase argmax0 env cfg fs)
      as [(e & Hs & Ho & Hl & Hm & Hb & Hc)
         |(d & f1 & n1 & o2 & n2 & H1 & H2 & Hl & Hm & Hb & Hc & Ho)].
    { rewrite Hm. by intros m ?%elem_of_nil. }
    rewrite Hm, Hb.
    destruct (model_definition_result env cfg _ _ _ _ H2)
      as [(Hne & -> & ->)|[(Heq & [e ->] & _ & Hmn)|(Heq & sd & _ & _ & Hbn & Hmn & ->)]].
    + by intros m ?%elem_of_nil.
    + rewrite Hmn. by intros m ?%elem_of_nil.
    + rewrite Hmn, Hbn. by intros m ->%list_elem_of_singleton.
  - intros Hok. pose proof (main_outcome argmax0 env cfg fs) as H. simpl in H.
    rewrite Hok in H.
    destruct H as (d & m & dl1 & dl2 & dl3 & f & n4 & df & _ & _ & _ & _ & Hm & _).
    by eauto.
  - destruct (main_model_phase argmax0 env cfg fs)
      as [(e & Hs & Ho & Hl & Hm & Hb & Hc)
         |(d & f1 & n1 & o2 & n2 & H1 & H2 & Hl & Hm & Hb & Hc & Ho)].
    { split.
      - intros Hok. by rewrite Hs in Hok.
      - intros _. rewrite Hc, Ho. split; [done|]. split; [by eauto|].
        intros Hok. by rewrite Hs in Hok. }
    rewrite Hm, Hc. split.
    + intros _ Hbb Hw. destruct (model_definition_succeeds cfg f1 Hbb Hw) as [m Hmd].
      rewrite (runs_initial _ _ _ _ _ H2) in Hmd. simpl in Hmd. subst o2.
      destruct (model_definition_result env cfg _ _ _ _ H2)
        as [(_ & ? & _)|[(_ & [e ?] & _)|(_ & sd & _ & _ & _ & Hmn & _)]]; [done|done|].
      by eauto.
    + intros Hne.
      destruct (model_definition_result env cfg _ _ _ _ H2)
        as [(_ & -> & ->)|[(Heq & _)|(Heq & _)]]; [|done|done].
      split; [done|]. split; [by eauto|]. done.
Qed.


(** C5.  In a run of [main] that returns, the three data loaders are built,
    in the order train, val, test, over the three datasets, and the dataset
    of split [s] is built from exactly the rows of the CSV file at
    [cfg.csv_path] whose [fold] is in [cfg.{s}_folds], in the file's order.
    A row whose fold is in none of the three lists is in no split.  The train
    dataset has augmentation enabled if and only if [cfg.aug] is true; the
    val and test datasets are built with [validation=True]. *)
Theorem dataset_splits cfg fs :
  let r := main argmax0 env cfg (initial fs) in
  r.1 = Ok tt →
  ∃ df_all train_dl val_dl test_dl,
    csv_files env (csv_path cfg) = Some df_all ∧
    dataloaders_built (st_calls r.2) = [train_dl; val_dl; test_dl] ∧
    datasets_built (st_calls r.2) =
      [dl_dataset train_dl; dl_dataset val_dl; dl_dataset test_dl] ∧
    ds_df (dl_dataset train_dl) = filter (λ row, fold row ∈ train_folds cfg) df_all ∧
    ds_df (dl_dataset val_dl) = filter (λ row, fold row ∈ val_folds cfg) df_all ∧
    ds_df (dl_dataset test_dl) = filter (λ row, fold row ∈ test_folds cfg) df_all ∧
    (∀ row, fold row ∉ train_folds cfg → fold row ∉ val_folds cfg →
            fold row ∉ test_folds cfg →
            (row ∉ ds_df (dl_dataset train_dl)) ∧ (row ∉ ds_df (dl_dataset val_dl)) ∧
            (row ∉ ds_df (dl_dataset test_dl))) ∧
    augmentation_enabled (dl_dataset train_dl) = aug cfg ∧
    ds_validation (dl_dataset val_dl) = true ∧
    ds_validation (dl_dataset test_dl) = true.
Proof.
  intros r Hok. subst r. pose proof (main_outcome argmax0 env cfg fs) as H. simpl in H.
  rewrite Hok in H.
  destruct H as (d & m & dl1 & dl2 & dl3 & f & n4 & df & _ & _ & _ & _ & _ & Hdl & Hds
                 & Hcsv & Htrain & Hval & Htest).
  exists df, dl1, dl2, dl3. rewrite Hdl, Hds, Htrain, Hval, Htest. simpl.
  do 6 (split; [done|]). split; [|split; [|done]].
  - intros row H1 H2 H3. rewrite !list_elem_of_filter. tauto.
  - unfold augmentation_enabled. simpl. by destruct (aug cfg).
Qed.

(** C8.  A run of [main] that returns has built one Lightning module, and
    the losses of every Lightning module [main] builds are the dictionary
    with the single key ["generalized_dice_loss"]: a [LossDefault] of weight
    1.0 over the prediction ["model.logits.head_seg"] and the target ["seg"]
    whose callable is a [GeneralizedDiceLoss] configured by
    [cfg.include_background], [cfg.sigmoid] and [cfg.softmax]. *)
Theorem dice_loss cfg fs :
  let r := main argmax0 env cfg (initial fs) in
  (r.1 = Ok tt → ∃ pl, lightning_modules (st_calls r.2) = [pl]) ∧
  (∀ pl, pl ∈ lightning_modules (st_calls r.2) →
     lm_losses pl =
       [("generalized_dice_loss",
         {| loss_pred := "model.logits.head_seg"; loss_target := "seg";
            loss_callable :=
              {| gdl_include_background := include_background cfg;
                 gdl_sigmoid := sigmoid cfg; gdl_softmax := softmax cfg |};
            loss_weight := 1%Q |})]).
Proof.
  intros r. subst r. pose proof (main_outcome argmax0 env cfg fs) as H. simpl in H.
  destruct ((main argmax0 env cfg (initial fs)).1) as [[]|e].
  - destruct H as (d & m & dl1 & dl2 & dl3 & f & n4 & df & H4 & -> & _).
    destruct (training_result argmax0 env cfg _ _ _ _ _ _ _ _ _ H4)
      as (_ & pl & tr & -> & _ & _ & _ & Hloss & _).
    split; [by eauto|]. by intros ? ->%list_elem_of_singleton.
  - destruct H as (-> & _). split; [done|]. by intros ? ?%elem_of_nil.
Qed.

End TrainingClaims.

Section MetricClaims.
Context {tensor : Type}.
Variable argmax0 : tensor → tensor.
Variable env : @Env tensor.
Implicit Types (cfg : Config) (fs : gmap string (list (string * string))).

(** *** [pre_process_for_dice] *)

Lemma pre_process_for_dice_result (h : nat → gmap string tensor) sample logits seg :
  h sample !! "model.logits.head_seg" = Some logits →
  h sample !! "seg" = Some seg →
  ∃ h',
    pre_process_for_dice argmax0 sample h = (Ok sample, h') ∧
    h' sample !! "model.logits.head_seg" = Some (argmax0 logits) ∧
    h' sample !! "seg" = Some (argmax0 seg) ∧
    (∀ key, key ≠ "model.logits.head_seg" → key ≠ "seg" →
            h' sample !! key = h sample !! key) ∧
    (∀ other, other ≠ sample → h' other = h other).
Proof.
  intros Hl Hs. unfold pre_process_for_dice, bind, ndict_getitem, ndict_setitem, ret.
  rewrite Hl. rewrite fn_lookup_insert, lookup_insert_ne, Hs by done.
  eexists. split; [done|]. rewrite !fn_lookup_insert. repeat split.
  - by rewrite lookup_insert_ne, lookup_insert_eq.
  - by rewrite lookup_insert_eq.
  - intros key H1 H2. by rewrite !lookup_insert_ne.
  - intros other Ho. by rewrite !fn_lookup_insert_ne.
Qed.

(** On a sample without the key, the first lookup that fails raises. *)
Lemma pre_process_for_dice_missing (h : nat → gmap string tensor) sample :
  h sample !! "model.logits.head_seg" = None →
  pre_process_for_dice argmax0 sample h = (Raise (KeyError "model.logits.head_seg"), h).
Proof.
  intros Hl. unfold pre_process_for_dice, bind, ndict_getitem. by rewrite Hl.
Qed.

(** C9.  Every Lightning module [main] builds has no train metrics, and its
    validation metrics and its test metrics are the same dictionary with the
    single key ["dice"]: a [MetricDice] over the prediction
    ["model.logits.head_seg"] and the target ["seg"].  Its pre-collect
    function, on a sample that has both entries, returns that same sample
    with each of the two entries replaced by its [argmax] over axis 0; every
    other key of the sample and every other sample are left as they were. *)
Theorem dice_metric cfg fs :
  let r := main argmax0 env cfg (initial fs) in
  ∀ pl, pl ∈ lightning_modules (st_calls r.2) →
    lm_train_metrics pl = [] ∧
    ∃ dice,
      lm_validation_metrics pl = [("dice", dice)] ∧
      lm_test_metrics pl = [("dice", dice)] ∧
      metric_pred dice = "model.logits.head_seg" ∧
      metric_target dice = "seg" ∧
      ∀ (h : nat → gmap string tensor) sample logits seg,
        h sample !! "model.logits.head_seg" = Some logits →
        h sample !! "seg" = Some seg →
        ∃ h',
          pre_collect_process_func dice sample h = (Ok sample, h') ∧
          h' sample !! "model.logits.head_seg" = Some (argmax0 logits) ∧
          h' sample !! "seg" = Some (argmax0 seg) ∧
          (∀ key, key ≠ "model.logits.head_seg" → key ≠ "seg" →
                  h' sample !! key = h sample !! key) ∧
          (∀ other, other ≠ sample → h' other = h other).
Proof.
  intros r pl. subst r. pose proof (main_outcome argmax0 env cfg fs) as H. simpl in H.
  destruct ((main argmax0 env cfg (initial fs)).1) as [[]|e].
  - destruct H as (d & m & dl1 & dl2 & dl3 & f & n4 & df & H4 & -> & _).
    destruct (training_result argmax0 env cfg _ _ _ _ _ _ _ _ _ H4)
      as (_ & pl' & tr & -> & _ & _ & _ & _ & Htrain & [Hval Htest] & _).
    intros ->%list_elem_of_singleton. split; [done|].
    eexists. split; [exact Hval|]. split; [exact Htest|]. split; [done|]. split; [done|].
    apply pre_process_for_dice_result.
  - destruct H as (-> & _). by intros ?%elem_of_nil.
Qed.

(** C10.  Every Lightning module [main] builds is given, as its
    [optimizers_and_lr_schs], an [Adam] optimizer over the parameters of the
    model of that module (the one model the run built) with learning rate
    [cfg.learning_rate] and weight decay [cfg.weight_decay], and one
    scheduler: a [CosineAnnealingLR] on that optimizer with
    [T_max = cfg.n_epochs]. *)
Theorem optimizer_and_scheduler cfg fs :
  let r := main argmax0 env cfg (initial fs) in
  ∀ pl, pl ∈ lightning_modules (st_calls r.2) →
    models_built (st_calls r.2) = [lm_model pl] ∧
    let adam :=
      {| adam_params := lm_model pl; adam_lr := learning_rate cfg;
         adam_weight_decay := weight_decay cfg |} in
    lm_optimizers_and_lr_schs pl =
      [("optimizer", AnOptimizer adam);
       ("lr_scheduler",
        ASchedulerConfig
          [("scheduler", {| cos_optimizer := adam; T_max := n_epochs cfg |})])].
Proof.
  intros r pl. subst r. pose proof (main_outcome argmax0 env cfg fs) as H. simpl in H.
  destruct ((main argmax0 env cfg (initial fs)).1) as [[]|e].
  - destruct H as (d & m & dl1 & dl2 & dl3 & f & n4 & df & H4 & -> & _ & _ & -> & _).
    destruct (training_result argmax0 env cfg _ _ _ _ _ _ _ _ _ H4)
      as (_ & pl' & tr & -> & _ & _ & Hm & _ & _ & _ & Hopt).
    intros ->%list_elem_of_singleton. by rewrite Hm.
  - destruct H as (-> & _). by intros ?%elem_of_nil.
Qed.

End MetricClaims.

Section ResumeClaims.
Context {tensor : Type}.
Variable argmax0 : tensor → tensor.
Variable env : @Env tensor.
Implicit Types (cfg : Config) (fs : gmap string (list (string * string))).

(** *** The value of [resume_training_from] *)

Lemma traced_mono (P Q : @event tensor → bool) {A} (m : StateExn State A) :
  (∀ e, P e = true → Q e = true) → traced P m → traced Q m.
Proof.
  intros HPQ Hm fs0. destruct (Hm fs0) as (out & fs' & new & Hn & H).
  exists out, fs', new. split; [|done].
  rewrite forallb_forall in *. by eauto.
Qed.

Lemma traced_after_setup cfg model_dir :
  traced (λ _ : @event tensor, true)
    (model <- model_definition env cfg ;;
     loaders <- dataset_preparation env cfg model_dir ;;
     training argmax0 env cfg model_dir model loaders.1.1 loaders.1.2 loaders.2).
Proof.
  apply traced_bind; [|intros model; apply traced_bind; [|intros loaders]].
  - eapply traced_mono; [|apply traced_model_definition]. done.
  - eapply traced_mono; [|apply traced_dataset_preparation]. done.
  - eapply traced_mono; [|apply traced_training]. done.
Qed.

Lemma clearml_setup_with_resume cfg other dir all_tags (s s' : @State tensor) :
  st_fs s' = st_fs s →
  (clearml_setup env (with_resume_training_from other cfg) dir all_tags s').1 =
    (clearml_setup env cfg dir all_tags s).1 ∧
  st_fs (clearml_setup env (with_resume_training_from other cfg) dir all_tags s').2 =
    st_fs (clearml_setup env cfg dir all_tags s).2.
Proof.
  intros Hfs. destruct s as [f c], s' as [f' c']. simpl in Hfs. subst f'.
  unfold clearml_setup, bind, glob_cmlid, open_w_pass, call, ret, lift.
  cbn [st_fs st_calls clearml_project_name experiment tags with_resume_training_from].
  destruct (length (fs_glob_cmlid env f dir) =? 0)%nat;
    [destruct (f !! dir) as [files|] eqn:Hd|];
    cbn [st_fs st_calls fst snd]; rewrite ?Hd; cbn [st_fs st_calls fst snd]; try done.
  all: destruct (index_first (fs_glob_cmlid env _ dir)) as [first|];
         cbn [st_fs st_calls fst snd]; [|done].
  all: destruct (index_last (str_split "/" first)) as [name|];
         cbn [st_fs st_calls fst snd]; [|done].
  all: by destruct (index_first (str_split "." name)).
Qed.

Lemma setup_with_resume cfg fs path other :
  resume_training_from cfg = Some path →
  (setup env (with_resume_training_from (Some other) cfg) (initial fs)).1 =
    (setup env cfg (initial fs)).1 ∧
  st_fs (setup env (with_resume_training_from (Some other) cfg) (initial fs)).2 =
    st_fs (setup env cfg (initial fs)).2.
Proof.
  intros Hr. unfold setup, bind, call, py_assert, isdir, makedirs, ret, raise, initial.
  cbn [st_fs st_calls with_resume_training_from results_dir cuda_devices suprem_weights
       dino_weights resume_training_from test_ckpt experiment tags backbone clearml
       clearml_project_name]. rewrite Hr.
  cbn [map is_not_none].
  destruct (sum_bools _ <=? 1)%nat; [|done].
  cbn [st_fs st_calls].
  destruct (is_not_none (fs !! _)); cbn [negb st_fs st_calls];
    (destruct (clearml cfg); [|done]).
  - match goal with
    | |- context [clearml_setup env (with_resume_training_from ?o cfg) ?d ?t ?s'] =>
        match goal with
        | |- context [clearml_setup env cfg d t ?s] =>
            destruct (clearml_setup_with_resume cfg o d t s s' eq_refl) as [H1 H2]
        end
    end.
    destruct (clearml_setup env (with_resume_training_from _ cfg) _ _ _) as [[[]|e'] s1'];
      destruct (clearml_setup env cfg _ _ _) as [[[]|e1] s1]; simpl in *; by simplify_eq.
  - match goal with
    | |- context [clearml_setup env (with_resume_training_from ?o cfg) ?d ?t ?s'] =>
        match goal with
        | |- context [clearml_setup env cfg d t ?s] =>
            destruct (clearml_setup_with_resume cfg o d t s s' eq_refl) as [H1 H2]
        end
    end.
    destruct (clearml_setup env (with_resume_training_from _ cfg) _ _ _) as [[[]|e'] s1'];
      destruct (clearml_setup env cfg _ _ _) as [[[]|e1] s1]; simpl in *; by simplify_eq.
Qed.

Lemma training_with_resume cfg path other model_dir model dl1 dl2 dl3 s :
  resume_training_from cfg = Some path →
  training argmax0 env (with_resume_training_from (Some other) cfg)
    model_dir model dl1 dl2 dl3 s =
  training argmax0 env cfg model_dir model dl1 dl2 dl3 s.
Proof.
  intros Hr. unfold training.
  cbn [with_resume_training_from resume_training_from include_background sigmoid softmax
       learning_rate weight_decay n_epochs ckpt_path grad_clip accumulate_grad_batches
       precision test_ckpt].
  by rewrite Hr.
Qed.

Lemma main_with_resume cfg fs path other :
  resume_training_from cfg = Some path →
  trainer_calls
    (st_calls (main argmax0 env (with_resume_training_from (Some other) cfg) (initial fs)).2) =
  trainer_calls (st_calls (main argmax0 env cfg (initial fs)).2).
Proof.
  intros Hr. destruct (setup_with_resume cfg fs path other Hr) as [Ho Hfs].
  destruct (traced_setup env cfg fs) as (o1 & f1 & n1 & K1 & H1).
  destruct (traced_setup env (with_resume_training_from (Some other) cfg) fs)
    as (o1' & f1' & n1' & K1' & H1').
  pose proof (H1 []) as E1. pose proof (H1' []) as E1'. simpl in E1, E1'.
  unfold initial in Ho, Hfs. rewrite E1, E1' in Ho, Hfs. simpl in Ho, Hfs. subst o1' f1'.
  unfold main, bind, initial. rewrite E1, E1'.
  destruct o1 as [model_dir|e]; simpl.
  2:{ split_calls. done. }
  destruct (traced_after_setup cfg model_dir f1) as (out & f' & new & _ & Hrest).
  unfold bind in Hrest. rewrite (Hrest n1).
  assert (∀ s,
    (let (o, s') := model_definition env (with_resume_training_from (Some other) cfg) s in
     match o with
     | Ok a =>
         let (o0, s'0) :=
           dataset_preparation env (with_resume_training_from (Some other) cfg) model_dir s' in
         match o0 with
         | Ok a0 =>
             training argmax0 env (with_resume_training_from (Some other) cfg) model_dir a
               a0.1.1 a0.1.2 a0.2 s'0
         | Raise e => (Raise e, s'0)
         end
     | Raise e => (Raise e, s')
     end) =
    (let (o, s') := model_definition env cfg s in
     match o with
     | Ok a =>
         let (o0, s'0) := dataset_preparation env cfg model_dir s' in
         match o0 with
         | Ok a0 => training argmax0 env cfg model_dir a a0.1.1 a0.1.2 a0.2 s'0
         | Raise e => (Raise e, s'0)
         end
     | Raise e => (Raise e, s')
     end)) as Hsame.
  { intros s.
    change (model_definition env (with_resume_training_from (Some other) cfg))
      with (model_definition env cfg).
    change (dataset_preparation env (with_resume_training_from (Some other) cfg))
      with (dataset_preparation env cfg).
    destruct (model_definition env cfg s) as [[m|e] s1]; [|done].
    destruct (dataset_preparation env cfg model_dir s1) as [[l|e] s2]; [|done].
    by apply (training_with_resume cfg path). }
  rewrite Hsame, (Hrest n1'). simpl. split_calls. done.
Qed.

(** C4.  When [cfg.test_ckpt] is [None] and [cfg.resume_training_from] is
    not, every call of [fit] is given [cfg.ckpt_path] as its checkpoint path,
    a run that returns makes exactly that one call, and the calls the trainer
    receives are the same whatever the value of [cfg.resume_training_from]
    is. *)
Theorem resume_checkpoint cfg fs path :
  test_ckpt cfg = None →
  resume_training_from cfg = Some path →
  let r := main argmax0 env cfg (initial fs) in
  (∀ pl train_dl val_dl ckpt,
     EvFit pl train_dl val_dl ckpt ∈ st_calls r.2 → ckpt = ckpt_path cfg) ∧
  (r.1 = Ok tt →
   ∃ pl train_dl val_dl,
     trainer_runs (st_calls r.2) = [EvFit pl train_dl val_dl (ckpt_path cfg)]) ∧
  (∀ other,
     trainer_calls
       (st_calls
          (main argmax0 env (with_resume_training_from (Some other) cfg) (initial fs)).2) =
     trainer_calls (st_calls r.2)).
Proof.
  intros Ht Hr r. subst r. split; [|split].
  - intros pl a b ckpt Hin.
    assert (EvFit pl a b ckpt ∈ trainer_runs (st_calls (main argmax0 env cfg (initial fs)).2))
      as Hin' by (by apply list_elem_of_filter).
    pose proof (main_outcome argmax0 env cfg fs) as H. simpl in H.
    destruct ((main argmax0 env cfg (initial fs)).1) as [[]|e].
    + destruct H as (d & m & dl1 & dl2 & dl3 & f & n4 & df & H4 & _ & _ & Hruns & _).
      destruct (training_result argmax0 env cfg _ _ _ _ _ _ _ _ _ H4)
        as (_ & pl' & tr & _ & _ & Hn4 & _).
      rewrite Hruns, Hn4, Ht, Hr in Hin'.
      apply list_elem_of_singleton in Hin'. by simplify_eq.
    + destruct H as (_ & _ & Hruns). rewrite Hruns in Hin'. by apply elem_of_nil in Hin'.
  - intros Hok. pose proof (main_outcome argmax0 env cfg fs) as H. simpl in H.
    rewrite Hok in H.
    destruct H as (d & m & dl1 & dl2 & dl3 & f & n4 & df & H4 & _ & _ & Hruns & _).
    destruct (training_result argmax0 env cfg _ _ _ _ _ _ _ _ _ H4)
      as (_ & pl' & tr & _ & _ & Hn4 & _).
    rewrite Hruns, Hn4, Ht, Hr. by eauto.
  - intros other. exact (main_with_resume cfg fs path other Hr).
Qed.

End ResumeClaims.

(** ** The properties on the example world *)

Example example_run_datasets :
  map ds_df (datasets_built
    (st_calls (example_run (example_cfg None None None None false "unet3d") ∅).2)) =
  [ [ {| fold := 0; other_columns := ["9000099"] |} ];
    [ {| fold := 3; other_columns := ["9000296"] |} ];
    [ {| fold := 4; other_columns := ["9000622"] |} ] ].
Proof. vm_compute. reflexivity. Qed.

Example example_run_returns :
  (example_run (example_cfg None None None None false "unet3d") ∅).1 = Ok tt.
Proof. vm_compute. reflexivity. Qed.

Example example_run_unknown_backbone :
  (example_run (example_cfg None None None None false "resnet") ∅).1 =
    Raise (UnboundLocalError "conv_inputs").
Proof. vm_compute. reflexivity. Qed.

Example example_run_files :
  st_fs (example_run (example_cfg None None None None true "unet3d") ∅).2 !! "/results/seg" =
    Some [("4f2a.cmlid", "")].
Proof. vm_compute. reflexivity. Qed.

Example example_pre_process_for_dice :
  let h : nat → gmap string (list Z) :=
    λ _, {[ "model.logits.head_seg" := [1; 5; 2]%Z; "seg" := [0; 0; 1]%Z; "img" := [4]%Z ]} in
  let r := pre_process_for_dice example_argmax 0%nat h in
  r.1 = Ok 0%nat ∧
  r.2 0%nat !! "model.logits.head_seg" = Some [1]%Z ∧
  r.2 0%nat !! "seg" = Some [2]%Z ∧
  r.2 0%nat !! "img" = Some [4]%Z ∧
  r.2 1%nat !! "seg" = Some [0; 0; 1]%Z.
Proof. vm_compute. repeat split; reflexivity. Qed.

Example example_run_dino :
  ∃ sd,
    loaded_state_dicts
      (st_calls (example_run (example_cfg None (Some "dino.ckpt") None None false "unet3d")
                   ∅).2) = [(sd, false)] ∧
    sd !! "w" = Some [1; 2]%Z ∧ sd !! "b" = Some [3]%Z ∧
    sd !! "student_backbone.w" = None ∧ sd !! "teacher_backbone.w" = None.
Proof. eexists. vm_compute. repeat split; reflexivity. Qed.

(** Loading without [strict]: the SuPreM checkpoint gives the backbone its
    [w]; [b], which it does not name, stays, and [module.head.b], which the
    backbone does not have, is ignored. *)
Example example_run_suprem :
  map (λ m, (unet_state_dict (mmh_backbone m) !! "w",
             unet_state_dict (mmh_backbone m) !! "b",
             unet_state_dict (mmh_backbone m) !! "module.head.b"))
    (models_built
       (st_calls (example_run (example_cfg (Some "suprem.pth") None None None false "unet3d")
                    ∅).2)) =
  [(Some [7; 8]%Z, Some [5]%Z, None)].
Proof. vm_compute. reflexivity. Qed.

Example example_run_validate :
  map (λ e, match e with
            | EvValidate _ dl ckpt => (map fold (ds_df (dl_dataset dl)), ckpt)
            | EvFit _ dl _ ckpt => (map fold (ds_df (dl_dataset dl)), ckpt)
            | _ => ([], None)
            end)
    (trainer_runs
       (st_calls (example_run (example_cfg None None None (Some "best.ckpt") false "unet3d")
                    ∅).2)) =
  [([4%Z], Some "best.ckpt")].
Proof. vm_compute. reflexivity. Qed.

(** Two weight paths at once: the run stops at the weights check. *)
Lemma weights_check_rejects_witness :
  (2 ≤ length (filter is_Some [Some "suprem.pth"; Some "dino.ckpt"; None; None]))%nat ∧
  (example_run (example_cfg (Some "suprem.pth") (Some "dino.ckpt") None None true "unet3d")
     example_fs).1 =
    Raise (AssertionError "only one weights/ckpt path can be used at a time").
Proof.
  assert (2 ≤ length (filter is_Some [Some "suprem.pth"; Some "dino.ckpt"; None; None]))%nat
    as H by (vm_compute; lia).
  split; [exact H|].
  exact (proj1 (weights_check_rejects example_argmax example_env
    (example_cfg (Some "suprem.pth") (Some "dino.ckpt") None None true "unet3d")
    example_fs H)).
Defined.

(** A ["net"] dictionary with the keys ["module.backbone.w"] and ["w"]: both
    entries end up under ["w"], so the state dict that is loaded holds the
    second one only, and is not the set of all renamed entries. *)
Lemma state_dict_drops_an_entry :
  ∃ sd,
    checkpoints example_env "suprem_both.pth" = Some [("net", example_suprem_both_items)] ∧
    loaded_state_dicts
      (st_calls
         (example_run (example_cfg (Some "suprem_both.pth") None None None false "unet3d")
            ∅).2) = [(sd, false)] ∧
    sd !! "w" = Some [6; 6]%Z ∧
    ¬ renamed_entries (str_replace "module.backbone." "") (λ _, true)
        example_suprem_both_items sd.
Proof.
  eexists. split; [reflexivity|]. split; [vm_compute; reflexivity|].
  split; [vm_compute; reflexivity|].
  intros H. destruct (H "w" [7; 8]%Z) as [_ Hw].
  assert (∃ k, (k, [7; 8]%Z) ∈ example_suprem_both_items ∧ true = true ∧
               str_replace "module.backbone." "" k = "w") as Hk.
  { exists "module.backbone.w". split; [apply list_elem_of_here|]. by vm_compute. }
  specialize (Hw Hk). vm_compute in Hw. discriminate Hw.
Qed.

(** With the SuPreM checkpoint of the example, one state dict is loaded and
    it is the renamed ["net"] dictionary. *)
Lemma pretrained_weights_witness :
  ∃ sd,
    loaded_state_dicts
      (st_calls (example_run (example_cfg (Some "suprem.pth") None None None false "unet3d")
                   ∅).2) = [(sd, false)] ∧
    state_dict_source example_env
      (example_cfg (Some "suprem.pth") None None None false "unet3d") sd.
Proof.
  destruct (pretrained_weights example_argmax example_env
    (example_cfg (Some "suprem.pth") None None None false "unet3d") ∅) as [H1 H2].
  destruct H1 as [sd Hsd]; [by vm_compute|].
  exists sd. split; [exact Hsd|].
  apply (H2 sd false). unfold example_run. rewrite Hsd. apply list_elem_of_here.
Defined.

(** Resuming: [fit] gets [cfg.ckpt_path], not [cfg.resume_training_from]. *)
Lemma resume_checkpoint_witness :
  let cfg := example_cfg None None (Some "/results/seg/epoch3.ckpt") None false "unet3d" in
  test_ckpt cfg = None ∧
  resume_training_from cfg = Some "/results/seg/epoch3.ckpt" ∧
  ∃ pl train_dl val_dl,
    trainer_runs (st_calls (example_run cfg ∅).2) =
      [EvFit pl train_dl val_dl (Some "/results/seg/last.ckpt")].
Proof.
  split; [reflexivity|]. split; [reflexivity|].
  apply (resume_checkpoint example_argmax example_env
           (example_cfg None None (Some "/results/seg/epoch3.ckpt") None false "unet3d")
           ∅ "/results/seg/epoch3.ckpt" eq_refl eq_refl).
  by vm_compute.
Defined.

(** The three splits of the example CSV file. *)
Lemma dataset_splits_witness :
  (example_run (example_cfg None None None None false "unet3d") ∅).1 = Ok tt ∧
  ∃ df_all train_dl val_dl test_dl,
    csv_files example_env "folds.csv" = Some df_all ∧
    dataloaders_built
      (st_calls (example_run (example_cfg None None None None false "unet3d") ∅).2) =
      [train_dl; val_dl; test_dl] ∧
    ds_df (dl_dataset train_dl) = filter (λ row, fold row ∈ [0; 1; 2]%Z) df_all ∧
    ds_df (dl_dataset val_dl) = filter (λ row, fold row ∈ [3]%Z) df_all ∧
    ds_df (dl_dataset test_dl) = filter (λ row, fold row ∈ [4]%Z) df_all ∧
    augmentation_enabled (dl_dataset train_dl) = true.
Proof.
  assert ((example_run (example_cfg None None None None false "unet3d") ∅).1 = Ok tt)
    as Hok by (vm_compute; reflexivity).
  split; [exact Hok|].
  destruct (dataset_splits example_argmax example_env
              (example_cfg None None None None false "unet3d") ∅ Hok)
    as (df & dl1 & dl2 & dl3 & Hcsv & Hdl & _ & H1 & H2 & H3 & _ & Haug & _).
  exists df, dl1, dl2, dl3. repeat split; assumption.
Defined.

(** C6.  The experiment [run[1]] with ClearML on, in the example world.
    [glob] reads the model directory [/results/run[1]] as a pattern, which
    the directory itself does not match.  In an empty results directory the
    task is created and its marker file written, [glob] still finds nothing
    and [main] raises [IndexError]: [Task.init] is never called, and a
    second run creates one more task although the model directory holds a
    marker file.  Beside a directory [/results/run1] that holds a marker
    file, no task is created and [Task.init] reuses the id of that other
    experiment. *)
Theorem clearml_pattern_directory :
  let cfg := with_experiment "run[1]" (example_cfg None None None None true "unet3d") in
  let r1 := example_run cfg ∅ in
  let r2 := example_run cfg (st_fs r1.2) in
  let r3 := example_run cfg example_fs_run1 in
  os_path_join (results_dir cfg) (experiment cfg) = "/results/run[1]" ∧
  r1.1 = Raise IndexError ∧
  clearml_calls (st_calls r1.2) = [EvTaskCreate "OAI" "run[1]"] ∧
  files_written (st_calls r1.2) = ["/results/run[1]/4f2a.cmlid"] ∧
  st_fs r1.2 !! "/results/run[1]" = Some [("4f2a.cmlid", "")] ∧
  r2.1 = Raise IndexError ∧
  clearml_calls (st_calls r2.2) = [EvTaskCreate "OAI" "run[1]"] ∧
  r3.1 = Ok tt ∧
  clearml_calls (st_calls r3.2) =
    [EvTaskInit "OAI" "run[1]" "77aa" 0 ["oai"; "unet3d"]; EvTaskConnect cfg;
     EvTaskAddTags ["oai"]] ∧
  st_fs r3.2 !! "/results/run[1]" = Some [].
Proof. vm_compute. repeat split; reflexivity. Qed.

(** The model of the example run. *)
Lemma model_assembly_witness :
  ∃ m,
    models_built
      (st_calls (example_run (example_cfg None None None None false "unet3d") ∅).2) = [m] ∧
    mmh_conv_inputs m = [("img", 1%Z)] ∧
    for_cls (mmh_backbone m) = false ∧
    map (λ h, (head_name h, head_conv_inputs h, out_channels (shared_classifier_head h)))
      (mmh_heads m) = [("head_seg", [("model.backbone_features", 512%Z)], 7%Z)].
Proof.
  destruct (model_assembly example_argmax example_env
              (example_cfg None None None None false "unet3d") ∅) as (H1 & H2 & _).
  destruct H2 as [m Hm]; [vm_compute; reflexivity|].
  exists m. split; [exact Hm|].
  destruct (H1 m) as (Hi & Hf & _ & Hh).
  { rewrite Hm. apply list_elem_of_here. }
  split; [exact Hi|]. split; [exact Hf|]. rewrite Hh. reflexivity.
Defined.


(** The Lightning module of the example run and its metrics. *)
Lemma dice_metric_witness :
  ∃ pl,
    lightning_modules
      (st_calls (example_run (example_cfg None None None None false "unet3d") ∅).2) = [pl] ∧
    lm_train_metrics pl = [] ∧
    lm_validation_metrics pl = lm_test_metrics pl.
Proof.
  destruct (main_returns_module example_argmax example_env
              (example_cfg None None None None false "unet3d") ∅) as [pl Hpl];
    [vm_compute; reflexivity|].
  exists pl. split; [exact Hpl|].
  destruct (dice_metric example_argmax example_env
              (example_cfg None None None None false "unet3d") ∅ pl)
    as (Ht & dice & Hv & Hte & _).
  { rewrite Hpl. apply list_elem_of_here. }
  split; [exact Ht|]. by rewrite Hv, Hte.
Defined.

(** The Lightning module of the example run and its optimizer. *)
Lemma optimizer_and_scheduler_witness :
  ∃ pl,
    lightning_modules
      (st_calls (example_run (example_cfg None None None None false "unet3d") ∅).2) = [pl] ∧
    dict_get "optimizer" (lm_optimizers_and_lr_schs pl) =
      Some (AnOptimizer {| adam_params := lm_model pl; adam_lr := (1 # 1000)%Q;
                           adam_weight_decay := 0%Q |}).
Proof.
  destruct (main_returns_module example_argmax example_env
              (example_cfg None None None None false "unet3d") ∅) as [pl Hpl];
    [vm_compute; reflexivity|].
  exists pl. split; [exact Hpl|].
  destruct (optimizer_and_scheduler example_argmax example_env
              (example_cfg None None None None false "unet3d") ∅ pl) as (_ & Hopt).
  { rewrite Hpl. apply list_elem_of_here. }
  cbv zeta in Hopt. rewrite Hopt. reflexivity.
Defined.

(** * Further properties of [main] *)

(** ** The calls of each phase, in full *)
Section PhaseTraces.
Context {tensor : Type}.
Variable argmax0 : tensor → tensor.
Variable env : @Env tensor.
Implicit Types (cfg : Config) (fs : gmap string (list (string * string))).

(** The state dict the model definition loads, or the exception that stops
    it, with the calls made on the way. *)
Lemma model_definition_trace cfg fs out fs' new :
  runs (model_definition env cfg) fs out fs' new →
  fs' = fs ∧
  if String.eqb (backbone cfg) "unet3d" then
    let loading :=
      match dino_weights cfg, suprem_weights cfg with
      | Some path, _ =>
          match checkpoints env path with
          | None =>
              ([EvPrint ("LOADING ckpt from " +:+ path)], Raise (FileNotFoundError path))
          | Some ckpt =>
              ([EvPrint ("LOADING ckpt from " +:+ path); EvTorchLoad path],
               match dict_get "state_dict" ckpt with
               | None => Raise (KeyError "state_dict")
               | Some items =>
                   Ok (dict_comprehension (str_replace "teacher_backbone." "")
                         (str_contains "teacher_backbone.") items)
               end)
          end
      | None, Some path =>
          ([EvTorchLoad path],
           match checkpoints env path with
           | None => Raise (FileNotFoundError path)
           | Some ckpt =>
               match dict_get "net" ckpt with
               | None => Raise (KeyError "net")
               | Some items =>
                   Ok (dict_comprehension (str_replace "module.backbone." "")
                         (λ _, true) items)
               end
           end)
      | None, None => ([], Ok (unet3d_initial_state env false))
      end in
    match loading.2 with
    | Raise e => out = Raise e ∧ new = EvUNet3D false :: loading.1
    | Ok sd =>
        let classifier :=
          {| in_channels := 64; out_channels := num_classes cfg; kernel_size := 1 |} in
        let head :=
          {| head_name := "head_seg";
             head_conv_inputs := [("model.backbone_features", 512%Z)];
             shared_classifier_head := classifier |} in
        let model :=
          {| mmh_conv_inputs := [("img", 1%Z)];
             mmh_backbone :=
               {| for_cls := false;
                  unet_state_dict :=
                    load_state_dict_nonstrict (unet3d_initial_state env false) sd |};
             mmh_heads := [head] |} in
        out = Ok model ∧
        new = EvUNet3D false :: loading.1 ++
              [EvLoadStateDict sd false; EvConv3d classifier;
               EvHeadDenseSegmentation head; EvModelMultiHead model]
    end
  else out = Raise (UnboundLocalError "conv_inputs") ∧ new = [].
Proof.
  intros H.
  split; [exact (keeps_fs_runs _ _ _ _ _ (model_definition_keeps_fs env cfg) H)|].
  apply runs_initial in H.
  unfold model_definition, unet3d_backbone, open_rb, torch_load, initial in H.
  unfold bind, call, ret, raise, lift, read_local, dict_getitem in H.
  destruct (String.eqb (backbone cfg) "unet3d").
  2:{ cbn in H. by simplify_eq. }
  destruct (dino_weights cfg) as [path|]; [|destruct (suprem_weights cfg) as [path|]];
    cbn in H; try destruct (checkpoints env path) as [ckpt|];
    cbn in H |- *; try (by simplify_eq).
  - destruct (dict_get "state_dict" ckpt) as [items|]; cbn in H |- *; by simplify_eq.
  - destruct (dict_get "net" ckpt) as [items|]; cbn in H |- *; by simplify_eq.
Qed.

Lemma dataset_preparation_trace cfg model_dir fs out fs' new :
  runs (dataset_preparation env cfg model_dir) fs out fs' new →
  fs' = fs ∧
  let start :=
    [EvFuseLoggerStart model_dir 20; EvPrint "Done";
     EvSetEnv "CUBLAS_WORKSPACE_CONFIG" ":4096:8"; EvSetSeed 1234 true;
     EvReadCsv (csv_path cfg)] in
  match csv_files env (csv_path cfg) with
  | None => out = Raise (FileNotFoundError (csv_path cfg)) ∧ new = start
  | Some df_all =>
      let dataset folds validation :=
        {| ds_df := filter (λ r, fold r ∈ folds) df_all; ds_validation := validation;
           ds_resize_to := resize_to cfg |} in
      let rand_gen := {| gen_seed := 1234; gen_deterministic_mode := true |} in
      let train_dl :=
        {| dl_dataset := dataset (train_folds cfg) (negb (aug cfg)); dl_shuffle := true;
           dl_drop_last := false; dl_batch_sampler := None;
           dl_batch_size := batch_size cfg; dl_collate_fn := CollateDefault;
           dl_num_workers := n_workers cfg; dl_generator := None |} in
      let eval_dl folds :=
        {| dl_dataset := dataset folds true; dl_shuffle := false;
           dl_drop_last := false; dl_batch_sampler := None; dl_batch_size := 1;
           dl_collate_fn := CollateDefault; dl_num_workers := n_workers cfg;
           dl_generator := Some rand_gen |} in
      out = Ok (train_dl, eval_dl (val_folds cfg), eval_dl (test_folds cfg)) ∧
      new = start ++
        [EvSegOAIDataset (dataset (train_folds cfg) (negb (aug cfg)));
         EvSegOAIDataset (dataset (val_folds cfg) true);
         EvSegOAIDataset (dataset (test_folds cfg) true);
         EvCollateDefault; EvDataLoader train_dl;
         EvCollateDefault; EvDataLoader (eval_dl (val_folds cfg));
         EvCollateDefault; EvDataLoader (eval_dl (test_folds cfg))]
  end.
Proof.
  intros H.
  split; [exact (keeps_fs_runs _ _ _ _ _ (dataset_preparation_keeps_fs env cfg model_dir) H)|].
  apply runs_initial in H.
  unfold dataset_preparation, read_csv, split_by_folds, initial in H.
  change (cfg_folds cfg ("train" +:+ "_folds")) with (Ok (train_folds cfg)) in H.
  change (cfg_folds cfg ("val" +:+ "_folds")) with (Ok (val_folds cfg)) in H.
  change (cfg_folds cfg ("test" +:+ "_folds")) with (Ok (test_folds cfg)) in H.
  unfold bind, call, ret, raise, lift in H.
  destruct (csv_files env (csv_path cfg)) as [df_all|]; cbn in H |- *; by simplify_eq.
Qed.

Lemma training_trace cfg model_dir model train_dl val_dl test_dl fs out fs' new :
  runs (training argmax0 env cfg model_dir model train_dl val_dl test_dl) fs out fs' new →
  fs' = fs ∧ out = Ok tt ∧
  let callable_loss :=
    {| gdl_include_background := include_background cfg;
       gdl_sigmoid := sigmoid cfg; gdl_softmax := softmax cfg |} in
  let loss :=
    {| loss_pred := "model.logits.head_seg"; loss_target := "seg";
       loss_callable := callable_loss; loss_weight := 1%Q |} in
  let dice :=
    {| metric_pred := "model.logits.head_seg"; metric_target := "seg";
       pre_collect_process_func := pre_process_for_dice argmax0 |} in
  let optimizer :=
    {| adam_params := model; adam_lr := learning_rate cfg;
       adam_weight_decay := weight_decay cfg |} in
  let lr_scheduler := {| cos_optimizer := optimizer; T_max := n_epochs cfg |} in
  let pl_module :=
    {| lm_model_dir := model_dir; lm_model := model;
       lm_losses := [("generalized_dice_loss", loss)];
       lm_train_metrics := []; lm_validation_metrics := [("dice", dice)];
       lm_test_metrics := [("dice", dice)];
       lm_optimizers_and_lr_schs :=
         [("optimizer", AnOptimizer optimizer);
          ("lr_scheduler", ASchedulerConfig [("scheduler", lr_scheduler)])];
       lm_callbacks := [LearningRateMonitor "epoch"]; lm_save_model := false;
       lm_log_unit := "epoch" |} in
  let pl_trainer :=
    {| tr_default_root_dir := model_dir; tr_max_epochs := n_epochs cfg;
       tr_accelerator := "gpu"; tr_devices := cuda_device_count env;
       tr_strategy := if (1 <? cuda_device_count env)%Z then "ddp" else "auto";
       tr_num_sanity_val_steps := 0;
       tr_gradient_clip_val := grad_clip cfg; tr_deterministic := false;
       tr_accumulate_grad_batches := accumulate_grad_batches cfg;
       tr_precision := precision cfg |} in
  new =
    [EvGeneralizedDiceLoss callable_loss; EvLossDefault loss; EvMetricDice dice;
     EvAdam optimizer; EvCosineAnnealingLR lr_scheduler; EvLearningRateMonitor "epoch";
     EvLightningModuleDefault pl_module; EvTrainer pl_trainer] ++
    match test_ckpt cfg with
    | Some path =>
        [EvPrint ("Test using ckpt: " +:+ path); EvValidate pl_module test_dl (Some path)]
    | None =>
        [EvFit pl_module train_dl val_dl
           (match resume_training_from cfg with
            | Some _ => ckpt_path cfg
            | None => None
            end)]
    end.
Proof.
  intros H.
  split; [exact (keeps_fs_runs _ _ _ _ _
                   (training_keeps_fs argmax0 env cfg model_dir model _ _ _) H)|].
  apply runs_initial in H.
  unfold training, initial in H. unfold bind, call in H.
  destruct (test_ckpt cfg) as [path|]; cbn in H |- *; by simplify_eq.
Qed.

End PhaseTraces.

Section MainCases.
Context {tensor : Type}.
Variable argmax0 : tensor → tensor.
Variable env : @Env tensor.
Implicit Types (cfg : Config) (fs : gmap string (list (string * string))).

(** The five ways the set-up phase can go. *)
Lemma setup_cases cfg fs :
  let dir := os_path_join (results_dir cfg) (experiment cfg) in
  let name := clearml_new_task_id env +:+ ".cmlid" in
  let files := default [] (fs !! dir) in
  let cuda :=
    EvSetEnv "CUDA_VISIBLE_DEVICES" (str_join "," (map str_of_int (cuda_devices cfg))) in
  let fs1 := if is_not_none (fs !! dir) then fs else <[dir := []]> fs in
  let fs2 := <[dir := dict_set name "" files]> fs1 in
  let calls1 :=
    cuda :: (if is_not_none (fs !! dir) then [] else [EvMakedirs dir]) ++
    [EvPrint ("EXPERIMENT : " +:+ experiment cfg)] in
  let create :=
    [EvTaskCreate (clearml_project_name cfg) (experiment cfg);
     EvOpenWrite (os_path_join dir name)] in
  let init first :=
    [EvTaskInit (clearml_project_name cfg) (experiment cfg) (parsed_task_id first) 0
       (tags cfg ++ [backbone cfg]);
     EvTaskConnect cfg; EvTaskAddTags (tags cfg)] in
  (¬ one_weights_path_at_most cfg ∧
   setup env cfg (initial fs) =
     (Raise (AssertionError "only one weights/ckpt path can be used at a time"),
      {| st_fs := fs; st_calls := [cuda] |})) ∨
  (one_weights_path_at_most cfg ∧
   ((clearml cfg = false ∧
     setup env cfg (initial fs) = (Ok dir, {| st_fs := fs1; st_calls := calls1 |})) ∨
    (clearml cfg = true ∧
     ∃ first rest, fs_glob_cmlid env fs1 dir = first :: rest ∧
       setup env cfg (initial fs) =
         (Ok dir, {| st_fs := fs1; st_calls := calls1 ++ init first |})) ∨
    (clearml cfg = true ∧
     fs_glob_cmlid env fs1 dir = [] ∧
     ∃ first rest, fs_glob_cmlid env fs2 dir = first :: rest ∧
       setup env cfg (initial fs) =
         (Ok dir, {| st_fs := fs2; st_calls := calls1 ++ create ++ init first |})) ∨
    (clearml cfg = true ∧
     fs_glob_cmlid env fs1 dir = [] ∧
     fs_glob_cmlid env fs2 dir = [] ∧
     setup env cfg (initial fs) =
       (Raise IndexError, {| st_fs := fs2; st_calls := calls1 ++ create |})))).
Proof.
  intros dir name files cuda fs1 fs2 calls1 create init.
  unfold one_weights_path_at_most.
  destruct (Nat.le_gt_cases
    (length (filter is_Some
       [suprem_weights cfg; dino_weights cfg; resume_training_from cfg; test_ckpt cfg])) 1)
    as [Hn|Hn].
  2:{ left. split; [lia|]. apply setup_rejects. lia. }
  right. split; [done|].
  destruct (clearml cfg) eqn:Hc.
  - right. pose proof (setup_clearml_run env cfg fs Hn Hc) as Hs. cbv zeta in Hs.
    fold dir name files in Hs. fold fs1 in Hs. fold fs2 in Hs.
    destruct (fs_glob_cmlid env fs1 dir) as [|first rest] eqn:Hg1.
    + right. destruct (fs_glob_cmlid env fs2 dir) as [|first rest] eqn:Hg2.
      * right. by rewrite Hs.
      * left. do 2 (split; [done|]). exists first, rest. by rewrite Hs.
    + left. split; [done|]. exists first, rest. by rewrite Hs.
  - left. split; [done|]. rewrite (setup_accepts env cfg fs Hn), Hc. done.
Qed.

(** The same for a model directory whose path has no pattern character: what
    [glob] finds is what the directory holds. *)
Lemma setup_cases_plain cfg fs :
  let dir := os_path_join (results_dir cfg) (experiment cfg) in
  has_magic dir = false →
  let name := clearml_new_task_id env +:+ ".cmlid" in
  let files := default [] (fs !! dir) in
  let cuda :=
    EvSetEnv "CUDA_VISIBLE_DEVICES" (str_join "," (map str_of_int (cuda_devices cfg))) in
  let fs1 := if is_not_none (fs !! dir) then fs else <[dir := []]> fs in
  let calls1 :=
    cuda :: (if is_not_none (fs !! dir) then [] else [EvMakedirs dir]) ++
    [EvPrint ("EXPERIMENT : " +:+ experiment cfg)] in
  let create :=
    [EvTaskCreate (clearml_project_name cfg) (experiment cfg);
     EvOpenWrite (os_path_join dir name)] in
  let init id :=
    [EvTaskInit (clearml_project_name cfg) (experiment cfg) id 0 (tags cfg ++ [backbone cfg]);
     EvTaskConnect cfg; EvTaskAddTags (tags cfg)] in
  (¬ one_weights_path_at_most cfg ∧
   setup env cfg (initial fs) =
     (Raise (AssertionError "only one weights/ckpt path can be used at a time"),
      {| st_fs := fs; st_calls := [cuda] |})) ∨
  (one_weights_path_at_most cfg ∧
   ((clearml cfg = false ∧
     setup env cfg (initial fs) = (Ok dir, {| st_fs := fs1; st_calls := calls1 |})) ∨
    (clearml cfg = true ∧
     ∃ f rest, fs !! dir = Some files ∧
       filter (λ f, fnmatch_cmlid f.1 = true) files = f :: rest ∧
       setup env cfg (initial fs) =
         (Ok dir,
          {| st_fs := fs;
             st_calls := cuda :: EvPrint ("EXPERIMENT : " +:+ experiment cfg) ::
                         init (parsed_task_id (dir +:+ "/" +:+ f.1)) |})) ∨
    (clearml cfg = true ∧
     filter (λ f, fnmatch_cmlid f.1 = true) files = [] ∧
     fnmatch_cmlid name = true ∧
     setup env cfg (initial fs) =
       (Ok dir,
        {| st_fs := <[dir := dict_set name "" files]> fs1;
           st_calls := calls1 ++ create ++ init (parsed_task_id (dir +:+ "/" +:+ name)) |})) ∨
    (clearml cfg = true ∧
     filter (λ f, fnmatch_cmlid f.1 = true) files = [] ∧
     fnmatch_cmlid name = false ∧
     setup env cfg (initial fs) =
       (Raise IndexError,
        {| st_fs := <[dir := dict_set name "" files]> fs1;
           st_calls := calls1 ++ create |})))).
Proof.
  intros dir Hplain name files cuda fs1 calls1 create init.
  unfold one_weights_path_at_most.
  destruct (Nat.le_gt_cases
    (length (filter is_Some
       [suprem_weights cfg; dino_weights cfg; resume_training_from cfg; test_ckpt cfg])) 1)
    as [Hn|Hn].
  2:{ left. split; [lia|]. apply setup_rejects. lia. }
  right. split; [done|].
  destruct (clearml cfg) eqn:Hc.
  - right. pose proof (setup_clearml_on env cfg fs Hn Hc Hplain) as Hs. cbv zeta in Hs.
    fold dir name files in Hs. fold fs1 in Hs.
    destruct (filter (λ f, fnmatch_cmlid f.1 = true) files) as [|f rest] eqn:Hf.
    + right. destruct (fnmatch_cmlid name) eqn:Hm.
      * left. do 3 (split; [done|]). rewrite Hs. done.
      * right. do 3 (split; [done|]). rewrite Hs. done.
    + left. split; [done|]. exists f, rest.
      assert (∃ l, fs !! dir = Some l) as [l Hl].
      { subst files. destruct (fs !! dir) as [l|]; [by eauto|discriminate Hf]. }
      assert (files = l) as Hfl by (subst files; by rewrite Hl).
      split; [by rewrite Hfl|]. split; [done|].
      rewrite Hs. subst fs1. rewrite Hl. done.
  - left. split; [done|]. rewrite (setup_accepts env cfg fs Hn), Hc. done.
Qed.

(** A run of [main], phase by phase; the phases after the set-up leave the
    file system as the set-up left it. *)
Lemma main_cases cfg fs :
  ∃ o1 f1 n1,
    setup env cfg (initial fs) = (o1, {| st_fs := f1; st_calls := n1 |}) ∧
    forallb is_setup_call n1 = true ∧
    match o1 with
    | Raise e =>
        main argmax0 env cfg (initial fs) = (Raise e, {| st_fs := f1; st_calls := n1 |})
    | Ok model_dir =>
        ∃ o2 n2,
          runs (model_definition env cfg) f1 o2 f1 n2 ∧
          forallb is_model_definition_call n2 = true ∧
          match o2 with
          | Raise e =>
              main argmax0 env cfg (initial fs) =
                (Raise e, {| st_fs := f1; st_calls := n1 ++ n2 |})
          | Ok model =>
              ∃ o3 n3,
                runs (dataset_preparation env cfg model_dir) f1 o3 f1 n3 ∧
                forallb is_dataset_preparation_call n3 = true ∧
                match o3 with
                | Raise e =>
                    main argmax0 env cfg (initial fs) =
                      (Raise e, {| st_fs := f1; st_calls := n1 ++ n2 ++ n3 |})
                | Ok dls =>
                    ∃ n4,
                      runs (training argmax0 env cfg model_dir model dls.1.1 dls.1.2 dls.2)
                        f1 (Ok tt) f1 n4 ∧
                      forallb is_training_call n4 = true ∧
                      main argmax0 env cfg (initial fs) =
                        (Ok tt, {| st_fs := f1; st_calls := n1 ++ n2 ++ n3 ++ n4 |})
                end
          end
    end.
Proof.
  destruct (main argmax0 env cfg (initial fs)) as [out st] eqn:Hrun.
  apply main_run_complete in Hrun.
  destruct Hrun as [e f1 n1 H1 K1|d f1 n1 e f2 n2 H1 K1 H2 K2
    |d f1 n1 m f2 n2 e f3 n3 H1 K1 H2 K2 H3 K3
    |d f1 n1 m f2 n2 dl1 dl2 dl3 f3 n3 o f4 n4 H1 K1 H2 K2 H3 K3 H4 K4].
  - exists (Raise e), f1, n1. by rewrite (runs_initial _ _ _ _ _ H1).
  - exists (Ok d), f1, n1. rewrite (runs_initial _ _ _ _ _ H1). do 2 (split; [done|]).
    pose proof (keeps_fs_runs _ _ _ _ _ (model_definition_keeps_fs env cfg) H2) as ->.
    by exists (Raise e), n2.
  - exists (Ok d), f1, n1. rewrite (runs_initial _ _ _ _ _ H1). do 2 (split; [done|]).
    pose proof (keeps_fs_runs _ _ _ _ _ (model_definition_keeps_fs env cfg) H2) as ->.
    pose proof (keeps_fs_runs _ _ _ _ _ (dataset_preparation_keeps_fs env cfg d) H3) as ->.
    exists (Ok m), n2. split; [done|]. split; [done|]. by exists (Raise e), n3.
  - exists (Ok d), f1, n1. rewrite (runs_initial _ _ _ _ _ H1). do 2 (split; [done|]).
    pose proof (keeps_fs_runs _ _ _ _ _ (model_definition_keeps_fs env cfg) H2) as ->.
    pose proof (keeps_fs_runs _ _ _ _ _ (dataset_preparation_keeps_fs env cfg d) H3) as ->.
    pose proof (keeps_fs_runs _ _ _ _ _
                  (training_keeps_fs argmax0 env cfg d m dl1 dl2 dl3) H4) as ->.
    exists (Ok m), n2. split; [done|]. split; [done|].
    exists (Ok (dl1, dl2, dl3)), n3. split; [done|]. split; [done|].
    destruct (training_trace argmax0 env cfg _ _ _ _ _ _ _ _ _ H4) as (_ & -> & _).
    by exists n4.
Qed.

End MainCases.

(** The phases of a run, with the calls of each one. *)
Ltac main_phases argmax0 env cfg fs :=
  destruct (main_cases argmax0 env cfg fs) as (o1 & f1 & n1 & Hsetup & K1 & Hmain);
  destruct o1 as [model_dir|e1];
  [ destruct Hmain as (o2 & n2 & H2 & K2 & Hmain);
    destruct o2 as [model|e2];
    [ destruct Hmain as (o3 & n3 & H3 & K3 & Hmain);
      destruct o3 as [[[train_dl val_dl] test_dl]|e3];
      [ destruct Hmain as (n4 & H4 & K4 & Hmain) | ] | ] | ];
  rewrite ?Hmain; cbn [fst snd st_fs st_calls].

Ltac observe :=
  unfold loaded_state_dicts, models_built, backbones_constructed, directories_created,
    files_written, clearml_calls, dataloaders_built, datasets_built, lightning_modules,
    trainer_runs, trainer_calls, env_vars_set, seeds_set, printed, torch_loads, csv_reads,
    loggers_started, trainers_built, task_init_ids, tasks_created;
  rewrite ?omap_app, ?list.filter_app;
  clear_other_phases;
  rewrite ?app_nil_l, ?app_nil_r.

(** ** More on strings *)

Lemma index_first_str_split c s : index_first (str_split c s) = Ok (str_before c s).
Proof.
  induction s as [|x s IH]; [done|]. simpl.
  destruct (Ascii.eqb x c); [done|].
  destruct (str_split c s) as [|h t]; [done|]. simpl in *. by simplify_eq.
Qed.

Lemma index_last_str_split_path dir name :
  str_contains "/" name = false →
  index_last (str_split "/" (dir +:+ "/" +:+ name)) = Ok name.
Proof.
  intros Hn. change (dir +:+ "/" +:+ name) with (dir +:+ String "/" name).
  by rewrite str_split_app_sep, (str_split_no_sep _ _ Hn), index_last_app.
Qed.

Lemma parsed_task_id_before_dot dir name :
  str_contains "/" name = false →
  parsed_task_id (dir +:+ "/" +:+ name) = str_before "." name.
Proof.
  intros Hn. unfold parsed_task_id.
  by rewrite (index_last_str_split_path dir name Hn), index_first_str_split.
Qed.


(** [str(x)] has no comma in it. *)
Lemma pretty_N_go_no_comma x s :
  str_contains "," s = false → str_contains "," (pretty_N_go x s) = false.
Proof.
  revert s. induction (N.lt_wf_0 x) as [x _ IH]; intros s Hs.
  assert (x = 0 ∨ 0 < x)%N as [->|Hx] by lia.
  - by rewrite pretty_N_go_0.
  - rewrite pretty_N_go_step by done. apply IH; [by apply N.div_lt|].
    rewrite str_contains_cons, Hs, orb_false_r.
    unfold pretty_N_char. by repeat case_match.
Qed.

Lemma str_of_int_no_comma x : str_contains "," (str_of_int x) = false.
Proof.
  assert (∀ n : N, str_contains "," (pretty n) = false) as HN.
  { intros n. unfold pretty, pretty_N. case_decide; [done|].
    by apply pretty_N_go_no_comma. }
  unfold str_of_int. destruct x as [|p|p]; [done|exact (HN (Npos p))|].
  change (pretty (Zneg p)) with (String "-" (pretty (Npos p))).
  rewrite str_contains_cons. exact (HN (Npos p)).
Qed.

Lemma str_split_join sep (l : list string) :
  Forall (λ s, str_contains (String sep "") s = false) l →
  str_split sep (str_join (String sep "") l) =
    match l with [] => [""] | _ => l end.
Proof.
  induction 1 as [|a l Ha Hl IH]; [done|].
  destruct l as [|b l].
  - simpl. by apply str_split_no_sep.
  - change (str_join (String sep "") (a :: b :: l))
      with (a +:+ String sep (str_join (String sep "") (b :: l))).
    by rewrite str_split_app_sep, IH, (str_split_no_sep _ _ Ha).
Qed.

Section SetupProperties.
Context {tensor : Type}.
Variable argmax0 : tensor → tensor.
Variable env : @Env tensor.
Implicit Types (cfg : Config) (fs : gmap string (list (string * string))).

(** *** What the set-up leaves behind *)

(** X1.  The first call of every run of [main] sets [CUDA_VISIBLE_DEVICES],
    and splitting the value at the commas gives back [str(x)] for each [x] of
    [cfg.cuda_devices], in order; for an empty list the value is the empty
    string. *)
Theorem visible_devices_round_trip cfg fs :
  let r := main argmax0 env cfg (initial fs) in
  ∃ value rest,
    st_calls r.2 = EvSetEnv "CUDA_VISIBLE_DEVICES" value :: rest ∧
    str_split "," value =
      match cuda_devices cfg with
      | [] => [""]
      | _ => map str_of_int (cuda_devices cfg)
      end.
Proof.
  intros r. subst r.
  exists (str_join "," (map str_of_int (cuda_devices cfg))).
  assert (∃ rest, st_calls (main argmax0 env cfg (initial fs)).2 =
            EvSetEnv "CUDA_VISIBLE_DEVICES"
              (str_join "," (map str_of_int (cuda_devices cfg))) :: rest) as [rest Hr].
  { destruct (main_after_setup argmax0 env cfg fs)
      as (o1 & f1 & n1 & rest & Hs & -> & _).
    destruct (setup_cases env cfg fs)
      as [[_ E]|[_ [[_ E]|[(_ & f & l & _ & E)|[(_ & _ & f & l & _ & E)|(_ & _ & _ & E)]]]]];
      rewrite E in Hs; injection Hs as <- <- <-; by eauto. }
  exists rest. split; [exact Hr|].
  rewrite str_split_join.
  - by destruct (cuda_devices cfg).
  - apply Forall_map, Forall_forall. intros x _. apply str_of_int_no_comma.
Qed.

(** X2.  A run of [main] that returns has set two environment variables,
    [CUDA_VISIBLE_DEVICES] and then [CUBLAS_WORKSPACE_CONFIG] to [":4096:8"],
    and has set the seed once, to 1234 in deterministic mode, right after the
    second one; before that no CSV file was read and no dataset, data loader,
    Lightning module or trainer was made. *)
Theorem environment_and_seed cfg fs :
  let r := main argmax0 env cfg (initial fs) in
  let devices := str_join "," (map str_of_int (cuda_devices cfg)) in
  r.1 = Ok tt →
  env_vars_set (st_calls r.2) =
    [("CUDA_VISIBLE_DEVICES", devices); ("CUBLAS_WORKSPACE_CONFIG", ":4096:8")] ∧
  seeds_set (st_calls r.2) = [(1234%Z, true)] ∧
  ∃ before after,
    st_calls r.2 =
      before ++ [EvSetEnv "CUBLAS_WORKSPACE_CONFIG" ":4096:8"; EvSetSeed 1234 true] ++ after ∧
    csv_reads before = [] ∧ datasets_built before = [] ∧ dataloaders_built before = [] ∧
    lightning_modules before = [] ∧ trainer_calls before = [].
Proof.
  intros r devices. subst r devices.
  main_phases argmax0 env cfg fs; try done. intros _.
  destruct (dataset_preparation_trace env cfg _ _ _ _ _ H3) as [_ T3]. cbv zeta in T3.
  destruct (csv_files env (csv_path cfg)) as [df_all|]; [|by destruct T3].
  destruct T3 as [_ ->].
  assert (env_vars_set n1 =
            [("CUDA_VISIBLE_DEVICES", str_join "," (map str_of_int (cuda_devices cfg)))] ∧
          seeds_set n1 = [] ∧ csv_reads n1 = [] ∧ datasets_built n1 = [] ∧
          dataloaders_built n1 = [] ∧ lightning_modules n1 = [] ∧ trainer_calls n1 = [])
    as (E1 & E2 & E3 & E4 & E5 & E6 & E7).
  { destruct (setup_cases env cfg fs)
      as [[_ E]|[_ [[_ E]|[(_ & f & l & _ & E)|[(_ & _ & f & l & _ & E)|(_ & _ & _ & E)]]]]];
      rewrite E in Hsetup; simplify_eq;
      try destruct (is_not_none _); done. }
  split; [|split].
  - unfold env_vars_set in *. rewrite !omap_app, E1. clear_other_phases. done.
  - unfold seeds_set in *. rewrite !omap_app, E2. clear_other_phases. done.
  - exists (n1 ++ n2 ++ [EvFuseLoggerStart model_dir 20; EvPrint "Done"]).
    eexists. split; [by rewrite <- !app_assoc|].
    unfold csv_reads, datasets_built, dataloaders_built, lightning_modules, trainer_calls in *.
    rewrite !omap_app, !list.filter_app, E3, E4, E5, E6, E7. clear_other_phases. done.
Qed.


(** X4.  When the weights check passes, ClearML is on, the path of the
    model directory has none of the pattern characters [*], [?] and [[], and
    the directory holds a marker file, the id [main] gives to [Task.init] is
    the name of the first marker file up to its first dot, whatever dots or
    slashes the path of the directory has; no task is created and the file
    system stays as it was. *)
Theorem marker_task_id cfg fs files f others :
  let dir := os_path_join (results_dir cfg) (experiment cfg) in
  let r := main argmax0 env cfg (initial fs) in
  one_weights_path_at_most cfg →
  clearml cfg = true →
  has_magic dir = false →
  fs !! dir = Some files →
  filter (λ f, fnmatch_cmlid f.1 = true) files = f :: others →
  str_contains "/" f.1 = false →
  task_init_ids (st_calls r.2) = [str_before "." f.1] ∧
  tasks_created (st_calls r.2) = [] ∧
  st_fs r.2 = fs.
Proof.
  intros dir r Hone Hc Hplain Hd Hf Hname. subst r.
  destruct (main_after_setup argmax0 env cfg fs)
    as (o1 & f1 & n1 & rest & Hs & -> & -> & _ & Hcl & _).
  assert (task_init_ids rest = [] ∧ tasks_created rest = []) as [R1 R2].
  { unfold clearml_calls in Hcl. clear -Hcl.
    induction rest as [|e rest IH]; [done|].
    rewrite filter_cons in Hcl. case_decide as He; [done|].
    destruct (IH Hcl) as [I1 I2]. unfold task_init_ids, tasks_created in *.
    destruct e; try done. }
  unfold task_init_ids, tasks_created in *. rewrite !omap_app, R1, R2, !app_nil_r.
  destruct (setup_cases_plain env cfg fs Hplain)
    as [[Hno E]|[_ [[Hc' E]|[(_ & f' & l & _ & Hf' & E)|[(_ & Hf' & _)|(_ & Hf' & _)]]]]].
  - done.
  - by rewrite Hc in Hc'.
  - fold dir in Hf', E. rewrite Hd in Hf'. simpl in Hf'. rewrite Hf in Hf'.
    injection Hf' as <- <-. rewrite E in Hs. injection Hs as <- <- <-.
    cbn. by rewrite (parsed_task_id_before_dot dir f.1 Hname).
  - fold dir in Hf'. rewrite Hd in Hf'. simpl in Hf'. by rewrite Hf in Hf'.
  - fold dir in Hf'. rewrite Hd in Hf'. simpl in Hf'. by rewrite Hf in Hf'.
Qed.


End SetupProperties.

(** ** More on dictionaries *)

Lemma dict_comprehension_none {V} (f : string → string) (p : string → bool)
    (items : list (string * V)) :
  (∀ k v, (k, v) ∈ items → p k = false) → dict_comprehension f p items = ∅.
Proof.
  intros Hp. unfold dict_comprehension.
  assert (filter (λ kv : string * V, p kv.1 = true) items = []) as ->; [|done].
  induction items as [|[k v] items IH]; [done|].
  rewrite filter_cons. simpl. rewrite (Hp k v) by apply list_elem_of_here.
  case_decide; [done|]. apply IH. intros k' v' Hin. apply (Hp k' v').
  by apply list_elem_of_further.
Qed.

Lemma dict_get_snoc {V} k k0 (v0 : V) items :
  dict_get k (items ++ [(k0, v0)]) =
    match dict_get k items with
    | Some v => Some v
    | None => if String.eqb k0 k then Some v0 else None
    end.
Proof.
  induction items as [|[k1 v1] items IH]; simpl; [done|].
  by destruct (String.eqb k1 k).
Qed.

Lemma dict_get_None {V} k (items : list (string * V)) :
  k ∉ items.*1 → dict_get k items = None.
Proof.
  induction items as [|[k1 v1] items IH]; [done|]. simpl.
  intros Hk. destruct (String.eqb_spec k1 k) as [->|Hne].
  - destruct Hk. apply list_elem_of_here.
  - apply IH. intros Hin. apply Hk. by apply list_elem_of_further.
Qed.

(** A comprehension that renames no key of a dictionary gives the dictionary. *)
Lemma dict_comprehension_plain {V} (f : string → string) (items : list (string * V)) :
  (∀ k v, (k, v) ∈ items → f k = k) → NoDup items.*1 →
  ∀ k, dict_comprehension f (λ _, true) items !! k = dict_get k items.
Proof.
  induction items as [|[k0 v0] items IH] using rev_ind; intros Hf Hnd k; [done|].
  rewrite dict_comprehension_snoc, dict_get_snoc.
  rewrite fmap_app in Hnd. apply list.NoDup_app in Hnd as (Hnd & Hnot & _).
  assert (f k0 = k0) as -> by (apply (Hf k0 v0), elem_of_app; right; apply list_elem_of_here).
  assert (∀ k1 v1, (k1, v1) ∈ items → f k1 = k1) as Hf'.
  { intros k1 v1 Hin. apply (Hf k1 v1), elem_of_app. by left. }
  destruct (String.eqb_spec k0 k) as [->|Hne].
  - rewrite lookup_insert_eq.
    rewrite dict_get_None; [done|]. intros Hin. apply (Hnot k Hin). apply list_elem_of_here.
  - rewrite lookup_insert_ne by done. rewrite (IH Hf' Hnd).
    by destruct (dict_get k items).
Qed.

Lemma load_state_dict_nonstrict_lookup {tensor} (own sd : gmap string tensor) k :
  load_state_dict_nonstrict own sd !! k =
    match own !! k with
    | Some v => Some (default v (sd !! k))
    | None => None
    end.
Proof. unfold load_state_dict_nonstrict. rewrite map_lookup_imap. by destruct (own !! k). Qed.

Lemma load_state_dict_nonstrict_empty {tensor} (own : gmap string tensor) :
  load_state_dict_nonstrict own ∅ = own.
Proof.
  apply map_eq. intros k. rewrite load_state_dict_nonstrict_lookup, lookup_empty.
  by destruct (own !! k).
Qed.

(** With a checkpoint to resume from or to test, and the weights check
    passed, no pretrained weights are configured. *)
Lemma one_path_no_pretrained cfg :
  one_weights_path_at_most cfg →
  is_Some (resume_training_from cfg) ∨ is_Some (test_ckpt cfg) →
  dino_weights cfg = None ∧ suprem_weights cfg = None.
Proof.
  unfold one_weights_path_at_most. rewrite <- sum_bools_filter.
  intros Hn [[x Hx]|[x Hx]]; rewrite Hx in Hn;
    destruct (dino_weights cfg), (suprem_weights cfg); try done;
    destruct (resume_training_from cfg), (test_ckpt cfg); simpl in Hn; lia.
Qed.

Section ModelProperties.
Context {tensor : Type}.
Variable argmax0 : tensor → tensor.
Variable env : @Env tensor.
Implicit Types (cfg : Config) (fs : gmap string (list (string * string))).

(** What the model definition adds to a run of [main]. *)
Lemma main_model_calls cfg fs :
  let r := main argmax0 env cfg (initial fs) in
  ((∃ e, r.1 = Raise e) ∧
   loaded_state_dicts (st_calls r.2) = [] ∧ models_built (st_calls r.2) = [] ∧
   torch_loads (st_calls r.2) = [] ∧ backbones_constructed (st_calls r.2) = [] ∧
   ((∃ e s, setup env cfg (initial fs) = (Raise e, s)) ∨ backbone cfg ≠ "unet3d")) ∨
  (∃ o2 n2 f1 model_dir s1,
     setup env cfg (initial fs) = (Ok model_dir, s1) ∧
     runs (model_definition env cfg) f1 o2 f1 n2 ∧
     backbone cfg = "unet3d" ∧
     loaded_state_dicts (st_calls r.2) = loaded_state_dicts n2 ∧
     models_built (st_calls r.2) = models_built n2 ∧
     torch_loads (st_calls r.2) = torch_loads n2 ∧
     backbones_constructed (st_calls r.2) = backbones_constructed n2 ∧
     loggers_started (st_calls r.2) =
       match o2 with Ok _ => [(model_dir, 20%Z)] | Raise _ => [] end ∧
     csv_reads (st_calls r.2) =
       match o2 with Ok _ => [csv_path cfg] | Raise _ => [] end ∧
     st_fs r.2 = st_fs s1 ∧
     r.1 = match o2 with
           | Raise e => Raise e
           | Ok _ =>
               match csv_files env (csv_path cfg) with
               | Some _ => Ok tt
               | None => Raise (FileNotFoundError (csv_path cfg))
               end
           end).
Proof.
  intros r. subst r. main_phases argmax0 env cfg fs.
  4:{ left. observe. split; [by eauto|]. do 4 (split; [done|]). left. by eauto. }
  all: pose proof (model_definition_trace env cfg _ _ _ _ H2) as [_ T2];
    destruct (String.eqb_spec (backbone cfg) "unet3d") as [Hb|Hb].
  all: try (destruct T2 as [? ->]; simplify_eq).
  4:{ left. observe. split; [by eauto|]. do 4 (split; [done|]). by right. }
  all: right.
  - destruct (training_trace argmax0 env cfg _ _ _ _ _ _ _ _ _ H4) as (_ & _ & T4).
    destruct (dataset_preparation_trace env cfg _ _ _ _ _ H3) as [_ T3]. cbv zeta in T3.
    destruct (csv_files env (csv_path cfg)); [|by destruct T3]. destruct T3 as [_ ->].
    eexists (Ok model), n2, f1, model_dir, _. split; [done|]. split; [done|].
    split; [done|]. observe. cbn. done.
  - destruct (dataset_preparation_trace env cfg _ _ _ _ _ H3) as [_ T3]. cbv zeta in T3.
    destruct (csv_files env (csv_path cfg)); [by destruct T3|]. destruct T3 as [[= ->] ->].
    eexists (Ok model), n2, f1, model_dir, _. split; [done|]. split; [done|].
    split; [done|]. observe. cbn. done.
  - eexists (Raise e2), n2, f1, model_dir, _. split; [done|]. split; [done|].
    split; [done|]. observe. done.
Qed.

(** *** Loading pretrained weights *)

(** X6.  When no key of the DINO checkpoint's ["state_dict"] contains
    ["teacher_backbone."], the state dict [main] loads is empty and the
    backbone of every model built has the weights it started with.  The run
    does not fail for it: once the set-up phase has returned and the
    backbone is ["unet3d"], the empty state dict is loaded, one model is
    built, and [main] returns when the CSV file exists (and raises
    [FileNotFoundError] for it when it does not). *)
Theorem dino_without_teacher_keys cfg fs path ckpt items :
  let dir := os_path_join (results_dir cfg) (experiment cfg) in
  let r := main argmax0 env cfg (initial fs) in
  dino_weights cfg = Some path →
  checkpoints env path = Some ckpt →
  dict_get "state_dict" ckpt = Some items →
  Forall (λ kv, str_contains "teacher_backbone." kv.1 = false) items →
  (∀ sd strict, (sd, strict) ∈ loaded_state_dicts (st_calls r.2) → sd = ∅) ∧
  (∀ m, m ∈ models_built (st_calls r.2) →
     unet_state_dict (mmh_backbone m) = unet3d_initial_state env false) ∧
  (r.1 = Ok tt → loaded_state_dicts (st_calls r.2) = [(∅, false)]) ∧
  ((setup env cfg (initial fs)).1 = Ok dir → backbone cfg = "unet3d" →
   loaded_state_dicts (st_calls r.2) = [(∅, false)] ∧
   (∃ m, models_built (st_calls r.2) = [m]) ∧
   r.1 = match csv_files env (csv_path cfg) with
         | Some _ => Ok tt
         | None => Raise (FileNotFoundError (csv_path cfg))
         end).
Proof.
  intros dir r Hd Hck Hit Hkeys. subst r.
  destruct (main_model_calls cfg fs)
    as [([e He] & -> & -> & _ & _ & Hwhy)
       |(o2 & n2 & f1 & d & s1 & _ & H2 & Hb & -> & -> & _ & _ & _ & _ & _ & Ho)].
  { split; [by intros ?? ?%elem_of_nil|]. split; [by intros ? ?%elem_of_nil|].
    split; [by rewrite He|]. intros Hok Hb.
    destruct Hwhy as [(e' & s & Hs)|Hnb]; [by rewrite Hs in Hok|done]. }
  destruct (model_definition_trace env cfg _ _ _ _ H2) as [_ T2].
  rewrite Hb, Hd, Hck, Hit in T2. cbn in T2.
  rewrite dict_comprehension_none in T2
    by (intros k v Hin; exact (proj1 (list.Forall_forall _ _) Hkeys (k, v) Hin)).
  destruct T2 as [-> ->]. cbn. rewrite load_state_dict_nonstrict_empty.
  split; [by intros ?? [= -> ->]%list_elem_of_singleton|].
  split; [by intros ? ->%list_elem_of_singleton|]. split; [done|].
  intros _ _. split; [done|]. split; [by eauto|]. exact Ho.
Qed.

(** X7.  When no key of the SuPreM checkpoint's ["net"] contains
    ["module.backbone."], the state dict [main] loads is that dictionary
    unchanged, and each parameter of the backbone takes the value ["net"]
    gives it, or keeps its own when ["net"] does not name it. *)
Theorem suprem_without_prefix cfg fs path ckpt items :
  let r := main argmax0 env cfg (initial fs) in
  dino_weights cfg = None →
  suprem_weights cfg = Some path →
  checkpoints env path = Some ckpt →
  dict_get "net" ckpt = Some items →
  NoDup items.*1 →
  Forall (λ kv, str_contains "module.backbone." kv.1 = false) items →
  (∀ sd strict, (sd, strict) ∈ loaded_state_dicts (st_calls r.2) →
     ∀ k, sd !! k = dict_get k items) ∧
  (∀ m k, m ∈ models_built (st_calls r.2) →
     unet_state_dict (mmh_backbone m) !! k =
       match unet3d_initial_state env false !! k with
       | Some v => Some (default v (dict_get k items))
       | None => None
       end) ∧
  (r.1 = Ok tt →
   ∃ sd m, loaded_state_dicts (st_calls r.2) = [(sd, false)] ∧
           models_built (st_calls r.2) = [m]).
Proof.
  intros r Hd Hsu Hck Hit Hnd Hkeys. subst r.
  destruct (main_model_calls cfg fs)
    as [([e He] & -> & -> & _)
       |(o2 & n2 & f1 & d & s1 & _ & H2 & Hb & -> & -> & _ & _ & _ & _ & _ & Ho)].
  { split; [by intros ?? ?%elem_of_nil|]. split; [by intros ?? ?%elem_of_nil|].
    by rewrite He. }
  destruct (model_definition_trace env cfg _ _ _ _ H2) as [_ T2].
  rewrite Hb, Hd, Hsu, Hck, Hit in T2. cbn in T2.
  destruct T2 as [-> ->]. cbn.
  assert (∀ k, dict_comprehension (str_replace "module.backbone." "") (λ _, true) items !! k =
               dict_get k items) as Hsd.
  { apply dict_comprehension_plain; [|done].
    intros k v Hin. apply str_replace_not_contained; [done|].
    exact (proj1 (list.Forall_forall _ _) Hkeys (k, v) Hin). }
  split; [by intros ?? [= -> ->]%list_elem_of_singleton|].
  split; [|by eauto].
  intros m k ->%list_elem_of_singleton. cbn.
  by rewrite load_state_dict_nonstrict_lookup, Hsd.
Qed.

(** X8.  When the set-up phase of [main] (devices, weights check, model
    directory, ClearML) returns and the backbone is ["unet3d"]: if the
    checkpoint file of [cfg.dino_weights] (or, without it, of
    [cfg.suprem_weights]) is missing, [main] raises [FileNotFoundError]; if
    it lacks the key ["state_dict"] (["net"]), [main] raises [KeyError] for
    that key.  At that point the backbone has been constructed, nothing has
    been loaded into it, no model is built, the logger is not started and no
    CSV file is read; the model directory exists. *)
Theorem checkpoint_unreadable cfg fs path key :
  let dir := os_path_join (results_dir cfg) (experiment cfg) in
  let r := main argmax0 env cfg (initial fs) in
  (setup env cfg (initial fs)).1 = Ok dir →
  backbone cfg = "unet3d" →
  (dino_weights cfg = Some path ∧ key = "state_dict") ∨
  (dino_weights cfg = None ∧ suprem_weights cfg = Some path ∧ key = "net") →
  match checkpoints env path with
  | Some ckpt => dict_get key ckpt = None
  | None => True
  end →
  r.1 = Raise (match checkpoints env path with
               | Some _ => KeyError key
               | None => FileNotFoundError path
               end) ∧
  backbones_constructed (st_calls r.2) = [false] ∧
  loaded_state_dicts (st_calls r.2) = [] ∧
  models_built (st_calls r.2) = [] ∧
  loggers_started (st_calls r.2) = [] ∧
  csv_reads (st_calls r.2) = [] ∧
  is_Some (st_fs r.2 !! dir).
Proof.
  intros dir r Hok Hb Hw Hbad. subst r.
  assert (is_Some (st_fs (setup env cfg (initial fs)).2 !! dir)) as Hdir.
  { pose proof (setup_cases env cfg fs) as HS. cbv zeta in HS. fold dir in HS.
    destruct HS
      as [[Hno E]|[_ [[_ E]|[(_ & f & l & _ & E)
                            |[(_ & _ & f & l & _ & E)|(_ & _ & _ & E)]]]]];
      rewrite E in Hok |- *; cbn in Hok |- *; rewrite ?lookup_insert_eq; try done.
    all: destruct (fs !! dir) eqn:Hfs; simpl; [by rewrite Hfs|]; by rewrite lookup_insert_eq. }
  destruct (main_model_calls cfg fs)
    as [(_ & _ & _ & _ & _ & [(e & s & Hs)|Hnb])
       |(o2 & n2 & f1 & d & s1 & Hs & H2 & _ & -> & -> & _ & -> & -> & -> & -> & Ho)].
  { by rewrite Hs in Hok. }
  { done. }
  rewrite Hs in Hdir. simpl in Hdir.
  destruct (model_definition_trace env cfg _ _ _ _ H2) as [_ T2].
  rewrite Hb in T2. cbn [String.eqb Ascii.eqb Bool.eqb] in T2.
  destruct Hw as [[Hd ->]|(Hd & Hsu & ->)]; rewrite Hd, ?Hsu in T2;
    destruct (checkpoints env path) as [ckpt|]; rewrite ?Hbad in T2; cbn in T2;
    destruct T2 as [-> ->]; by rewrite Ho.
Qed.

(** X9.  [main] calls [torch.load] at most once, and only on
    [cfg.dino_weights] or, without it, on [cfg.suprem_weights].  With
    [cfg.resume_training_from] or [cfg.test_ckpt] set it never calls it: the
    backbone is loaded with its own state dict and the model carries the
    initial weights. *)
Theorem torch_load_only_pretrained cfg fs :
  let r := main argmax0 env cfg (initial fs) in
  (∀ path, path ∈ torch_loads (st_calls r.2) →
     dino_weights cfg = Some path ∨
     (dino_weights cfg = None ∧ suprem_weights cfg = Some path)) ∧
  (length (torch_loads (st_calls r.2)) ≤ 1)%nat ∧
  (is_Some (resume_training_from cfg) ∨ is_Some (test_ckpt cfg) →
   torch_loads (st_calls r.2) = [] ∧
   (∀ sd strict, (sd, strict) ∈ loaded_state_dicts (st_calls r.2) →
      sd = unet3d_initial_state env false) ∧
   (∀ m, m ∈ models_built (st_calls r.2) →
      unet_state_dict (mmh_backbone m) = unet3d_initial_state env false)).
Proof.
  intros r. subst r.
  destruct (main_model_calls cfg fs)
    as [(_ & -> & -> & -> & _)
       |(o2 & n2 & f1 & d & s1 & Hs & H2 & Hb & -> & -> & -> & _ & _ & _ & _ & Ho)].
  { split; [by intros ? ?%elem_of_nil|]. split; [simpl; lia|]. intros _.
    split; [done|]. split; [by intros ?? ?%elem_of_nil|]. by intros ? ?%elem_of_nil. }
  assert (one_weights_path_at_most cfg) as Hone.
  { destruct (setup_cases env cfg fs) as [[_ E]|[Hone _]]; [|done].
    by rewrite E in Hs. }
  destruct (model_definition_trace env cfg _ _ _ _ H2) as [_ T2].
  rewrite Hb in T2. cbn [String.eqb Ascii.eqb Bool.eqb] in T2.
  split; [|split].
  - destruct (dino_weights cfg) as [p|]; [|destruct (suprem_weights cfg) as [p|]];
      cbn in T2.
    1,2: destruct (checkpoints env p) as [ckpt|]; cbn in T2;
      [destruct (dict_get _ ckpt); cbn in T2|].
    all: destruct T2 as [_ ->]; cbn.
    all: intros path Hin; try apply list_elem_of_singleton in Hin as ->;
      try (by apply elem_of_nil in Hin); by eauto.
  - destruct (dino_weights cfg) as [p|]; [|destruct (suprem_weights cfg) as [p|]];
      cbn in T2.
    1,2: destruct (checkpoints env p) as [ckpt|]; cbn in T2;
      [destruct (dict_get _ ckpt); cbn in T2|].
    all: destruct T2 as [_ ->]; cbn; lia.
  - intros Hr. destruct (one_path_no_pretrained cfg Hone Hr) as [Hd Hsu].
    rewrite Hd, Hsu in T2. cbn in T2. destruct T2 as [_ ->]. cbn.
    rewrite load_state_dict_nonstrict_own.
    split; [done|]. split; [by intros ?? [= -> ->]%list_elem_of_singleton|].
    by intros ? ->%list_elem_of_singleton.
Qed.

End ModelProperties.

(** ** Counting the rows of the splits *)

Lemma filter_folds_disjoint_length (a b : list Z) (df : list CsvRow) :
  (∀ f, f ∈ a → f ∉ b) →
  (length (filter (λ r, fold r ∈ a) df) + length (filter (λ r, fold r ∈ b) df))%nat =
    length (filter (λ r, fold r ∈ a ++ b) df).
Proof.
  intros Hab. induction df as [|r df IH]; [done|].
  rewrite !filter_cons.
  destruct (decide (fold r ∈ a)) as [Ha|Ha], (decide (fold r ∈ b)) as [Hb|Hb];
    destruct (decide (fold r ∈ a ++ b)) as [Hc|Hc]; simpl; rewrite <- ?IH;
    try lia.
  - by destruct (Hab _ Ha).
  - destruct Hc. apply elem_of_app. by left.
  - destruct Hc. apply elem_of_app. by left.
  - destruct Hc. apply elem_of_app. by right.
  - apply elem_of_app in Hc as [?|?]; done.
Qed.

Lemma filter_all_length {A} (P : A → Prop) `{∀ x, Decision (P x)} (l : list A) :
  (∀ x, x ∈ l → P x) → length (filter P l) = length l.
Proof.
  induction l as [|x l IH]; [done|]. intros Hall.
  rewrite filter_cons_True by (apply Hall, list_elem_of_here). simpl.
  rewrite IH; [done|]. intros y Hy. by apply Hall, list_elem_of_further.
Qed.

Section DataProperties.
Context {tensor : Type}.
Variable argmax0 : tensor → tensor.
Variable env : @Env tensor.
Implicit Types (cfg : Config) (fs : gmap string (list (string * string))).

(** What a set-up phase that returns has done. *)
Lemma setup_returns cfg fs model_dir s :
  setup env cfg (initial fs) = (Ok model_dir, s) →
  model_dir = os_path_join (results_dir cfg) (experiment cfg) ∧
  one_weights_path_at_most cfg ∧
  is_Some (st_fs s !! model_dir) ∧
  printed (st_calls s) = ["EXPERIMENT : " +:+ experiment cfg].
Proof.
  intros Hs. pose proof (setup_cases env cfg fs) as HS. cbv zeta in HS.
  destruct HS
    as [[Hno E]|[Hone [[_ E]|[(_ & f & l & _ & E)
                             |[(_ & _ & f & l & _ & E)|(_ & _ & _ & E)]]]]];
    rewrite E in Hs; simplify_eq; (split; [done|]); (split; [done|]); cbn;
    rewrite ?lookup_insert_eq; try done.
  all: split; [|by destruct (is_not_none _)].
  all: try by eauto.
  all: destruct (fs !! _) eqn:Hfs; simpl; [by rewrite Hfs|]; by rewrite lookup_insert_eq.
Qed.

(** A run of [main] that returns, phase by phase. *)
Lemma main_returns cfg fs :
  let dir := os_path_join (results_dir cfg) (experiment cfg) in
  let r := main argmax0 env cfg (initial fs) in
  r.1 = Ok tt →
  ∃ n1 n2 n3 n4 model train_dl val_dl test_dl,
    st_calls r.2 = n1 ++ n2 ++ n3 ++ n4 ∧
    forallb is_setup_call n1 = true ∧
    forallb is_model_definition_call n2 = true ∧
    forallb is_dataset_preparation_call n3 = true ∧
    forallb is_training_call n4 = true ∧
    one_weights_path_at_most cfg ∧
    is_Some (st_fs r.2 !! dir) ∧
    printed n1 = ["EXPERIMENT : " +:+ experiment cfg] ∧
    runs (model_definition env cfg) (st_fs r.2) (Ok model) (st_fs r.2) n2 ∧
    runs (dataset_preparation env cfg dir) (st_fs r.2) (Ok (train_dl, val_dl, test_dl))
      (st_fs r.2) n3 ∧
    runs (training argmax0 env cfg dir model train_dl val_dl test_dl) (st_fs r.2) (Ok tt)
      (st_fs r.2) n4.
Proof.
  intros dir r. subst r. main_phases argmax0 env cfg fs; try done. intros _.
  destruct (setup_returns cfg fs _ _ Hsetup) as (-> & Hone & Hdir & Hp).
  exists n1, n2, n3, n4, model, train_dl, val_dl, test_dl. done.
Qed.

(** *** The data *)

(** X10.  In a run of [main] that returns, the train loader shuffles, has
    batch size [cfg.batch_size] and no generator; the val and test loaders do
    not shuffle, have batch size 1 whatever [cfg.batch_size] is, and use the
    generator of the one [set_seed(1234, deterministic_mode=True)] call; all
    three keep the last batch, have no batch sampler, [cfg.n_workers] workers
    and datasets resized to [cfg.resize_to]. *)
Theorem data_loader_settings cfg fs :
  let r := main argmax0 env cfg (initial fs) in
  r.1 = Ok tt →
  ∃ train_dl val_dl test_dl,
    dataloaders_built (st_calls r.2) = [train_dl; val_dl; test_dl] ∧
    seeds_set (st_calls r.2) = [(1234%Z, true)] ∧
    dl_shuffle train_dl = true ∧
    dl_batch_size train_dl = batch_size cfg ∧
    dl_generator train_dl = None ∧
    (∀ dl, dl ∈ [val_dl; test_dl] →
       dl_shuffle dl = false ∧ dl_batch_size dl = 1%Z ∧
       dl_generator dl = Some {| gen_seed := 1234; gen_deterministic_mode := true |}) ∧
    (∀ dl, dl ∈ [train_dl; val_dl; test_dl] →
       dl_drop_last dl = false ∧ dl_batch_sampler dl = None ∧
       dl_num_workers dl = n_workers cfg ∧
       ds_resize_to (dl_dataset dl) = resize_to cfg).
Proof.
  intros r Hok. subst r.
  destruct (main_returns cfg fs Hok)
    as (n1 & n2 & n3 & n4 & model & dl1 & dl2 & dl3 & -> & K1 & K2 & K3 & K4 & _ & _ & _
        & _ & H3 & _).
  destruct (dataset_preparation_trace env cfg _ _ _ _ _ H3) as [_ T3]. cbv zeta in T3.
  destruct (csv_files env (csv_path cfg)) as [df_all|]; [|by destruct T3].
  destruct T3 as [[= -> -> ->] ->].
  do 3 eexists. observe. cbn. split; [done|]. split; [done|]. do 3 (split; [done|]).
  split.
  - intros dl Hdl. repeat (apply elem_of_cons in Hdl as [->|Hdl]; [done|]).
    by apply elem_of_nil in Hdl.
  - intros dl Hdl. repeat (apply elem_of_cons in Hdl as [->|Hdl]; [done|]).
    by apply elem_of_nil in Hdl.
Qed.

(** X11.  In a run of [main] that returns, when the three fold lists of the
    configuration are pairwise disjoint, no row is in two of the three
    datasets, the sizes of the datasets add up to the number of rows of the
    CSV file whose fold is listed, and to the number of all rows when every
    row's fold is listed. *)
Theorem splits_of_disjoint_folds cfg fs :
  let r := main argmax0 env cfg (initial fs) in
  r.1 = Ok tt →
  (∀ f, f ∈ train_folds cfg → (f ∉ val_folds cfg) ∧ (f ∉ test_folds cfg)) →
  (∀ f, f ∈ val_folds cfg → f ∉ test_folds cfg) →
  ∃ df_all train val test,
    csv_files env (csv_path cfg) = Some df_all ∧
    map ds_df (datasets_built (st_calls r.2)) = [train; val; test] ∧
    (∀ row, ¬ (row ∈ train ∧ row ∈ val) ∧ ¬ (row ∈ train ∧ row ∈ test) ∧
            ¬ (row ∈ val ∧ row ∈ test)) ∧
    (length train + length val + length test)%nat =
      length (filter (λ row, fold row ∈ train_folds cfg ++ val_folds cfg ++ test_folds cfg)
                df_all) ∧
    ((∀ row, row ∈ df_all →
        fold row ∈ train_folds cfg ++ val_folds cfg ++ test_folds cfg) →
     (length train + length val + length test)%nat = length df_all).
Proof.
  intros r Hok Htr Hva. subst r.
  destruct (main_returns cfg fs Hok)
    as (n1 & n2 & n3 & n4 & model & dl1 & dl2 & dl3 & -> & K1 & K2 & K3 & K4 & _ & _ & _
        & _ & H3 & _).
  destruct (dataset_preparation_trace env cfg _ _ _ _ _ H3) as [_ T3]. cbv zeta in T3.
  destruct (csv_files env (csv_path cfg)) as [df_all|]; [|by destruct T3].
  destruct T3 as [_ ->].
  exists df_all. do 3 eexists. split; [done|]. observe. cbn. split; [done|].
  assert ((length (filter (λ r, fold r ∈ train_folds cfg) df_all) +
           length (filter (λ r, fold r ∈ val_folds cfg) df_all) +
           length (filter (λ r, fold r ∈ test_folds cfg) df_all))%nat =
          length (filter (λ row, fold row ∈ train_folds cfg ++ val_folds cfg ++ test_folds cfg)
                    df_all)) as Hlen.
  { rewrite <- Nat.add_assoc, (filter_folds_disjoint_length (val_folds cfg) (test_folds cfg))
      by done.
    apply filter_folds_disjoint_length. intros f Hf [?|?]%elem_of_app;
      destruct (Htr f Hf); done. }
  split; [|split; [done|]].
  - intros row. rewrite !list_elem_of_filter. repeat split.
    + intros [[H1 _] [H2 _]]. by destruct (Htr _ H1).
    + intros [[H1 _] [H2 _]]. by destruct (Htr _ H1).
    + intros [[H1 _] [H2 _]]. by destruct (Hva _ H1).
  - intros Hall. rewrite Hlen. by apply filter_all_length.
Qed.

(** X12.  When the set-up phase of [main] returns, the backbone is
    ["unet3d"], the checkpoint named by the configuration can be read and the
    CSV file at [cfg.csv_path] does not exist, [main] raises
    [FileNotFoundError] for that path only after the model was built, the
    logger started and the seed set; no dataset, data loader, Lightning
    module or trainer is made. *)
Theorem csv_missing cfg fs :
  let dir := os_path_join (results_dir cfg) (experiment cfg) in
  let r := main argmax0 env cfg (initial fs) in
  (setup env cfg (initial fs)).1 = Ok dir →
  backbone cfg = "unet3d" →
  weights_loadable env cfg →
  csv_files env (csv_path cfg) = None →
  r.1 = Raise (FileNotFoundError (csv_path cfg)) ∧
  length (models_built (st_calls r.2)) = 1%nat ∧
  loggers_started (st_calls r.2) = [(dir, 20%Z)] ∧
  seeds_set (st_calls r.2) = [(1234%Z, true)] ∧
  csv_reads (st_calls r.2) = [csv_path cfg] ∧
  datasets_built (st_calls r.2) = [] ∧
  dataloaders_built (st_calls r.2) = [] ∧
  lightning_modules (st_calls r.2) = [] ∧
  trainer_calls (st_calls r.2) = [].
Proof.
  intros dir r Hok Hb Hw Hcsv. subst r.
  main_phases argmax0 env cfg fs.
  4:{ by rewrite Hsetup in Hok. }
  3:{ destruct (model_definition_succeeds env cfg f1 Hb Hw) as [m Hm].
      by rewrite (runs_initial _ _ _ _ _ H2) in Hm. }
  all: destruct (dataset_preparation_trace env cfg _ _ _ _ _ H3) as [_ T3];
    cbv zeta in T3; rewrite Hcsv in T3; destruct T3 as [? ->]; simplify_eq.
  rewrite Hsetup in Hok. simpl in Hok. injection Hok as ->.
  destruct (model_definition_trace env cfg _ _ _ _ H2) as [_ T2].
  rewrite Hb in T2. cbn [String.eqb Ascii.eqb Bool.eqb] in T2. cbv zeta in T2.
  assert (length (models_built n2) = 1%nat) as Hm.
  { destruct (dino_weights cfg) as [p|]; [|destruct (suprem_weights cfg) as [p|]];
      cbn in T2.
    1,2: destruct (checkpoints env p) as [ckpt|]; cbn in T2;
      [destruct (dict_get _ ckpt); cbn in T2|].
    all: by destruct T2 as [? ->]. }
  split; [done|]. unfold models_built in Hm. observe. cbn. by rewrite ?app_nil_r, Hm.
Qed.

End DataProperties.

Section TrainingProperties.
Context {tensor : Type}.
Variable argmax0 : tensor → tensor.
Variable env : @Env tensor.
Implicit Types (cfg : Config) (fs : gmap string (list (string * string))).

(** *** The trainer and what is printed *)

Lemma model_definition_printed cfg fs model fs' new :
  runs (model_definition env cfg) fs (Ok model) fs' new →
  printed new =
    match dino_weights cfg with
    | Some path => ["LOADING ckpt from " +:+ path]
    | None => []
    end.
Proof.
  intros H2. destruct (model_definition_trace env cfg _ _ _ _ H2) as [_ T2].
  destruct (String.eqb (backbone cfg) "unet3d"); [|by destruct T2].
  destruct (dino_weights cfg) as [p|]; [|destruct (suprem_weights cfg) as [p|]];
    cbn in T2.
  1,2: destruct (checkpoints env p) as [ckpt|]; cbn in T2;
    [destruct (dict_get _ ckpt); cbn in T2|].
  all: by destruct T2 as [? ->].
Qed.

(** X13.  In a run of [main] that returns, the logger's output path, the
    [model_dir] of the Lightning module and the [default_root_dir] of the
    trainer are all [os.path.join(cfg.results_dir, cfg.experiment)], and that
    directory exists when the run ends; the logger is started at level
    [logging.INFO]. *)
Theorem one_model_directory cfg fs :
  let dir := os_path_join (results_dir cfg) (experiment cfg) in
  let r := main argmax0 env cfg (initial fs) in
  r.1 = Ok tt →
  ∃ pl tr,
    loggers_started (st_calls r.2) = [(dir, 20%Z)] ∧
    lightning_modules (st_calls r.2) = [pl] ∧
    lm_model_dir pl = dir ∧
    trainers_built (st_calls r.2) = [tr] ∧
    tr_default_root_dir tr = dir ∧
    is_Some (st_fs r.2 !! dir).
Proof.
  intros dir r Hok. subst r.
  destruct (main_returns argmax0 env cfg fs Hok)
    as (n1 & n2 & n3 & n4 & model & dl1 & dl2 & dl3 & -> & K1 & K2 & K3 & K4 & _ & Hdir & _
        & _ & H3 & H4).
  destruct (dataset_preparation_trace env cfg _ _ _ _ _ H3) as [_ T3]. cbv zeta in T3.
  destruct (csv_files env (csv_path cfg)) as [df_all|]; [|by destruct T3].
  destruct T3 as [_ ->].
  destruct (training_trace argmax0 env cfg _ _ _ _ _ _ _ _ _ H4) as (_ & _ & ->).
  do 2 eexists. observe. destruct (test_ckpt cfg); cbn; done.
Qed.

(** X14.  A run of [main] that returns builds one trainer, and every trainer
    [main] builds runs on the GPU with as many devices as
    [torch.cuda.device_count()] reports (not as [cfg.cuda_devices] lists),
    with the strategy ["ddp"] when there is more than one device and ["auto"]
    otherwise, for [cfg.n_epochs] epochs, which is also the [T_max] of the
    scheduler of the Lightning module, without sanity validation steps and
    not in deterministic mode, and with [cfg.grad_clip],
    [cfg.accumulate_grad_batches] and [cfg.precision]. *)
Theorem trainer_settings cfg fs :
  let r := main argmax0 env cfg (initial fs) in
  (r.1 = Ok tt → ∃ tr, trainers_built (st_calls r.2) = [tr]) ∧
  (∀ tr, tr ∈ trainers_built (st_calls r.2) →
     tr_accelerator tr = "gpu" ∧
     tr_devices tr = cuda_device_count env ∧
     (tr_strategy tr = "ddp" ↔ (1 < cuda_device_count env)%Z) ∧
     (tr_strategy tr = "auto" ↔ (cuda_device_count env ≤ 1)%Z) ∧
     tr_max_epochs tr = n_epochs cfg ∧
     tr_num_sanity_val_steps tr = 0%Z ∧
     tr_deterministic tr = false ∧
     tr_gradient_clip_val tr = grad_clip cfg ∧
     tr_accumulate_grad_batches tr = accumulate_grad_batches cfg ∧
     tr_precision tr = precision cfg ∧
     ∀ pl, pl ∈ lightning_modules (st_calls r.2) →
       ∃ scheduler,
         dict_get "lr_scheduler" (lm_optimizers_and_lr_schs pl) =
           Some (ASchedulerConfig [("scheduler", scheduler)]) ∧
         T_max scheduler = tr_max_epochs tr).
Proof.
  intros r. subst r. main_phases argmax0 env cfg fs.
  2-4: split; [done|]; observe; by intros ? ?%elem_of_nil.
  destruct (training_trace argmax0 env cfg _ _ _ _ _ _ _ _ _ H4) as (_ & _ & ->).
  observe. destruct (test_ckpt cfg); cbn.
  all: split; [by eauto|]; intros tr ->%list_elem_of_singleton; cbn.
  all: do 2 (split; [done|]).
  all: split; [destruct (Z.ltb_spec 1 (cuda_device_count env)); split; (done || lia)|].
  all: split; [destruct (Z.ltb_spec 1 (cuda_device_count env)); split; (done || lia)|].
  all: do 6 (split; [done|]).
  all: intros pl ->%list_elem_of_singleton; by eexists.
Qed.

(** X15.  A run of [main] that returns prints, in this order: the
    experiment, the line ["LOADING ckpt from ..."] when [cfg.dino_weights] is
    set (loading SuPreM weights prints nothing), ["Done"], and the line
    ["Test using ckpt: ..."] when [cfg.test_ckpt] is set. *)
Theorem printed_lines cfg fs :
  let r := main argmax0 env cfg (initial fs) in
  r.1 = Ok tt →
  printed (st_calls r.2) =
    ["EXPERIMENT : " +:+ experiment cfg] ++
    match dino_weights cfg with
    | Some path => ["LOADING ckpt from " +:+ path]
    | None => []
    end ++
    ["Done"] ++
    match test_ckpt cfg with
    | Some path => ["Test using ckpt: " +:+ path]
    | None => []
    end.
Proof.
  intros r Hok. subst r.
  destruct (main_returns argmax0 env cfg fs Hok)
    as (n1 & n2 & n3 & n4 & model & dl1 & dl2 & dl3 & -> & K1 & K2 & K3 & K4 & _ & _ & Hp
        & H2 & H3 & H4).
  destruct (dataset_preparation_trace env cfg _ _ _ _ _ H3) as [_ T3]. cbv zeta in T3.
  destruct (csv_files env (csv_path cfg)) as [df_all|]; [|by destruct T3].
  destruct T3 as [_ ->].
  destruct (training_trace argmax0 env cfg _ _ _ _ _ _ _ _ _ H4) as (_ & _ & ->).
  pose proof (model_definition_printed cfg _ _ _ _ H2) as Hp2.
  unfold printed in *. rewrite !omap_app, Hp, Hp2.
  destruct (test_ckpt cfg); done.
Qed.

(** *** The exceptions of [main] *)


(** *** [pre_process_for_dice] on a sample that lacks an entry *)

(** X17.  [pre_process_for_dice] on a sample without
    ["model.logits.head_seg"] raises [KeyError] for it and leaves the sample
    as it was; on a sample that has it but no ["seg"] it raises [KeyError]
    for ["seg"] after it has replaced the prediction by its [argmax], and the
    sample stays changed; with both entries it returns. *)
Theorem pre_process_for_dice_missing_key (h : nat → gmap string tensor) sample :
  match h sample !! "model.logits.head_seg", h sample !! "seg" with
  | None, _ =>
      pre_process_for_dice argmax0 sample h = (Raise (KeyError "model.logits.head_seg"), h)
  | Some logits, None =>
      pre_process_for_dice argmax0 sample h =
        (Raise (KeyError "seg"),
         <[sample := <["model.logits.head_seg" := argmax0 logits]> (h sample)]> h)
  | Some _, Some _ => ∃ h', pre_process_for_dice argmax0 sample h = (Ok sample, h')
  end.
Proof.
  unfold pre_process_for_dice, bind, ndict_getitem, ndict_setitem, ret.
  destruct (h sample !! "model.logits.head_seg") as [logits|] eqn:Hl; [|done].
  rewrite fn_lookup_insert, lookup_insert_ne by done.
  destruct (h sample !! "seg") as [seg|] eqn:Hs; [by eexists|done].
Qed.

(** X18.  Applied twice to a sample, [pre_process_for_dice] takes the
    [argmax] of the [argmax]: it is not idempotent; the other keys and the
    other samples stay as they were. *)
Theorem pre_process_for_dice_twice (h : nat → gmap string tensor) sample logits seg :
  h sample !! "model.logits.head_seg" = Some logits →
  h sample !! "seg" = Some seg →
  ∃ h1 h2,
    pre_process_for_dice argmax0 sample h = (Ok sample, h1) ∧
    pre_process_for_dice argmax0 sample h1 = (Ok sample, h2) ∧
    h2 sample !! "model.logits.head_seg" = Some (argmax0 (argmax0 logits)) ∧
    h2 sample !! "seg" = Some (argmax0 (argmax0 seg)) ∧
    (∀ key, key ≠ "model.logits.head_seg" → key ≠ "seg" →
            h2 sample !! key = h sample !! key) ∧
    (∀ other, other ≠ sample → h2 other = h other).
Proof.
  intros Hl Hs.
  destruct (pre_process_for_dice_result argmax0 h sample logits seg Hl Hs)
    as (h1 & E1 & Hl1 & Hs1 & Hk1 & Ho1).
  destruct (pre_process_for_dice_result argmax0 h1 sample _ _ Hl1 Hs1)
    as (h2 & E2 & Hl2 & Hs2 & Hk2 & Ho2).
  exists h1, h2. do 4 (split; [done|]). split.
  - intros key H1 H2. by rewrite Hk2, Hk1.
  - intros other Hne. by rewrite Ho2, Ho1.
Qed.

End TrainingProperties.

(** ** More properties on the example world *)

Example example_visible_devices :
  env_vars_set (st_calls (example_run (example_cfg None None None None false "unet3d") ∅).2) =
    [("CUDA_VISIBLE_DEVICES", "0,1"); ("CUBLAS_WORKSPACE_CONFIG", ":4096:8")] ∧
  str_split "," "0,1" = ["0"; "1"].
Proof. vm_compute. split; reflexivity. Qed.

Example example_str_before :
  str_before "." "9c1e.v2.cmlid" = "9c1e" ∧ str_before "." "plain" = "plain" ∧
  str_before "." ".cmlid" = "".
Proof. repeat split; reflexivity. Qed.

(** A sample without its ["seg"] entry: the exception leaves the prediction
    already replaced. *)
Example example_pre_process_for_dice_no_seg :
  let h : nat → gmap string (list Z) :=
    λ _, {[ "model.logits.head_seg" := [1; 5; 2]%Z; "img" := [4]%Z ]} in
  let r := pre_process_for_dice example_argmax 0%nat h in
  r.1 = Raise (KeyError "seg") ∧
  r.2 0%nat !! "model.logits.head_seg" = Some [1]%Z.
Proof. vm_compute. split; reflexivity. Qed.

Lemma environment_and_seed_witness :
  let r := example_run (example_cfg None None None None false "unet3d") ∅ in
  r.1 = Ok tt ∧
  env_vars_set (st_calls r.2) =
    [("CUDA_VISIBLE_DEVICES", "0,1"); ("CUBLAS_WORKSPACE_CONFIG", ":4096:8")] ∧
  seeds_set (st_calls r.2) = [(1234%Z, true)].
Proof.
  assert ((example_run (example_cfg None None None None false "unet3d") ∅).1 = Ok tt)
    as Hok by (vm_compute; reflexivity).
  split; [exact Hok|].
  destruct (environment_and_seed example_argmax example_env
              (example_cfg None None None None false "unet3d") ∅ Hok) as (H1 & H2 & _).
  split; [exact H1|exact H2].
Defined.

(** The marker [9c1e.v2.cmlid]: the id is what stands before the first dot. *)
Lemma marker_task_id_witness :
  let cfg := example_cfg None None None None true "unet3d" in
  one_weights_path_at_most cfg ∧
  has_magic (os_path_join (results_dir cfg) (experiment cfg)) = false ∧
  example_fs_dotted !! "/results/seg" = Some [("log.txt", "started"); ("9c1e.v2.cmlid", "")] ∧
  task_init_ids (st_calls (example_run cfg example_fs_dotted).2) = ["9c1e"].
Proof.
  assert (one_weights_path_at_most (example_cfg None None None None true "unet3d")) as Hone
    by (unfold one_weights_path_at_most; vm_compute; lia).
  assert (example_fs_dotted !! "/results/seg" =
            Some [("log.txt", "started"); ("9c1e.v2.cmlid", "")]) as Hfs
    by (vm_compute; reflexivity).
  split; [exact Hone|]. split; [reflexivity|]. split; [exact Hfs|].
  exact (proj1 (marker_task_id example_argmax example_env
    (example_cfg None None None None true "unet3d") example_fs_dotted
    [("log.txt", "started"); ("9c1e.v2.cmlid", "")] ("9c1e.v2.cmlid", "") []
    Hone eq_refl eq_refl Hfs eq_refl eq_refl)).
Defined.


(** A DINO checkpoint with student weights only: an empty state dict is
    loaded, the model is built and the run returns. *)
Lemma dino_without_teacher_keys_witness :
  let cfg := example_cfg None (Some "student.ckpt") None None false "unet3d" in
  let r := main example_argmax example_env_more cfg (initial ∅) in
  (setup example_env_more cfg (initial ∅)).1 = Ok "/results/seg" ∧
  r.1 = Ok tt ∧ loaded_state_dicts (st_calls r.2) = [(∅, false)] ∧
  ∃ m, models_built (st_calls r.2) = [m].
Proof.
  assert ((setup example_env_more
             (example_cfg None (Some "student.ckpt") None None false "unet3d")
             (initial ∅)).1 = Ok "/results/seg") as Hset by (vm_compute; reflexivity).
  split; [exact Hset|].
  destruct (dino_without_teacher_keys example_argmax example_env_more
              (example_cfg None (Some "student.ckpt") None None false "unet3d") ∅
              "student.ckpt" [("state_dict", [("student_backbone.w", [4; 5]%Z)])]
              [("student_backbone.w", [4; 5]%Z)] eq_refl eq_refl eq_refl)
    as (_ & _ & _ & H).
  - repeat constructor.
  - destruct (H Hset eq_refl) as (Hl & Hm & Hr).
    split; [exact Hr|]. split; [exact Hl|exact Hm].
Defined.

(** A SuPreM checkpoint saved without the prefix: [w] is loaded, [head.b],
    which the backbone does not have, is ignored and [b] stays. *)
Lemma suprem_without_prefix_witness :
  let cfg := example_cfg (Some "plain.pth") None None None false "unet3d" in
  let r := main example_argmax example_env_more cfg (initial ∅) in
  ∃ m, models_built (st_calls r.2) = [m] ∧
       unet_state_dict (mmh_backbone m) !! "w" = Some [7; 8]%Z ∧
       unet_state_dict (mmh_backbone m) !! "b" = Some [5]%Z ∧
       unet_state_dict (mmh_backbone m) !! "head.b" = None.
Proof.
  destruct (suprem_without_prefix example_argmax example_env_more
              (example_cfg (Some "plain.pth") None None None false "unet3d") ∅
              "plain.pth" [("net", [("w", [7; 8]%Z); ("head.b", [9]%Z)])]
              [("w", [7; 8]%Z); ("head.b", [9]%Z)] eq_refl eq_refl eq_refl eq_refl)
    as (_ & Hm & H).
  - apply (bool_decide_unpack _). vm_compute. reflexivity.
  - repeat constructor.
  - destruct H as (sd & m & _ & Hmb); [vm_compute; reflexivity|].
    exists m. split; [exact Hmb|].
    assert (m ∈ models_built
              (st_calls (main example_argmax example_env_more
                 (example_cfg (Some "plain.pth") None None None false "unet3d")
                 (initial ∅)).2)) as Hin by (rewrite Hmb; apply list_elem_of_here).
    split; [exact (Hm m "w" Hin)|]. split; [exact (Hm m "b" Hin)|exact (Hm m "head.b" Hin)].
Defined.

(** A checkpoint file without ["state_dict"]. *)
Lemma checkpoint_unreadable_witness :
  let cfg := example_cfg None (Some "weights_only.ckpt") None None false "unet3d" in
  let r := main example_argmax example_env_more cfg (initial ∅) in
  (setup example_env_more cfg (initial ∅)).1 = Ok "/results/seg" ∧
  r.1 = Raise (KeyError "state_dict") ∧
  backbones_constructed (st_calls r.2) = [false] ∧
  models_built (st_calls r.2) = [] ∧
  is_Some (st_fs r.2 !! "/results/seg").
Proof.
  assert ((setup example_env_more
             (example_cfg None (Some "weights_only.ckpt") None None false "unet3d")
             (initial ∅)).1 = Ok "/results/seg") as Hset by (vm_compute; reflexivity).
  split; [exact Hset|].
  destruct (checkpoint_unreadable example_argmax example_env_more
              (example_cfg None (Some "weights_only.ckpt") None None false "unet3d") ∅
              "weights_only.ckpt" "state_dict" Hset eq_refl
              (or_introl (conj eq_refl eq_refl)) eq_refl)
    as (H1 & H2 & _ & H4 & _ & _ & H7).
  split; [exact H1|]. split; [exact H2|]. split; [exact H4|exact H7].
Defined.

(** The three data loaders of the example run. *)
Lemma data_loader_settings_witness :
  let r := example_run (example_cfg None None None None false "unet3d") ∅ in
  r.1 = Ok tt ∧
  map (λ dl, (dl_shuffle dl, dl_batch_size dl, gen_seed <$> dl_generator dl))
    (dataloaders_built (st_calls r.2)) =
    [(true, 2%Z, None); (false, 1%Z, Some 1234%Z); (false, 1%Z, Some 1234%Z)].
Proof.
  assert ((example_run (example_cfg None None None None false "unet3d") ∅).1 = Ok tt)
    as Hok by (vm_compute; reflexivity).
  split; [exact Hok|].
  destruct (data_loader_settings example_argmax example_env
              (example_cfg None None None None false "unet3d") ∅ Hok)
    as (dl1 & dl2 & dl3 & Hdl & _ & S1 & B1 & G1 & Heval & _).
  unfold example_run. rewrite Hdl.
  destruct (Heval dl2) as (S2 & B2 & G2); [apply list_elem_of_here|].
  destruct (Heval dl3) as (S3 & B3 & G3);
    [apply list_elem_of_further, list_elem_of_here|].
  simpl. rewrite S1, B1, G1, S2, B2, G2, S3, B3, G3. reflexivity.
Defined.

(** The example folds are disjoint; the row of fold 9 is in no split. *)
Lemma splits_of_disjoint_folds_witness :
  let r := example_run (example_cfg None None None None false "unet3d") ∅ in
  r.1 = Ok tt ∧
  ∃ train val test,
    map ds_df (datasets_built (st_calls r.2)) = [train; val; test] ∧
    (length train + length val + length test)%nat = 3%nat.
Proof.
  assert ((example_run (example_cfg None None None None false "unet3d") ∅).1 = Ok tt)
    as Hok by (vm_compute; reflexivity).
  split; [exact Hok|].
  destruct (splits_of_disjoint_folds example_argmax example_env
              (example_cfg None None None None false "unet3d") ∅ Hok)
    as (df & tr & va & te & Hcsv & Hds & _ & Hlen & _).
  - intros f. simpl. rewrite !elem_of_cons, !elem_of_nil. lia.
  - intros f. simpl. rewrite !elem_of_cons, !elem_of_nil. lia.
  - exists tr, va, te. split; [exact Hds|].
    rewrite Hlen. injection Hcsv as <-. vm_compute. reflexivity.
Defined.

(** Without the CSV file, the run stops after the model was built. *)
Lemma csv_missing_witness :
  let cfg := example_cfg None None None None false "unet3d" in
  let r := main example_argmax example_env_no_csv cfg (initial ∅) in
  (setup example_env_no_csv cfg (initial ∅)).1 = Ok "/results/seg" ∧
  csv_files example_env_no_csv (csv_path cfg) = None ∧
  r.1 = Raise (FileNotFoundError "folds.csv") ∧
  length (models_built (st_calls r.2)) = 1%nat ∧
  datasets_built (st_calls r.2) = [].
Proof.
  assert ((setup example_env_no_csv (example_cfg None None None None false "unet3d")
             (initial ∅)).1 = Ok "/results/seg") as Hset by (vm_compute; reflexivity).
  split; [exact Hset|]. split; [reflexivity|].
  destruct (csv_missing example_argmax example_env_no_csv
              (example_cfg None None None None false "unet3d") ∅ Hset eq_refl I eq_refl)
    as (H1 & H2 & _ & _ & _ & H6 & _).
  split; [exact H1|]. split; [exact H2|exact H6].
Defined.

(** The directory of the example run. *)
Lemma one_model_directory_witness :
  let r := example_run (example_cfg None None None None false "unet3d") ∅ in
  r.1 = Ok tt ∧
  loggers_started (st_calls r.2) = [("/results/seg", 20%Z)] ∧
  map lm_model_dir (lightning_modules (st_calls r.2)) = ["/results/seg"] ∧
  map tr_default_root_dir (trainers_built (st_calls r.2)) = ["/results/seg"].
Proof.
  assert ((example_run (example_cfg None None None None false "unet3d") ∅).1 = Ok tt)
    as Hok by (vm_compute; reflexivity).
  split; [exact Hok|].
  destruct (one_model_directory example_argmax example_env
              (example_cfg None None None None false "unet3d") ∅ Hok)
    as (pl & tr & H1 & H2 & H3 & H4 & H5 & _).
  unfold example_run. rewrite H2, H4. simpl. rewrite H3, H5.
  split; [exact H1|]. split; reflexivity.
Defined.

(** What the example run with DINO weights prints. *)
Lemma printed_lines_witness :
  let r := example_run (example_cfg None (Some "dino.ckpt") None None false "unet3d") ∅ in
  r.1 = Ok tt ∧
  printed (st_calls r.2) = ["EXPERIMENT : seg"; "LOADING ckpt from dino.ckpt"; "Done"].
Proof.
  assert ((example_run (example_cfg None (Some "dino.ckpt") None None false "unet3d") ∅).1 =
            Ok tt) as Hok by (vm_compute; reflexivity).
  split; [exact Hok|].
  exact (printed_lines example_argmax example_env
           (example_cfg None (Some "dino.ckpt") None None false "unet3d") ∅ Hok).
Defined.

(** Twice on one sample: the second [argmax] is taken of the first. *)
Lemma pre_process_for_dice_twice_witness :
  let h : nat → gmap string (list Z) :=
    λ _, {[ "model.logits.head_seg" := [1; 5; 2]%Z; "seg" := [0; 0; 1]%Z ]} in
  ∃ h1 h2,
    pre_process_for_dice example_argmax 0%nat h = (Ok 0%nat, h1) ∧
    pre_process_for_dice example_argmax 0%nat h1 = (Ok 0%nat, h2) ∧
    h1 0%nat !! "seg" = Some [2]%Z ∧
    h2 0%nat !! "seg" = Some [0]%Z.
Proof.
  destruct (pre_process_for_dice_twice example_argmax
              (λ _, {[ "model.logits.head_seg" := [1; 5; 2]%Z; "seg" := [0; 0; 1]%Z ]})
              0%nat [1; 5; 2]%Z [0; 0; 1]%Z)
    as (h1 & h2 & E1 & E2 & _ & Hs & _).
  - vm_compute. reflexivity.
  - vm_compute. reflexivity.
  - exists h1, h2. split; [exact E1|]. split; [exact E2|]. split; [|exact Hs].
    injection E1 as <-. vm_compute. reflexivity.
Defined.
